(** * Signal evaluation engine of the stock check-in scripts

    A shallow embedding of the decision functions of
    [daily_stock_checkin.py] and [insider_activity.py]:
    [compute_price_change_pct], [nth_business_day_of_month],
    [build_due_tasks], [evaluate_guardrails] and [detect_cluster_selling],
    the functions around them ([parse_iso_date], [summarize_error_message],
    [safe_float], [safe_int], [resolve_watchlist], [fetch_snapshot],
    [parse_money], [parse_int_shares]),
    together with the part of the Python runtime they rely on
    (exceptions, [int()] and [float()] conversions, [datetime.date],
    binary64 floats and their fixed-point formatting). *)

From Stdlib Require Import ZArith Floats Ascii String List Permutation Sorted Lia.
From stdpp Require Import base option list sorting gmap strings pretty.

Local Open Scope Z_scope.

Set Warnings "-inexact-float,-register-all".

(** ** Exceptions

    A Python call either returns or raises.  [OutOfFuel] is not a Python
    outcome: it is what a bounded loop of the model answers when its
    fuel is used up, and the loops below are shown never to answer it. *)

Inductive exn : Set := TypeError | ValueError | OverflowError.

Inductive result (A : Type) : Type :=
  | Ok (a : A)
  | Raise (e : exn)
  | OutOfFuel.

Arguments Ok {A} a.
Arguments Raise {A} e.
Arguments OutOfFuel {A}.

Global Instance result_ret : MRet result := fun A a => Ok a.

Global Instance result_bind : MBind result := fun A B f m =>
  match m with
  | Ok a => f a
  | Raise e => Raise e
  | OutOfFuel => OutOfFuel
  end.

Definition returns {A} (m : result A) : Prop := exists a, m = Ok a.


(** ** Characters and strings (ASCII) *)

Module Text.

Definition code (c : ascii) : Z := Z.of_N (N_of_ascii c).

Definition is_digit (c : ascii) : bool := (48 <=? code c) && (code c <=? 57).

Definition digit_value (c : ascii) : Z := code c - 48.

(** [str.isspace] on the ASCII range: tab to carriage return, the four
    separators 0x1c-0x1f and the blank. *)
Definition is_space (c : ascii) : bool :=
  ((9 <=? code c) && (code c <=? 13)) || ((28 <=? code c) && (code c <=? 32)).

Definition to_lower (c : ascii) : ascii :=
  if (65 <=? code c) && (code c <=? 90)
  then ascii_of_N (Z.to_N (code c + 32)) else c.

Fixpoint lstrip (l : list ascii) : list ascii :=
  match l with
  | c :: l' => if is_space c then lstrip l' else l
  | [] => []
  end.

Definition strip_chars (l : list ascii) : list ascii :=
  rev (lstrip (rev (lstrip l))).

(** [s.strip()] *)
Definition strip (s : string) : string :=
  string_of_list_ascii (strip_chars (list_ascii_of_string s)).

(** [s.lower()] *)
Definition lower (s : string) : string :=
  string_of_list_ascii (map to_lower (list_ascii_of_string s)).

(** [needle in hay] for two strings. *)
Fixpoint contains (needle hay : string) : bool :=
  String.prefix needle hay ||
  match hay with
  | EmptyString => false
  | String _ hay' => contains needle hay'
  end.

(** [sep.join(parts)] *)
Definition join (sep : string) (parts : list string) : string :=
  String.concat sep parts.

Fixpoint zeros (n : nat) : string :=
  match n with
  | O => ""
  | S n' => String "0"%char (zeros n')
  end.

(** Decimal digits of a natural number, at least [width] of them
    (the [%0<width>d] conversion). *)
Definition zero_pad (width : nat) (n : Z) : string :=
  let digits := pretty (Z.to_N n) in
  zeros (width - String.length digits) +:+ digits.

(** [str(n)] for an [int]. *)
Definition of_int (n : Z) : string := pretty n.

End Text.

(** ** Binary64 floats

    Python's [float] is the kernel's primitive [float]; a finite value is
    read exactly as [m * 2^e] through [Prim2SF]. *)

Module Float.

(** The binary64 value nearest to [n / d] (ties to even), for [n >= 0]
    and [d > 0]: the quotient is taken with 56 bits or more and the
    remainder decides the rounding. *)
Definition of_ratio (neg : bool) (n d : Z) : float :=
  if n =? 0 then SF2Prim (S754_zero neg) else
  let s := 55 + Z.log2 d - Z.log2 n in
  let num := if 0 <=? s then n * 2 ^ s else n in
  let den := if 0 <=? s then d else d * 2 ^ (- s) in
  let q := num / den in
  let r := num mod den in
  let loc := if r =? 0 then loc_Exact else loc_Inexact (2 * r ?= den) in
  SF2Prim (binary_round_aux prec emax neg q (- s) loc).

(** [float(n)] for an [int]: the nearest float, or nothing when it
    would be infinite. *)
Definition of_int (n : Z) : option float :=
  let f := of_ratio (n <? 0) (Z.abs n) 1 in
  if is_infinity f then None else Some f.

(** Round-half-even of the non-negative rational [n / d]. *)
Definition round_half_even (n d : Z) : Z :=
  let q := n / d in
  let r := n mod d in
  match 2 * r ?= d with
  | Lt => q
  | Gt => q + 1
  | Eq => if Z.even q then q else q + 1
  end.

(** [|x| * 10^ndigits] rounded to an integer (ties to even on the exact
    binary value), for a finite [x = m * 2^e]. *)
Definition scaled (m : positive) (e : Z) (ndigits : nat) : Z :=
  let p := 10 ^ Z.of_nat ndigits in
  if 0 <=? e then Z.pos m * 2 ^ e * p
  else round_half_even (Z.pos m * p) (2 ^ (- e)).

(** [round(x, ndigits)] for [ndigits >= 0]: the float nearest to the
    correctly rounded decimal; infinities and NaN round to themselves. *)
Definition round (x : float) (ndigits : nat) : float :=
  match Prim2SF x with
  | S754_finite s m e => of_ratio s (scaled m e ndigits) (10 ^ Z.of_nat ndigits)
  | _ => x
  end.

(** [int(x)]: truncation towards zero. *)
Definition trunc (x : float) : result Z :=
  match Prim2SF x with
  | S754_zero _ => Ok 0
  | S754_nan => Raise ValueError
  | S754_infinity _ => Raise OverflowError
  | S754_finite s m e =>
      let a := if 0 <=? e then Z.pos m * 2 ^ e else Z.pos m / 2 ^ (- e) in
      Ok (if s then - a else a)
  end.

Definition sign_text (plus neg : bool) : string :=
  if neg then "-" else if plus then "+" else "".

(** [format(x, '.<ndigits>f')], and [format(x, '+.<ndigits>f')] when
    [plus] is set, for [ndigits >= 1]. *)
Definition format_fixed (plus : bool) (ndigits : nat) (x : float) : string :=
  match Prim2SF x with
  | S754_nan => sign_text plus false +:+ "nan"
  | S754_infinity s => sign_text plus s +:+ "inf"
  | S754_zero s => sign_text plus s +:+ "0." +:+ Text.zeros ndigits
  | S754_finite s m e =>
      let k := scaled m e ndigits in
      let p := 10 ^ Z.of_nat ndigits in
      sign_text plus s +:+ Text.of_int (k / p) +:+ "." +:+ Text.zero_pad ndigits (k mod p)
  end.

End Float.

(** ** Values of a parsed YAML mapping, and the conversions applied to them *)

Inductive PyVal : Type :=
  | VNone
  | VBool (b : bool)
  | VInt (z : Z)
  | VFloat (f : float)
  | VStr (s : string)
  | VList (l : list PyVal).

Module Parse.

(** A run of digits in which single underscores may separate digits
    ([digit (["_"] digit)*]), read up to the first character that cannot
    continue it.  Returns the digits and the unread rest. *)
Fixpoint digitpart_go (l : list ascii) (acc : list Z) : list Z * list ascii :=
  match l with
  | c :: l' =>
      if Text.is_digit c then digitpart_go l' (Text.digit_value c :: acc)
      else
        match c, l' with
        | "_"%char, c' :: _ =>
            if Text.is_digit c' then digitpart_go l' acc else (rev acc, l)
        | _, _ => (rev acc, l)
        end
  | [] => (rev acc, [])
  end.

Definition digitpart (l : list ascii) : list Z * list ascii :=
  match l with
  | c :: _ => if Text.is_digit c then digitpart_go l [] else ([], l)
  | [] => ([], [])
  end.

Definition decimal (ds : list Z) : Z := fold_left (fun n d => 10 * n + d) ds 0.

Definition sign (l : list ascii) : bool * list ascii :=
  match l with
  | "-"%char :: l' => (true, l')
  | "+"%char :: l' => (false, l')
  | _ => (false, l)
  end.

(** [int(s)] for a string, base ten. *)
Definition int_of_string (s : string) : result Z :=
  let '(neg, l) := sign (Text.strip_chars (list_ascii_of_string s)) in
  match digitpart l with
  | (d :: ds, []) => Ok (if neg then - decimal (d :: ds) else decimal (d :: ds))
  | _ => Raise ValueError
  end.

Definition lower_text (l : list ascii) : string :=
  string_of_list_ascii (map Text.to_lower l).

(** The exponent part [("e" | "E") ["+" | "-"] digitpart], when present. *)
Definition exponent (l : list ascii) : option Z :=
  match l with
  | [] => Some 0
  | c :: l' =>
      if Ascii.eqb (Text.to_lower c) "e" then
        let '(neg, l'') := sign l' in
        match digitpart l'' with
        | (d :: ds, []) => Some (if neg then - decimal (d :: ds) else decimal (d :: ds))
        | _ => None
        end
      else None
  end.

(** [float(s)] for a string: [inf], [infinity] and [nan] in any case, or
    a decimal number with an optional fraction and exponent, rounded to
    the nearest binary64 value. *)
Definition float_of_string (s : string) : result float :=
  let '(neg, l) := sign (Text.strip_chars (list_ascii_of_string s)) in
  let word := lower_text l in
  if String.eqb word "inf" || String.eqb word "infinity"
  then Ok (if neg then neg_infinity else infinity)
  else if String.eqb word "nan" then Ok nan
  else
    let '(ip, l1) := digitpart l in
    let '(fp, l2) :=
      match l1 with
      | "."%char :: l1' => digitpart l1'
      | _ => ([], l1)
      end in
    match ip ++ fp, exponent l2 with
    | _ :: _, Some e =>
        let m := decimal (ip ++ fp) in
        let e := e - Z.of_nat (length fp) in
        Ok (if 0 <=? e then Float.of_ratio neg (m * 10 ^ e) 1
            else Float.of_ratio neg m (10 ^ (- e)))
    | _, _ => Raise ValueError
    end.

End Parse.

(** [int(v)] *)
Definition py_int (v : PyVal) : result Z :=
  match v with
  | VNone => Raise TypeError
  | VBool b => Ok (if b then 1 else 0)
  | VInt z => Ok z
  | VFloat f => Float.trunc f
  | VStr s => Parse.int_of_string s
  | VList _ => Raise TypeError
  end.

(** [float(v)] *)
Definition py_float (v : PyVal) : result float :=
  match v with
  | VNone => Raise TypeError
  | VBool b => Ok (if b then 1%float else 0%float)
  | VInt z =>
      match Float.of_int z with
      | Some f => Ok f
      | None => Raise OverflowError
      end
  | VFloat f => Ok f
  | VStr s => Parse.float_of_string s
  | VList _ => Raise TypeError
  end.

(** [n == v] for an [int] on the left. *)
Definition py_int_eq (n : Z) (v : PyVal) : bool :=
  match v with
  | VBool b => n =? (if b then 1 else 0)
  | VInt z => n =? z
  | VFloat f =>
      match Float.trunc f with
      | Ok z => (n =? z) && (match Float.of_int z with Some g => PrimFloat.eqb f g | None => false end)
      | _ => false
      end
  | _ => false
  end.

(** [n in v] for an [int] on the left: a list is searched, every other
    value of the model refuses the test. *)
Definition py_int_in (n : Z) (v : PyVal) : result bool :=
  match v with
  | VList l => Ok (existsb (py_int_eq n) l)
  | _ => Raise TypeError
  end.

(** [d.get(key, default)] *)
Definition dict_get {V} (d : gmap string V) (key : string) (dflt : V) : V :=
  default dflt (d !! key).

(** ** Calendar dates ([datetime.date])

    The proleptic Gregorian calendar of years 1 to 9999, with the
    day counts of CPython's [datetime] module. *)

Definition is_leap (y : Z) : bool :=
  (y mod 4 =? 0) && (negb (y mod 100 =? 0) || (y mod 400 =? 0)).

Definition days_in_month (y m : Z) : Z :=
  if m =? 2 then (if is_leap y then 29 else 28)
  else if (m =? 4) || (m =? 6) || (m =? 9) || (m =? 11) then 30
  else 31.

Definition days_before_year (y : Z) : Z :=
  let p := y - 1 in p * 365 + p / 4 - p / 100 + p / 400.

Definition days_before_month (y m : Z) : Z :=
  nth (Z.to_nat m) [0; 0; 31; 59; 90; 120; 151; 181; 212; 243; 273; 304; 334] 0
  + (if (2 <? m) && is_leap y then 1 else 0).

(** [_ymd2ord]: 0001-01-01 is day 1. *)
Definition ymd_ordinal (y m d : Z) : Z :=
  days_before_year y + days_before_month y m + d.

Definition MINYEAR : Z := 1.
Definition MAXYEAR : Z := 9999.

Definition valid_ymd (y m d : Z) : bool :=
  (MINYEAR <=? y) && (y <=? MAXYEAR) && (1 <=? m) && (m <=? 12)
  && (1 <=? d) && (d <=? days_in_month y m).

(** A [date] object always holds a valid day. *)
Record date : Set := Date {
  year : Z;
  month : Z;
  day : Z;
  date_valid : Is_true (valid_ymd year month day)
}.

(** [date(y, m, d)] *)
Definition mk_date (y m d : Z) : result date :=
  match Is_true_dec (valid_ymd y m d) with
  | left ok => Ok (Date y m d ok)
  | right _ => Raise ValueError
  end.

Definition toordinal (d : date) : Z := ymd_ordinal (year d) (month d) (day d).

(** [d.weekday()]: Monday is 0, Sunday is 6. *)
Definition weekday_of_ordinal (o : Z) : Z := (o + 6) mod 7.

Definition weekday (d : date) : Z := weekday_of_ordinal (toordinal d).

(** [(a - b).days] *)
Definition days_between (a b : date) : Z := toordinal a - toordinal b.

(** Comparison of dates: by year, then month, then day. *)
Definition date_compare (a b : date) : comparison :=
  match year a ?= year b with
  | Eq => match month a ?= month b with
          | Eq => day a ?= day b
          | c => c
          end
  | c => c
  end.

(** [a <= b] *)
Definition date_le (a b : date) : bool :=
  match date_compare a b with Gt => false | _ => true end.

(** [d.replace(day=n)] *)
Definition replace_day (d : date) (n : Z) : result date :=
  mk_date (year d) (month d) n.

(** The day after [d]; there is none after 9999-12-31. *)
Definition next_day (d : date) : result date :=
  if day d <? days_in_month (year d) (month d) then mk_date (year d) (month d) (day d + 1)
  else if month d <? 12 then mk_date (year d) (month d + 1) 1
  else if year d <? MAXYEAR then mk_date (year d + 1) 1 1
  else Raise OverflowError.

(** [d + timedelta(days=n)] for [n >= 0]. *)
Fixpoint date_add_days (d : date) (n : nat) : result date :=
  match n with
  | O => Ok d
  | S n' => d' ← next_day d; date_add_days d' n'
  end.

(** [d.isoformat()] *)
Definition isoformat (d : date) : string :=
  Text.zero_pad 4 (year d) +:+ "-" +:+ Text.zero_pad 2 (month d) +:+ "-" +:+ Text.zero_pad 2 (day d).

(** [datetime.strptime(s, "%Y-%m-%d").date()]: four digits, then a month
    and a day of one or two digits (the day may also be a blank and a
    digit), and nothing else. *)
Definition two_digit_field (allow_blank : bool) (l : list ascii) : option Z :=
  match l with
  | [c] => if Text.is_digit c && negb (Ascii.eqb c "0") then Some (Text.digit_value c) else None
  | [c1; c2] =>
      if Text.is_digit c1 && Text.is_digit c2
      then Some (10 * Text.digit_value c1 + Text.digit_value c2)
      else if allow_blank && Ascii.eqb c1 " " && Text.is_digit c2 && negb (Ascii.eqb c2 "0")
      then Some (Text.digit_value c2)
      else None
  | _ => None
  end.

Fixpoint split_at_dash (l : list ascii) : list ascii * option (list ascii) :=
  match l with
  | [] => ([], None)
  | c :: l' =>
      if Ascii.eqb c "-" then ([], Some l')
      else let '(a, b) := split_at_dash l' in (c :: a, b)
  end.

Definition strptime_ymd (s : string) : result date :=
  match list_ascii_of_string s with
  | y1 :: y2 :: y3 :: y4 :: "-"%char :: rest =>
      if forallb Text.is_digit [y1; y2; y3; y4] then
        match split_at_dash rest with
        | (ms, Some ds) =>
            match two_digit_field false ms, two_digit_field true ds with
            | Some m, Some d =>
                if (1 <=? m) && (m <=? 12) && (1 <=? d) && (d <=? 31)
                then mk_date (Parse.decimal (map Text.digit_value [y1; y2; y3; y4])) m d
                else Raise ValueError
            | _, _ => Raise ValueError
            end
        | _ => Raise ValueError
        end
      else Raise ValueError
  | _ => Raise ValueError
  end.

(** ** Data model *)

(** The dataclass [WatchlistItem]; its fields [ticker] and [company] are
    [wl_ticker] and [wl_company] here, the plain names being those of
    [Snapshot]. *)
Record WatchlistItem : Type := {
  wl_ticker : string;
  wl_company : string;
  earnings_date : option date
}.

(** The dataclass [Snapshot]. *)
Record Snapshot : Type := {
  ticker : string;
  company : string;
  price : option float;
  price_change_pct : option float;
  market_cap : option Z;
  pe_trailing : option float;
  pe_forward : option float;
  ev_ebitda : option float;
  ps_ratio : option float;
  last_trade_date : option date;
  error : option string
}.

(** One row of the insider table, with the nine keys
    [fetch_insider_data] gives every transaction ([price] is [tx_price]
    here). *)
Record Transaction : Type := {
  filing_date : string;
  trade_date : string;
  insider_name : string;
  title : string;
  trade_type : string;
  tx_price : option float;
  shares : option Z;
  value : option float;
  filing_url : string
}.

(** Truth value of a [str | None] field: set and not empty. *)
Definition truthy (o : option string) : bool :=
  match o with
  | Some s => negb (String.eqb s "")
  | None => false
  end.

(** [o is None] *)
Definition is_none {A} (o : option A) : bool :=
  match o with
  | Some _ => false
  | None => true
  end.

(** Truth value of a list: not empty. *)
Definition nonempty {A} (l : list A) : bool :=
  match l with
  | [] => false
  | _ :: _ => true
  end.

(** [len(l)] *)
Definition len {A} (l : list A) : Z := Z.of_nat (length l).

(** [sorted(l)] for a list of strings. *)
Definition sorted (l : list string) : list string := merge_sort String.le l.

(** ** [daily_stock_checkin.py] *)

Definition compute_price_change_pct (current previous_close : option float) : option float :=
  match current, previous_close with
  | Some current, Some previous_close =>
      if (previous_close =? 0)%float then None
      else if (current =? previous_close)%float then None
      else if (previous_close <? current * 0.01)%float || (current * 100 <? previous_close)%float
      then None
      else Some (Float.round (((current - previous_close) / previous_close) * 100)%float 2)
  | _, _ => None
  end.

(** The [while cursor <= target_date] loop; a month has at most 31 days,
    so 32 rounds are enough. *)
Fixpoint business_day_loop (fuel : nat) (cursor target_date : date) (count : Z) : result Z :=
  match fuel with
  | O => OutOfFuel
  | S fuel' =>
      if date_le cursor target_date then
        let count := if weekday cursor <? 5 then count + 1 else count in
        cursor ← date_add_days cursor 1;
        business_day_loop fuel' cursor target_date count
      else Ok count
  end.

Definition nth_business_day_of_month (target_date : date) : result Z :=
  cursor ← replace_day target_date 1;
  business_day_loop 32 cursor target_date 0.

Definition DAY_NAME_TO_WEEKDAY : gmap string Z :=
  list_to_map [("monday", 0); ("tuesday", 1); ("wednesday", 2); ("thursday", 3);
               ("friday", 4); ("saturday", 5); ("sunday", 6)].

(** [str(v).strip().lower()] as a key of [DAY_NAME_TO_WEEKDAY].  For a
    value that is not a string, [str(v)] is [None], [True], [False], the
    digits of a number or a bracketed list: no weekday name, so the
    lookup takes its default. *)
Definition weekday_key (v : PyVal) : option string :=
  match v with
  | VStr s => Some (Text.lower (Text.strip s))
  | _ => None
  end.

Definition daily_tasks : list string :=
  [ "Review red flags checklist for all six names.";
    "Scan 8-K filings and material company announcements.";
    "Check sell-side estimate revisions and target changes.";
    "Check hyperscaler AI capex commentary deltas (MSFT, GOOG, META, AMZN)." ].

Definition weekly_tasks : list string :=
  [ "Review Form 4 insider buy/sell activity.";
    "Review sector flow and relative performance signals (SMH, GRID/ICLN).";
    "Review valuation drift versus your baseline thesis assumptions." ].

Definition bi_monthly_tasks : list string :=
  [ "Check short-interest updates and changes in crowding risk.";
    "Review options implied volatility into the next earnings windows." ].

Definition monthly_tasks : list string :=
  [ "Review macro layer: fed path, 10Y yield, and cost-of-capital pressure.";
    "Review policy/regulation changes: export controls, tariff updates, DOE/NRC updates." ].

Definition earnings_window_tasks : list string :=
  [ "Run earnings workflow: pre-read release, call notes, guidance delta, and post-call thesis check." ].

Definition build_due_tasks (run_date : date) (cadence_cfg : gmap string PyVal)
    (earnings_due : list string) : result (gmap string (list string)) :=
  let daily := daily_tasks in
  let weekly_day := weekday_key (dict_get cadence_cfg "weekly_review_day" (VStr "Friday")) in
  let weekly :=
    if weekday run_date =? from_option (fun k => dict_get DAY_NAME_TO_WEEKDAY k 4) 4 weekly_day
    then weekly_tasks else [] in
  let bi_monthly_days := dict_get cadence_cfg "bi_monthly_days" (VList [VInt 1; VInt 15]) in
  is_bi_monthly ← py_int_in (day run_date) bi_monthly_days;
  let bi_monthly := if is_bi_monthly : bool then bi_monthly_tasks else [] in
  monthly_business_day ← py_int (dict_get cadence_cfg "monthly_review_business_day" (VInt 1));
  nth ← nth_business_day_of_month run_date;
  let monthly := if nth =? monthly_business_day then monthly_tasks else [] in
  let earnings_window := if nonempty earnings_due then earnings_window_tasks else [] in
  Ok (<["daily" := daily]> (<["weekly" := weekly]> (<["bi_monthly" := bi_monthly]>
       (<["monthly" := monthly]> (<["earnings_window" := earnings_window]> ∅))))).

(** The texts [evaluate_guardrails] builds. *)
Definition missing_message (missing : list string) : string :=
  "Missing critical data for " +:+ Text.of_int (len missing) +:+ " ticker(s): "
  +:+ Text.join ", " (sorted missing).

Definition stale_entry (snap : Snapshot) (d : date) : string :=
  ticker snap +:+ " (" +:+ isoformat d +:+ ")".

Definition stale_message (stale : list string) : string :=
  "Stale market timestamps beyond allowed window: " +:+ Text.join ", " stale.

Definition move_entry (snap : Snapshot) (change : float) : string :=
  ticker snap +:+ " (" +:+ Float.format_fixed true 2 change +:+ "%)".

Definition move_message (threshold : float) (large_moves : list string) : string :=
  "Large daily move >= " +:+ Float.format_fixed false 1 threshold +:+ "%: "
  +:+ Text.join ", " large_moves.

Definition earnings_relation (delta : Z) : string :=
  let relation := "today" in
  if delta <? 0 then Text.of_int (Z.abs delta) +:+ " day(s) ago"
  else if 0 <? delta then "in " +:+ Text.of_int delta +:+ " day(s)"
  else relation.

Definition earnings_entry (item : WatchlistItem) (d : date) (delta : Z) : string :=
  wl_ticker item +:+ " (" +:+ wl_company item +:+ ") earnings " +:+ isoformat d
  +:+ " [" +:+ earnings_relation delta +:+ "]".

Definition earnings_message (earnings_due : list string) : string :=
  "Earnings window active: " +:+ Text.join "; " earnings_due.

Definition MANUAL_REVIEW_REQUIRED : string := "MANUAL REVIEW REQUIRED".
Definition AUTO_CLEAR : string := "AUTO CLEAR".

Definition evaluate_guardrails (snapshots : list Snapshot) (watchlist : list WatchlistItem)
    (guardrails : gmap string PyVal) (run_date : date)
    : result (string * list string * list string) :=
  let triggered : list string := [] in
  let earnings_due : list string := [] in
  max_missing_tickers ← py_int (dict_get guardrails "max_missing_tickers" (VInt 0));
  stale_data_max_days ← py_int (dict_get guardrails "stale_data_max_days" (VInt 1));
  price_move_threshold ← py_float (dict_get guardrails "price_move_pct_threshold" (VFloat 7.0));
  earnings_window_days ← py_int (dict_get guardrails "earnings_window_days" (VInt 1));
  let missing :=
    map ticker (List.filter (fun s => truthy (error s) || is_none (price s)) snapshots) in
  let triggered :=
    if max_missing_tickers <? len missing
    then triggered ++ [missing_message missing] else triggered in
  let stale :=
    fold_left (fun stale snap =>
      match last_trade_date snap, price snap with
      | Some d, Some _ =>
          let age_days := days_between run_date d in
          if stale_data_max_days <? age_days then stale ++ [stale_entry snap d] else stale
      | _, _ => stale
      end) snapshots [] in
  let triggered :=
    if nonempty stale then triggered ++ [stale_message stale] else triggered in
  let large_moves :=
    fold_left (fun large_moves snap =>
      match price_change_pct snap with
      | None => large_moves
      | Some change =>
          if (price_move_threshold <=? abs change)%float
          then large_moves ++ [move_entry snap change] else large_moves
      end) snapshots [] in
  let triggered :=
    if nonempty large_moves
    then triggered ++ [move_message price_move_threshold large_moves] else triggered in
  let earnings_due :=
    fold_left (fun earnings_due item =>
      match earnings_date item with
      | None => earnings_due
      | Some d =>
          let delta := days_between d run_date in
          if Z.abs delta <=? earnings_window_days
          then earnings_due ++ [earnings_entry item d delta] else earnings_due
      end) watchlist earnings_due in
  let triggered :=
    if nonempty earnings_due then triggered ++ [earnings_message earnings_due] else triggered in
  let status := AUTO_CLEAR in
  let status := if nonempty triggered then MANUAL_REVIEW_REQUIRED else status in
  Ok (status, triggered, earnings_due).

(** ** [insider_activity.py] *)

Definition is_sale (t : Transaction) : bool :=
  Text.contains "Sale" (trade_type t) || Text.contains "S -" (trade_type t).

(** The first loop of [detect_cluster_selling]: a [ValueError] of the
    date parser skips the transaction. *)
Fixpoint collect_sells (transactions : list Transaction) (sells : list (date * string))
    : result (list (date * string)) :=
  match transactions with
  | [] => Ok sells
  | t :: rest =>
      if is_sale t then
        match strptime_ymd (trade_date t) with
        | Ok d => collect_sells rest (sells ++ [(d, insider_name t)])
        | Raise ValueError => collect_sells rest sells
        | Raise e => Raise e
        | OutOfFuel => OutOfFuel
        end
      else collect_sells rest sells
  end.

(** [sells.sort(key=lambda x: x[0])]: a stable sort by date. *)
Fixpoint insert_by_date (x : date * string) (l : list (date * string)) : list (date * string) :=
  match l with
  | [] => [x]
  | y :: l' => if date_le y.1 x.1 then y :: insert_by_date x l' else x :: l
  end.

Definition sort_by_date (l : list (date * string)) : list (date * string) :=
  fold_left (fun acc x => insert_by_date x acc) l [].

(** The inner loop over [j]: names are added while the date is inside the
    window, and the loop breaks at the first date beyond it. *)
Fixpoint scan_window (window_end : date) (sells : list (date * string))
    (unique_sellers : gset string) : gset string :=
  match sells with
  | [] => unique_sellers
  | s :: rest =>
      if date_le s.1 window_end
      then scan_window window_end rest (unique_sellers ∪ {[ s.2 ]})
      else unique_sellers
  end.

(** The outer loop over [i]: [sells] is the part of the sorted list from
    index [i] on. *)
Fixpoint scan_from (sells : list (date * string)) : result bool :=
  match sells with
  | [] => Ok false
  | s :: rest =>
      window_end ← date_add_days s.1 7;
      let unique_sellers := scan_window window_end sells ∅ in
      if 3 <=? Z.of_nat (size unique_sellers) then Ok true else scan_from rest
  end.

Definition detect_cluster_selling (transactions : list Transaction) : result bool :=
  sells ← collect_sells transactions [];
  if len sells <? 3 then Ok false
  else scan_from (sort_by_date sells).

(** ** The other functions of [daily_stock_checkin.py] *)

Module Str.



Definition newline : ascii := ascii_of_N 10.

(** [s.replace(old, new)] for two single characters. *)
Definition replace_char (old new : ascii) (s : string) : string :=
  string_of_list_ascii
    (map (fun c => if Ascii.eqb c old then new else c) (list_ascii_of_string s)).

(** [re.sub("[<chars>]", "", s)]: every character of the class is dropped. *)
Definition remove_chars (chars : list ascii) (s : string) : string :=
  string_of_list_ascii
    (List.filter (fun c => negb (existsb (Ascii.eqb c) chars)) (list_ascii_of_string s)).

(** [s[:n]] *)
Definition take (n : nat) (s : string) : string :=
  string_of_list_ascii (firstn n (list_ascii_of_string s)).

End Str.

(** A scalar of the configuration file as [parse_iso_date] and
    [resolve_watchlist] read it: [None], a date, or a value given by its
    text [str(value)]. *)
Inductive Scalar : Type :=
  | SNone
  | SDate (d : date)
  | SText (s : string).

(** [str(value)] *)
Definition scalar_str (value : Scalar) : string :=
  match value with
  | SNone => "None"
  | SDate d => isoformat d
  | SText s => s
  end.

Definition parse_iso_date (value : Scalar) : result (option date) :=
  match value with
  | SNone => Ok None
  | SDate d => Ok (Some d)
  | SText _ =>
      let text := Text.strip (scalar_str value) in
      if String.eqb text "" then Ok None
      else
        match strptime_ymd text with
        | Ok d => Ok (Some d)
        | Raise ValueError => Ok None
        | Raise e => Raise e
        | OutOfFuel => OutOfFuel
        end
  end.

(** [summarize_error_message(value)], from the text [str(value)]. *)
Definition summarize_error_message (value_str : string) : string :=
  let text := Text.strip (Str.replace_char Str.newline " " value_str) in
  if String.eqb text "" then "Unknown fetch error"
  else
    let text_lower := Text.lower text in
    if Text.contains "failed to perform" text_lower && Text.contains "curl" text_lower
    then "Network fetch failed"
    else if 140 <? Z.of_nat (String.length text) then Str.take 137 text +:+ "..."
    else text.

Definition safe_float (value : PyVal) : result (option float) :=
  match value with
  | VNone => Ok None
  | _ =>
      match py_float value with
      | Ok result => if negb (result =? result)%float then Ok None else Ok (Some result)
      | Raise TypeError | Raise ValueError => Ok None
      | Raise e => Raise e
      | OutOfFuel => OutOfFuel
      end
  end.

Definition safe_int (value : PyVal) : result (option Z) :=
  match value with
  | VNone => Ok None
  | _ =>
      match py_float value with
      | Ok result =>
          if negb (result =? result)%float then Ok None
          else n ← Float.trunc result; Ok (Some n)
      | Raise TypeError | Raise ValueError => Ok None
      | Raise e => Raise e
      | OutOfFuel => OutOfFuel
      end
  end.




(** The snapshot of a failed fetch. *)
Definition error_snapshot (item : WatchlistItem) (message : string) : Snapshot :=
  {| ticker := wl_ticker item; company := wl_company item; price := None;
     price_change_pct := None; market_cap := None; pe_trailing := None;
     pe_forward := None; ev_ebitda := None; ps_ratio := None;
     last_trade_date := None; error := Some message |}.

(** [fetch_snapshot(item)].  The two calls that leave the program are
    arguments: [fetched] is what [yf.Ticker(item.ticker).info] gave, the
    text [str(exc)] of the exception it raised or the mapping it
    returned, and [extract_last_trade_date] is the function of that name,
    which reads time stamps through the platform's time conversion. *)
Definition fetch_snapshot
    (extract_last_trade_date : gmap string PyVal -> result (option date))
    (item : WatchlistItem) (fetched : string + gmap string PyVal) : result Snapshot :=
  match fetched with
  | inl exc => Ok (error_snapshot item (summarize_error_message exc))
  | inr info =>
      if decide (info = ∅) then Ok (error_snapshot item "No data returned from yfinance")
      else
        price ← safe_float (dict_get info "currentPrice" VNone);
        price ← (if is_none price then safe_float (dict_get info "regularMarketPrice" VNone)
                 else Ok price);
        previous_close ← safe_float (dict_get info "previousClose" VNone);
        market_cap ← safe_int (dict_get info "marketCap" VNone);
        pe_trailing ← safe_float (dict_get info "trailingPE" VNone);
        pe_forward ← safe_float (dict_get info "forwardPE" VNone);
        ev_ebitda ← safe_float (dict_get info "enterpriseToEbitda" VNone);
        ps_ratio ← safe_float (dict_get info "priceToSalesTrailing12Months" VNone);
        last_trade_date ← extract_last_trade_date info;
        Ok {| ticker := wl_ticker item; company := wl_company item;
              price := if is_none price then previous_close else price;
              price_change_pct := compute_price_change_pct price previous_close;
              market_cap := market_cap; pe_trailing := pe_trailing;
              pe_forward := pe_forward; ev_ebitda := ev_ebitda; ps_ratio := ps_ratio;
              last_trade_date := last_trade_date; error := None |}
  end.

(** [snapshots = [fetch_snapshot(item) for item in watchlist]] in [main],
    with what each fetch gave. *)
Fixpoint fetch_all
    (extract_last_trade_date : gmap string PyVal -> result (option date))
    (fetches : list (WatchlistItem * (string + gmap string PyVal))) : result (list Snapshot) :=
  match fetches with
  | [] => Ok []
  | (item, fetched) :: rest =>
      snap ← fetch_snapshot extract_last_trade_date item fetched;
      snaps ← fetch_all extract_last_trade_date rest;
      Ok (snap :: snaps)
  end.

(** ** The other functions of [insider_activity.py] *)

Definition parse_money (text : string) : result (option float) :=
  let cleaned := Str.remove_chars [","%char; "$"%char] (Text.strip text) in
  if String.eqb cleaned "" || String.eqb cleaned "-" then Ok None
  else
    match Parse.float_of_string cleaned with
    | Ok x => Ok (Some x)
    | Raise ValueError => Ok None
    | Raise e => Raise e
    | OutOfFuel => OutOfFuel
    end.


(** * Definitions used to state the properties *)

(** ** The calendar *)

(** [date.max.toordinal()] *)
Definition MAXORDINAL : Z := 3652059.

(** [date.max] *)
Definition date_max : date := Date 9999 12 31 I.

Definition is_max_date (d : date) : Prop := year d = 9999 /\ month d = 12 /\ day d = 31.

Definition friday_2024_03_01 : date := Date 2024 3 1 I.

Definition saturday_2024_03_02 : date := Date 2024 3 2 I.

(** ** The cadence scheduler *)

(** Monday to Friday. *)
Definition is_business_day (o : Z) : bool := weekday_of_ordinal o <? 5.

(** The number of Monday-to-Friday dates among the first [k] days of
    month [m] of year [y]. *)
Definition business_days (y m k : Z) : Z :=
  len (List.filter (fun j => is_business_day (ymd_ordinal y m j)) (seqZ 1 k)).

(** The number of Monday-to-Friday dates from the 1st of the month of
    [d] through [d]. *)
Definition business_days_through (d : date) : Z :=
  business_days (year d) (month d) (day d).

(** The five categories of due tasks. *)
Definition CATEGORIES : gset string :=
  {[ "daily"; "weekly"; "bi_monthly"; "monthly"; "earnings_window" ]}.

(** The weekday [weekly_review_day] selects (Friday by default). *)
Definition weekly_review_weekday (cadence_cfg : gmap string PyVal) : Z :=
  from_option (fun k => dict_get DAY_NAME_TO_WEEKDAY k 4) 4
    (weekday_key (dict_get cadence_cfg "weekly_review_day" (VStr "Friday"))).

(** The map [build_due_tasks] returns, from which of its four dated
    categories are due. *)
Definition due_tasks (weekly bi_monthly monthly earnings_due : bool) : gmap string (list string) :=
  <["daily" := daily_tasks]>
  (<["weekly" := if weekly then weekly_tasks else []]>
  (<["bi_monthly" := if bi_monthly then bi_monthly_tasks else []]>
  (<["monthly" := if monthly then monthly_tasks else []]>
  (<["earnings_window" := if earnings_due then earnings_window_tasks else []]> ∅)))).

(** ** The guardrail evaluator *)

(** The four conversions at the head of [evaluate_guardrails], in the
    order the function makes them. *)
Definition settings (guardrails : gmap string PyVal) : result (Z * Z * float * Z) :=
  max_missing_tickers ← py_int (dict_get guardrails "max_missing_tickers" (VInt 0));
  stale_data_max_days ← py_int (dict_get guardrails "stale_data_max_days" (VInt 1));
  price_move_threshold ← py_float (dict_get guardrails "price_move_pct_threshold" (VFloat 7.0));
  earnings_window_days ← py_int (dict_get guardrails "earnings_window_days" (VInt 1));
  Ok (max_missing_tickers, stale_data_max_days, price_move_threshold, earnings_window_days).

(** The test of the missing-data rule, as the code writes it:
    [s.error or s.price is None]. *)
Definition lacks_data_code (s : Snapshot) : bool := truthy (error s) || is_none (price s).

(** The data-model view of a snapshot without data: its error is set or
    its price is absent. *)
Definition lacks_data (s : Snapshot) : bool :=
  negb (is_none (error s)) || is_none (price s).

(** The invariant of a snapshot: with an error, no numeric field is set. *)
Definition snapshot_invariant (s : Snapshot) : Prop :=
  error s <> None ->
  price s = None /\ price_change_pct s = None /\ market_cap s = None /\ pe_trailing s = None
  /\ pe_forward s = None /\ ev_ebitda s = None /\ ps_ratio s = None.

(** A snapshot is stale: price and last trade date are present, and the
    run date is more than [stale_data_max_days] days later. *)
Definition is_stale (stale_data_max_days : Z) (run_date : date) (s : Snapshot) : bool :=
  match price s, last_trade_date s with
  | Some _, Some d => stale_data_max_days <? days_between run_date d
  | _, _ => false
  end.

(** The entry of a stale snapshot: its ticker and last trade date. *)
Definition stale_text (s : Snapshot) : string :=
  ticker s +:+ " (" +:+ from_option isoformat "" (last_trade_date s) +:+ ")".

(** A snapshot moved by the threshold or more, up or down. *)
Definition is_large_move (threshold : float) (s : Snapshot) : bool :=
  match price_change_pct s with
  | Some change => (threshold <=? abs change)%float
  | None => false
  end.

(** The entry of a large move: the ticker and the signed percentage. *)
Definition move_text (s : Snapshot) : string :=
  ticker s +:+ " (" +:+ from_option (Float.format_fixed true 2) "" (price_change_pct s) +:+ "%)".

(** The earnings date of an item is known and within
    [earnings_window_days] of the run date, before or after. *)
Definition in_earnings_window (earnings_window_days : Z) (run_date : date) (item : WatchlistItem) : bool :=
  match earnings_date item with
  | Some d => Z.abs (days_between d run_date) <=? earnings_window_days
  | None => false
  end.

(** The entry of a due item. *)
Definition due_text (run_date : date) (item : WatchlistItem) : string :=
  match earnings_date item with
  | Some d =>
      wl_ticker item +:+ " (" +:+ wl_company item +:+ ") earnings " +:+ isoformat d
      +:+ " [" +:+ earnings_relation (days_between d run_date) +:+ "]"
  | None => ""
  end.

(** What the missing-data rule adds to the trigger list. *)
Definition rule_missing (k : Z) (snapshots : list Snapshot) : list string :=
  let missing := map ticker (List.filter lacks_data_code snapshots) in
  if k <? len missing then [missing_message missing] else [].

(** What the staleness rule adds. *)
Definition rule_stale (sd : Z) (run_date : date) (snapshots : list Snapshot) : list string :=
  let stale := map stale_text (List.filter (is_stale sd run_date) snapshots) in
  if nonempty stale then [stale_message stale] else [].

(** What the large-move rule adds. *)
Definition rule_moves (th : float) (snapshots : list Snapshot) : list string :=
  let large_moves := map move_text (List.filter (is_large_move th) snapshots) in
  if nonempty large_moves then [move_message th large_moves] else [].

(** The due items, in watchlist order. *)
Definition earnings_due_list (w : Z) (run_date : date) (watchlist : list WatchlistItem) : list string :=
  map (due_text run_date) (List.filter (in_earnings_window w run_date) watchlist).

(** What the earnings-window rule adds. *)
Definition rule_earnings (w : Z) (run_date : date) (watchlist : list WatchlistItem) : list string :=
  let earnings_due := earnings_due_list w run_date watchlist in
  if nonempty earnings_due then [earnings_message earnings_due] else [].

(** The trigger list: what the four rules add, in their order. *)
Definition triggers (snapshots : list Snapshot) (watchlist : list WatchlistItem) (run_date : date)
    (k sd : Z) (th : float) (w : Z) : list string :=
  rule_missing k snapshots ++ rule_stale sd run_date snapshots
  ++ rule_moves th snapshots ++ rule_earnings w run_date watchlist.

(** The status of a trigger list. *)
Definition status_of (triggered : list string) : string :=
  if nonempty triggered then MANUAL_REVIEW_REQUIRED else AUTO_CLEAR.

(** The rule a trigger comes from, read off its first words. *)
Definition is_missing_trigger (t : string) : bool :=
  String.prefix "Missing critical data for " t.

Definition is_stale_trigger (t : string) : bool :=
  String.prefix "Stale market timestamps beyond allowed window: " t.

Definition is_earnings_trigger (t : string) : bool :=
  String.prefix "Earnings window active: " t.

(** A run of three tickers: one stale, one failed, one fresh. *)
Definition snapshot_ok (t : string) (p change : float) (traded : date) : Snapshot :=
  {| ticker := t; company := t; price := Some p; price_change_pct := Some change;
     market_cap := None; pe_trailing := None; pe_forward := None; ev_ebitda := None;
     ps_ratio := None; last_trade_date := Some traded; error := None |}.

Definition snapshot_failed (t message : string) : Snapshot :=
  {| ticker := t; company := t; price := None; price_change_pct := None;
     market_cap := None; pe_trailing := None; pe_forward := None; ev_ebitda := None;
     ps_ratio := None; last_trade_date := None; error := Some message |}.

Definition sample_snapshots : list Snapshot :=
  [ snapshot_ok "NVDA" 100 1.5 (Date 2024 2 27 I);
    snapshot_failed "OKLO" "Network fetch failed";
    snapshot_ok "MRVL" 70 (-0.25) friday_2024_03_01 ].

Definition sample_watchlist : list WatchlistItem :=
  [ {| wl_ticker := "NVDA"; wl_company := "Nvidia"; earnings_date := Some (Date 2024 2 28 I) |};
    {| wl_ticker := "OKLO"; wl_company := "Oklo"; earnings_date := None |};
    {| wl_ticker := "MRVL"; wl_company := "Marvell"; earnings_date := Some (Date 2024 3 2 I) |} ].

(** ** Price change *)

(** The data-model reading of "the ratio between the two values exceeds
    100x in either direction". *)
Definition ratio_exceeds_100x (current previous_close : float) : bool :=
  (100 <? current / previous_close)%float || (100 <? previous_close / current)%float.

(** ** Cluster selling *)

(** The sale of a transaction: its date and its insider, when the trade
    type carries a sale marker and the trade date parses. *)
Definition sale_of (t : Transaction) : option (date * string) :=
  if is_sale t then
    match strptime_ymd (trade_date t) with
    | Ok d => Some (d, insider_name t)
    | _ => None
    end
  else None.

(** The valid sale records of a transaction list, in its order. *)
Definition valid_sells (transactions : list Transaction) : list (date * string) :=
  omap sale_of transactions.

(** [y] was sold in the seven days that start on [d]. *)
Definition within_window (d : date) (y : date * string) : bool :=
  (toordinal d <=? toordinal y.1) && (toordinal y.1 <=? toordinal d + 7).

(** The distinct insiders with a sale dated in [[d, d + 7 days]]. *)
Definition sellers_within (sells : list (date * string)) (d : date) : gset string :=
  list_to_set (map snd (List.filter (within_window d) sells)).

(** Some sale date opens seven days with three distinct sellers or more. *)
Definition has_cluster (sells : list (date * string)) : Prop :=
  exists x, In x sells /\ 3 <= Z.of_nat (size (sellers_within sells x.1)).

(** The order of the sorted sale list. *)
Definition not_later (a b : date * string) : Prop := toordinal a.1 <= toordinal b.1.

(** A sale row of the insider table. *)
Definition sale (name day : string) : Transaction :=
  {| filing_date := day; trade_date := day; insider_name := name; title := "Dir";
     trade_type := "S - Sale"; tx_price := None; shares := None; value := None;
     filing_url := "" |}.

(** ** Further statements *)

(** The large-move trigger, read off its first words. *)
Definition is_move_trigger (t : string) : bool :=
  String.prefix "Large daily move >= " t.

(** The outer loop of [detect_cluster_selling] with each window taken
    over the whole sale list [every] instead of the part from the window
    start on. *)
Fixpoint scan_whole (every sells : list (date * string)) : result bool :=
  match sells with
  | [] => Ok false
  | s :: rest =>
      _ ← date_add_days s.1 7;
      if 3 <=? Z.of_nat (size (sellers_within every s.1)) then Ok true
      else scan_whole every rest
  end.

(** The distinct insiders of a sale list. *)
Definition all_sellers (sells : list (date * string)) : gset string :=
  list_to_set (map snd sells).

Definition three_sales : list Transaction :=
  [sale "Ann" "2024-01-01"; sale "Bob" "2024-01-04"; sale "Cyd" "2024-01-07"].

(** The weekday names, Monday first. *)
Definition day_names : list string :=
  ["monday"; "tuesday"; "wednesday"; "thursday"; "friday"; "saturday"; "sunday"].

(** The number of Monday-to-Friday days among the first [k] days of a
    month whose first day has weekday [w]. *)
Definition weekdays_until (w k : Z) : Z :=
  len (List.filter (fun j => (w + (j - 1)) mod 7 <? 5) (seqZ 1 k)).

(** The day of the [n]-th Monday-to-Friday date of such a month, among
    its first 28 days. *)
Definition nth_weekday_day (w n : Z) : option Z :=
  List.find (fun k => (weekdays_until w k =? n) && ((w + (k - 1)) mod 7 <? 5)) (seqZ 1 28).

(** A fetch that gave no data: the call raised, or returned an empty
    mapping. *)
Definition fetch_failed (fetched : string + gmap string PyVal) : bool :=
  match fetched with
  | inl _ => true
  | inr info => bool_decide (info = ∅)
  end.


(** A watchlist item without an earnings date. *)
Definition sample_item (t : string) : WatchlistItem :=
  {| wl_ticker := t; wl_company := t; earnings_date := None |}.

(** A character list that is empty or starts with no blank. *)
Definition starts_clean (l : list ascii) : Prop :=
  match l with
  | [] => True
  | c :: _ => Text.is_space c = false
  end.

(** The four characters [isoformat] writes for year [y] are digits that
    read back as [y]. *)
Definition year_text_ok (y : Z) : bool :=
  match list_ascii_of_string (Text.zero_pad 4 y) with
  | [a; b; c; e] =>
      forallb Text.is_digit [a; b; c; e]
      && (Parse.decimal (map Text.digit_value [a; b; c; e]) =? y)
  | _ => false
  end.

(** The two characters [isoformat] writes for a month or a day [n] are
    digits that read back as [n]. *)
Definition field_text_ok (n : Z) : bool :=
  match list_ascii_of_string (Text.zero_pad 2 n) with
  | [a; b] =>
      Text.is_digit a && Text.is_digit b
      && negb (Ascii.eqb a "-") && negb (Ascii.eqb b "-")
      && (10 * Text.digit_value a + Text.digit_value b =? n)
  | _ => false
  end.

(** * Properties *)

(** ** The result monad *)

Lemma bind_Ok {A B} (f : A -> result B) (a : A) : (Ok a ≫= f) = f a.
Proof. reflexivity. Qed.

Lemma bind_returns {A B} (f : A -> result B) (m : result A) (b : B) :
  (m ≫= f) = Ok b -> exists a, m = Ok a /\ f a = Ok b.
Proof. destruct m as [a| |]; simpl; intros H; try discriminate. exists a; auto. Qed.

(** ** The calendar *)

Section Calendar.

Lemma valid_ymd_bounds y m d :
  Is_true (valid_ymd y m d) ->
  1 <= y <= 9999 /\ 1 <= m <= 12 /\ 1 <= d <= days_in_month y m.
Proof.
  unfold valid_ymd, MINYEAR, MAXYEAR. rewrite !andb_True, !Is_true_true, !Z.leb_le. lia.
Qed.

Lemma date_bounds (d : date) :
  1 <= year d <= 9999 /\ 1 <= month d <= 12 /\ 1 <= day d <= days_in_month (year d) (month d).
Proof. apply valid_ymd_bounds, date_valid. Qed.

Lemma date_eq (a b : date) :
  year a = year b -> month a = month b -> day a = day b -> a = b.
Proof.
  destruct a as [y m d H], b as [y' m' d' H']; simpl; intros -> -> ->.
  f_equal. apply proof_irrel.
Qed.

Lemma mk_date_valid y m d :
  1 <= y <= 9999 -> 1 <= m <= 12 -> 1 <= d <= days_in_month y m ->
  exists dt, mk_date y m d = Ok dt /\ year dt = y /\ month dt = m /\ day dt = d.
Proof.
  intros Hy Hm Hd. unfold mk_date.
  destruct (Is_true_dec (valid_ymd y m d)) as [ok|bad].
  - eexists; split; [reflexivity|]; simpl; auto.
  - exfalso; apply bad. unfold valid_ymd, MINYEAR, MAXYEAR.
    rewrite !andb_True, !Is_true_true, !Z.leb_le. lia.
Qed.

Lemma mk_date_outcome y m d :
  (exists dt, mk_date y m d = Ok dt /\ year dt = y /\ month dt = m /\ day dt = d)
  \/ mk_date y m d = Raise ValueError.
Proof.
  unfold mk_date. destruct (Is_true_dec (valid_ymd y m d)); [left|right; reflexivity].
  eexists; split; [reflexivity|]; simpl; auto.
Qed.

Lemma days_in_month_bounds y m : 28 <= days_in_month y m <= 31.
Proof.
  unfold days_in_month.
  repeat match goal with |- context [if ?b then _ else _] => destruct b end; lia.
Qed.

Lemma month_cases m : 1 <= m <= 12 ->
  m = 1 \/ m = 2 \/ m = 3 \/ m = 4 \/ m = 5 \/ m = 6 \/
  m = 7 \/ m = 8 \/ m = 9 \/ m = 10 \/ m = 11 \/ m = 12.
Proof. lia. Qed.

Lemma days_before_month_succ y m : 1 <= m < 12 ->
  days_before_month y (m + 1) = days_before_month y m + days_in_month y m.
Proof.
  intros Hm. assert (Hc : 1 <= m <= 12) by lia.
  destruct (month_cases m Hc) as [->|[->|[->|[->|[->|[->|[->|[->|[->|[->|[->| ->]]]]]]]]]]];
    try lia; unfold days_before_month, days_in_month; simpl; destruct (is_leap y); reflexivity.
Qed.

Lemma days_before_month_first y : days_before_month y 1 = 0.
Proof. reflexivity. Qed.

Lemma days_before_month_last y :
  days_before_month y 12 + days_in_month y 12 = 365 + (if is_leap y then 1 else 0).
Proof. unfold days_before_month, days_in_month; simpl; destruct (is_leap y); reflexivity. Qed.

Lemma days_before_month_mono y m1 m2 : 1 <= m1 -> m1 < m2 -> m2 <= 12 ->
  days_before_month y m1 + days_in_month y m1 <= days_before_month y m2.
Proof.
  intros H1 H12 H2.
  assert (Hn : exists n : nat, m2 = m1 + 1 + Z.of_nat n) by (exists (Z.to_nat (m2 - m1 - 1)); lia).
  destruct Hn as [n ->]. induction n as [|n IH].
  - rewrite Z.add_0_r, days_before_month_succ by lia. lia.
  - replace (m1 + 1 + Z.of_nat (S n)) with ((m1 + 1 + Z.of_nat n) + 1) by lia.
    rewrite days_before_month_succ by lia.
    pose proof (days_in_month_bounds y (m1 + 1 + Z.of_nat n)).
    assert (days_before_month y m1 + days_in_month y m1 <= days_before_month y (m1 + 1 + Z.of_nat n))
      by (apply IH; lia).
    lia.
Qed.

Lemma days_before_month_year y m : 1 <= m <= 12 ->
  0 <= days_before_month y m /\
  days_before_month y m + days_in_month y m <= 365 + (if is_leap y then 1 else 0).
Proof.
  intros Hm. split.
  - destruct (Z.eq_dec m 1) as [->|Hne]; [rewrite days_before_month_first; lia|].
    pose proof (days_before_month_mono y 1 m). pose proof (days_in_month_bounds y 1).
    rewrite days_before_month_first in *. lia.
  - destruct (Z.eq_dec m 12) as [->|Hne]; [rewrite days_before_month_last; lia|].
    pose proof (days_before_month_mono y m 12). pose proof (days_in_month_bounds y 12).
    rewrite <- days_before_month_last. lia.
Qed.

Lemma is_leap_spec y :
  is_leap y = true <-> y mod 4 = 0 /\ (y mod 100 <> 0 \/ y mod 400 = 0).
Proof.
  unfold is_leap.
  rewrite andb_true_iff, orb_true_iff, negb_true_iff, Z.eqb_neq, !Z.eqb_eq. tauto.
Qed.

Lemma days_before_year_succ y :
  days_before_year (y + 1) = days_before_year y + 365 + (if is_leap y then 1 else 0).
Proof.
  unfold days_before_year. replace (y + 1 - 1) with (y - 1 + 1) by lia.
  destruct (is_leap y) eqn:L.
  - apply is_leap_spec in L. Z.div_mod_to_equations. lia.
  - assert (N : ~ (y mod 4 = 0 /\ (y mod 100 <> 0 \/ y mod 400 = 0)))
      by (rewrite <- is_leap_spec, L; discriminate).
    Z.div_mod_to_equations. lia.
Qed.

Lemma days_before_year_mono y1 y2 : y1 <= y2 -> days_before_year y1 <= days_before_year y2.
Proof.
  intros H. unfold days_before_year. Z.div_mod_to_equations. lia.
Qed.

End Calendar.

Section Ordinals.

Lemma ymd_ordinal_year_bounds y m d : 1 <= m <= 12 -> 1 <= d <= days_in_month y m ->
  days_before_year y < ymd_ordinal y m d <= days_before_year (y + 1).
Proof.
  intros Hm Hd. unfold ymd_ordinal. rewrite days_before_year_succ.
  pose proof (days_before_month_year y m Hm). lia.
Qed.

Lemma toordinal_bounds (d : date) : 1 <= toordinal d <= MAXORDINAL.
Proof.
  destruct (date_bounds d) as (Hy & Hm & Hd). unfold toordinal.
  pose proof (ymd_ordinal_year_bounds _ _ _ Hm Hd).
  pose proof (days_before_year_mono 1 (year d)).
  pose proof (days_before_year_mono (year d + 1) 10000).
  change (days_before_year 1) with 0 in *.
  change (days_before_year 10000) with MAXORDINAL in *. lia.
Qed.

(** Dates are ordered as their ordinals are. *)
Lemma date_compare_ordinal (a b : date) :
  date_compare a b = (toordinal a ?= toordinal b).
Proof.
  destruct (date_bounds a) as (Hya & Hma & Hda), (date_bounds b) as (Hyb & Hmb & Hdb).
  pose proof (ymd_ordinal_year_bounds _ _ _ Hma Hda) as Ba.
  pose proof (ymd_ordinal_year_bounds _ _ _ Hmb Hdb) as Bb.
  unfold date_compare, toordinal in *. symmetry.
  destruct (Z.compare_spec (year a) (year b)) as [Ey|Ly|Ly].
  - rewrite Ey in *.
    destruct (Z.compare_spec (month a) (month b)) as [Em|Lm|Lm].
    + rewrite Em. unfold ymd_ordinal.
      destruct (Z.compare_spec (day a) (day b)); [apply Z.compare_eq_iff|apply Z.compare_lt_iff|apply Z.compare_gt_iff]; lia.
    + apply Z.compare_lt_iff. unfold ymd_ordinal.
      pose proof (days_before_month_mono (year b) (month a) (month b)). lia.
    + apply Z.compare_gt_iff. unfold ymd_ordinal.
      pose proof (days_before_month_mono (year b) (month b) (month a)). lia.
  - apply Z.compare_lt_iff.
    pose proof (days_before_year_mono (year a + 1) (year b)). lia.
  - apply Z.compare_gt_iff.
    pose proof (days_before_year_mono (year b + 1) (year a)). lia.
Qed.

Lemma date_le_ordinal (a b : date) : date_le a b = (toordinal a <=? toordinal b).
Proof.
  unfold date_le, Z.leb. rewrite date_compare_ordinal. reflexivity.
Qed.

Lemma toordinal_inj (a b : date) : toordinal a = toordinal b -> a = b.
Proof.
  intros H. apply Z.compare_eq_iff in H. rewrite <- date_compare_ordinal in H.
  unfold date_compare in H.
  destruct (Z.compare_spec (year a) (year b)); try discriminate.
  destruct (Z.compare_spec (month a) (month b)); try discriminate.
  apply Z.compare_eq_iff in H. apply date_eq; assumption.
Qed.

Lemma is_max_date_ordinal (d : date) : is_max_date d <-> toordinal d = MAXORDINAL.
Proof.
  split.
  - intros (Hy & Hm & Hd). unfold toordinal. rewrite Hy, Hm, Hd. reflexivity.
  - intros H. destruct (mk_date_valid 9999 12 31) as (mx & _ & Hy & Hm & Hd); [lia..| |].
    + change (days_in_month 9999 12) with 31. lia.
    + assert (d = mx) as ->; [|unfold is_max_date; auto].
      apply toordinal_inj. rewrite H. unfold toordinal. rewrite Hy, Hm, Hd. reflexivity.
Qed.

(** The next day exists for every date but the last, and is one
    ordinal further. *)
Lemma next_day_ordinal (d : date) : ~ is_max_date d ->
  exists d', next_day d = Ok d' /\ toordinal d' = toordinal d + 1.
Proof.
  intros Hmax. destruct (date_bounds d) as (Hy & Hm & Hd). unfold next_day, MAXYEAR.
  destruct (Z.ltb_spec (day d) (days_in_month (year d) (month d))) as [Ld|Ld].
  - destruct (mk_date_valid (year d) (month d) (day d + 1)) as (d' & -> & Ey & Em & Ed); [lia..|].
    exists d'; split; [reflexivity|]. unfold toordinal, ymd_ordinal. rewrite Ey, Em, Ed. lia.
  - destruct (Z.ltb_spec (month d) 12) as [Lm|Lm].
    + pose proof (days_in_month_bounds (year d) (month d + 1)).
      destruct (mk_date_valid (year d) (month d + 1) 1) as (d' & -> & Ey & Em & Ed); [lia..|].
      exists d'; split; [reflexivity|]. unfold toordinal, ymd_ordinal. rewrite Ey, Em, Ed.
      rewrite days_before_month_succ by lia. lia.
    + assert (Em12 : month d = 12) by lia.
      destruct (Z.ltb_spec (year d) 9999) as [Ly|Ly].
      * pose proof (days_in_month_bounds (year d + 1) 1).
        destruct (mk_date_valid (year d + 1) 1 1) as (d' & -> & Ey & Em & Ed); [lia..|].
        exists d'; split; [reflexivity|]. unfold toordinal, ymd_ordinal. rewrite Ey, Em, Ed.
        rewrite days_before_year_succ, days_before_month_first. rewrite Em12 in *.
        pose proof (days_before_month_last (year d)). lia.
      * exfalso. apply Hmax. unfold is_max_date. rewrite Em12 in *.
        change (days_in_month (year d) 12) with 31 in *. lia.
Qed.

Lemma next_day_max (d : date) : is_max_date d -> next_day d = Raise OverflowError.
Proof.
  intros (Hy & Hm & Hd). unfold next_day. rewrite Hy, Hm, Hd. reflexivity.
Qed.

Lemma next_day_same_month (d : date) : day d < days_in_month (year d) (month d) ->
  exists d', next_day d = Ok d' /\ year d' = year d /\ month d' = month d /\ day d' = day d + 1.
Proof.
  intros Ld. destruct (date_bounds d) as (Hy & Hm & Hd). unfold next_day.
  destruct (Z.ltb_spec (day d) (days_in_month (year d) (month d))); [|lia].
  destruct (mk_date_valid (year d) (month d) (day d + 1)) as (d' & -> & E); [lia..|].
  exists d'; auto.
Qed.

(** [d + timedelta(days=n)] is [n] ordinals further, and overflows
    exactly when that would pass 9999-12-31. *)
Lemma date_add_days_ordinal (n : nat) (d : date) :
  toordinal d + Z.of_nat n <= MAXORDINAL ->
  exists d', date_add_days d n = Ok d' /\ toordinal d' = toordinal d + Z.of_nat n.
Proof.
  revert d. induction n as [|n IH]; intros d H.
  - exists d; split; [reflexivity|lia].
  - destruct (next_day_ordinal d) as (d1 & E1 & O1).
    { rewrite is_max_date_ordinal. lia. }
    destruct (IH d1) as (d' & E' & O'); [lia|].
    exists d'. simpl. rewrite E1. simpl. split; [exact E'|lia].
Qed.

Lemma date_add_days_overflow (n : nat) (d : date) :
  MAXORDINAL < toordinal d + Z.of_nat n ->
  date_add_days d n = Raise OverflowError.
Proof.
  revert d. induction n as [|n IH]; intros d H.
  - pose proof (toordinal_bounds d). lia.
  - simpl. destruct (Z.eq_dec (toordinal d) MAXORDINAL) as [Hm|Hm].
    + apply is_max_date_ordinal in Hm. rewrite next_day_max by assumption. reflexivity.
    + destruct (next_day_ordinal d) as (d1 & E1 & O1).
      { rewrite is_max_date_ordinal. assumption. }
      rewrite E1. simpl. apply IH. lia.
Qed.

End Ordinals.

(** ** Business days of a month *)

Section BusinessDays.

Lemma is_max_date_eq (d : date) : is_max_date d <-> d = date_max.
Proof.
  split; [|intros ->; repeat split].
  intros (Hy & Hm & Hd). apply date_eq; assumption.
Qed.

Lemma date_add_one_day (d : date) : date_add_days d 1 = next_day d.
Proof. simpl. destruct (next_day d); reflexivity. Qed.

Lemma business_day_loop_S fuel cursor target count :
  business_day_loop (S fuel) cursor target count
  = if date_le cursor target
    then next_day cursor ≫= (fun cursor' =>
           business_day_loop fuel cursor' target
             (if weekday cursor <? 5 then count + 1 else count))
    else Ok count.
Proof. cbn [business_day_loop]. rewrite date_add_one_day. reflexivity. Qed.

Lemma business_day_loop_exit fuel cursor target count :
  toordinal target < toordinal cursor ->
  business_day_loop (S fuel) cursor target count = Ok count.
Proof.
  intros H. simpl. rewrite date_le_ordinal.
  destruct (Z.leb_spec (toordinal cursor) (toordinal target)); [lia|reflexivity].
Qed.

Lemma filter_seqZ_cons (f : Z -> bool) (a : Z) (n : nat) :
  len (List.filter f (seqZ a (Z.of_nat n + 1)))
  = (if f a then 1 else 0) + len (List.filter f (seqZ (a + 1) (Z.of_nat n))).
Proof.
  rewrite seqZ_cons by lia. replace (Z.pred (Z.of_nat n + 1)) with (Z.of_nat n) by lia.
  replace (Z.succ a) with (a + 1) by lia. simpl.
  destruct (f a); unfold len; simpl; lia.
Qed.

Lemma business_day_loop_run (target : date) (r : nat) :
  ~ is_max_date target ->
  forall fuel cursor count,
    year cursor = year target -> month cursor = month target ->
    day cursor + Z.of_nat r = day target ->
    (r + 2 <= fuel)%nat ->
    business_day_loop fuel cursor target count
    = Ok (count + len (List.filter
                         (fun j => is_business_day (ymd_ordinal (year target) (month target) j))
                         (seqZ (day cursor) (Z.of_nat r + 1)))).
Proof.
  intros Hmax. induction r as [|r IH]; intros fuel cursor count Ey Em Ed Hfuel.
  - assert (cursor = target) as -> by (apply date_eq; lia).
    destruct fuel as [|[|fuel]]; try lia.
    rewrite business_day_loop_S.
    destruct (next_day_ordinal target Hmax) as (d' & -> & O').
    rewrite date_le_ordinal, Z.leb_refl, bind_Ok.
    rewrite business_day_loop_exit by lia.
    rewrite (filter_seqZ_cons _ _ 0). simpl.
    unfold weekday, is_business_day, toordinal. f_equal.
    destruct (_ <? 5); unfold len; simpl; lia.
  - destruct fuel as [|fuel]; try lia.
    rewrite business_day_loop_S.
    destruct (date_bounds target) as (_ & _ & Hd).
    destruct (next_day_same_month cursor) as (d' & -> & Ey' & Em' & Ed').
    { rewrite Ey, Em. lia. }
    rewrite date_le_ordinal, bind_Ok.
    assert (Hle : toordinal cursor <= toordinal target).
    { unfold toordinal, ymd_ordinal. rewrite Ey, Em. lia. }
    destruct (Z.leb_spec (toordinal cursor) (toordinal target)); [|lia].
    rewrite (IH fuel d') by lia.
    rewrite (filter_seqZ_cons _ (day cursor) (S r)). rewrite Ed'.
    unfold weekday, is_business_day, toordinal. rewrite Ey, Em. f_equal.
    replace (Z.of_nat (S r)) with (Z.of_nat r + 1) by lia.
    destruct (_ <? 5); lia.
Qed.

(** [nth_business_day_of_month] counts the business days of the month
    up to its argument, for every date but the last one of the calendar. *)
Lemma nth_business_day_of_month_count (d : date) :
  ~ is_max_date d -> nth_business_day_of_month d = Ok (business_days_through d).
Proof.
  intros Hmax. unfold nth_business_day_of_month, replace_day.
  destruct (date_bounds d) as (Hy & Hm & Hd).
  pose proof (days_in_month_bounds (year d) (month d)).
  destruct (mk_date_valid (year d) (month d) 1) as (c & -> & Ey & Em & Ed); [lia..|].
  rewrite bind_Ok.
  rewrite (business_day_loop_run d (Z.to_nat (day d - 1)) Hmax) by lia.
  rewrite Ed, Z2Nat.id by lia. replace (day d - 1 + 1) with (day d) by lia.
  reflexivity.
Qed.

Lemma nth_business_day_of_month_max :
  nth_business_day_of_month date_max = Raise OverflowError.
Proof. vm_compute. reflexivity. Qed.

(** Day [k] of a month is [k - 1] ordinals after its first day. *)
Lemma ymd_ordinal_day y m k : ymd_ordinal y m k = ymd_ordinal y m 1 + (k - 1).
Proof. unfold ymd_ordinal. lia. Qed.

Lemma filter_seqZ_snoc (f : Z -> bool) (n : nat) : forall a,
  len (List.filter f (seqZ a (Z.of_nat n + 1)))
  = len (List.filter f (seqZ a (Z.of_nat n))) + (if f (a + Z.of_nat n) then 1 else 0).
Proof.
  induction n as [|n IH]; intros a.
  - rewrite (filter_seqZ_cons _ a 0). replace (a + Z.of_nat 0) with a by lia.
    simpl. destruct (f a); reflexivity.
  - rewrite (filter_seqZ_cons _ a (S n)).
    replace (Z.of_nat (S n)) with (Z.of_nat n + 1) by lia.
    rewrite IH. rewrite (filter_seqZ_cons _ a n).
    replace (a + 1 + Z.of_nat n) with (a + (Z.of_nat n + 1)) by lia.
    destruct (f a), (f (a + (Z.of_nat n + 1))); lia.
Qed.

Lemma business_days_step y m k : 0 <= k ->
  business_days y m (k + 1)
  = business_days y m k + (if is_business_day (ymd_ordinal y m (k + 1)) then 1 else 0).
Proof.
  intros Hk. unfold business_days.
  pose proof (filter_seqZ_snoc (fun j => is_business_day (ymd_ordinal y m j)) (Z.to_nat k) 1) as G.
  rewrite Z2Nat.id in G by lia. replace (1 + k) with (k + 1) in G by lia. exact G.
Qed.

(** A Saturday or a Sunday adds nothing to the count. *)
Lemma business_days_weekend y m k : 1 <= k ->
  5 <= weekday_of_ordinal (ymd_ordinal y m k) ->
  business_days y m k = business_days y m (k - 1).
Proof.
  intros Hk Hw. replace k with (k - 1 + 1) at 1 by lia.
  rewrite business_days_step by lia. replace (k - 1 + 1) with k by lia.
  unfold is_business_day. destruct (Z.ltb_spec (weekday_of_ordinal (ymd_ordinal y m k)) 5); lia.
Qed.

(** A Monday-to-Friday date adds one. *)
Lemma business_days_weekday y m k : 1 <= k ->
  weekday_of_ordinal (ymd_ordinal y m k) < 5 ->
  business_days y m k = business_days y m (k - 1) + 1.
Proof.
  intros Hk Hw. replace k with (k - 1 + 1) at 1 by lia.
  rewrite business_days_step by lia. replace (k - 1 + 1) with k by lia.
  unfold is_business_day. destruct (Z.ltb_spec (weekday_of_ordinal (ymd_ordinal y m k)) 5); lia.
Qed.

Lemma business_days_mono y m k1 k2 : 0 <= k1 <= k2 ->
  business_days y m k1 <= business_days y m k2.
Proof.
  intros [H1 H2]. replace k2 with (k1 + Z.of_nat (Z.to_nat (k2 - k1))) by lia.
  induction (Z.to_nat (k2 - k1)) as [|n IH]; [rewrite Z.add_0_r; lia|].
  replace (k1 + Z.of_nat (S n)) with (k1 + Z.of_nat n + 1) by lia.
  rewrite business_days_step by lia. destruct (is_business_day _); lia.
Qed.

Lemma weekday_of_ordinal_shift o k :
  weekday_of_ordinal (o + k) = (weekday_of_ordinal o + k) mod 7.
Proof.
  unfold weekday_of_ordinal. rewrite Zplus_mod_idemp_l. f_equal. lia.
Qed.

(** In a month whose first day is a Saturday, the count is 1 on the
    3rd (the first Monday) and on no other day. *)
Lemma business_days_saturday_start y m k : 1 <= k <= 31 ->
  weekday_of_ordinal (ymd_ordinal y m 1) = 5 ->
  (business_days y m k = 1 <-> k = 3).
Proof.
  intros Hk Hsat.
  assert (W : forall j, weekday_of_ordinal (ymd_ordinal y m j) = (5 + (j - 1)) mod 7).
  { intros j. rewrite ymd_ordinal_day, weekday_of_ordinal_shift, Hsat. reflexivity. }
  assert (B1 : business_days y m 1 = 0).
  { rewrite business_days_weekend by first [lia | rewrite W; vm_compute; congruence].
    reflexivity. }
  assert (B2 : business_days y m 2 = 0).
  { rewrite business_days_weekend by first [lia | rewrite W; vm_compute; congruence].
    exact B1. }
  assert (B3 : business_days y m 3 = 1).
  { rewrite business_days_weekday by first [lia | rewrite W; vm_compute; congruence].
    change (3 - 1) with 2. rewrite B2. reflexivity. }
  assert (B4 : business_days y m 4 = 2).
  { rewrite business_days_weekday by first [lia | rewrite W; vm_compute; congruence].
    change (4 - 1) with 3. rewrite B3. reflexivity. }
  split.
  - intros E.
    destruct (Z.eq_dec k 1) as [->|]; [lia|].
    destruct (Z.eq_dec k 2) as [->|]; [lia|].
    destruct (Z.eq_dec k 3) as [->|]; [lia|].
    pose proof (business_days_mono y m 4 k). lia.
  - intros ->. exact B3.
Qed.

End BusinessDays.

(** ** The cadence scheduler *)

Section Cadence.

Variables (run_date : date) (cadence_cfg : gmap string PyVal) (earnings_due : list string).

(** [build_due_tasks] returns as soon as its two conversions do and the
    run date is not the last date of the calendar. *)
Lemma build_due_tasks_returns (is_bi_monthly : bool) (n : Z) :
  run_date <> date_max ->
  py_int_in (day run_date) (dict_get cadence_cfg "bi_monthly_days" (VList [VInt 1; VInt 15]))
    = Ok is_bi_monthly ->
  py_int (dict_get cadence_cfg "monthly_review_business_day" (VInt 1)) = Ok n ->
  build_due_tasks run_date cadence_cfg earnings_due
  = Ok (due_tasks (weekday run_date =? weekly_review_weekday cadence_cfg) is_bi_monthly
          (business_days_through run_date =? n) (nonempty earnings_due)).
Proof.
  intros Hmax Hbi Hn. unfold build_due_tasks.
  rewrite Hbi, bind_Ok, Hn, bind_Ok.
  rewrite nth_business_day_of_month_count by (rewrite is_max_date_eq; exact Hmax).
  rewrite bind_Ok. reflexivity.
Qed.

Lemma due_tasks_dom (w b m e : bool) : dom (due_tasks w b m e) = CATEGORIES.
Proof. unfold due_tasks, CATEGORIES. rewrite !dom_insert_L, dom_empty_L. set_solver. Qed.

Lemma due_tasks_monthly (w b m e : bool) :
  due_tasks w b m e !! "monthly" = Some (if m then monthly_tasks else []).
Proof. reflexivity. Qed.

Lemma due_tasks_daily (w b m e : bool) : due_tasks w b m e !! "daily" = Some daily_tasks.
Proof. reflexivity. Qed.

(** X7.  For every run date but 9999-12-31, with a [bi_monthly_days]
    that supports the membership test and a
    [monthly_review_business_day] that converts, [build_due_tasks]
    returns a map whose keys are exactly the five categories, and the
    daily list is the four standing tasks. *)
Lemma build_due_tasks_keys (is_bi_monthly : bool) (n : Z) :
  run_date <> date_max ->
  py_int_in (day run_date) (dict_get cadence_cfg "bi_monthly_days" (VList [VInt 1; VInt 15]))
    = Ok is_bi_monthly ->
  py_int (dict_get cadence_cfg "monthly_review_business_day" (VInt 1)) = Ok n ->
  exists tasks, build_due_tasks run_date cadence_cfg earnings_due = Ok tasks
    /\ dom tasks = CATEGORIES
    /\ tasks !! "daily" = Some daily_tasks
    /\ daily_tasks <> [].
Proof.
  intros Hmax Hbi Hn. eexists. split; [apply (build_due_tasks_returns _ _ Hmax Hbi Hn)|].
  split; [apply due_tasks_dom|]. split; [apply due_tasks_daily|discriminate].
Qed.

End Cadence.

(** C2 (as amended).  For every run date but 9999-12-31 and every cadence
    configuration whose [bi_monthly_days] supports the membership test and
    whose [monthly_review_business_day] converts with [int()], the monthly
    list of [build_due_tasks] is non-empty exactly when the number of
    Monday-to-Friday dates from the 1st of the month through the run date
    equals [monthly_review_business_day].  A Saturday or Sunday run date
    has the count of the day before it, so it is not excluded.  In a month
    that starts on a Saturday, with [monthly_review_business_day = 1], the
    list is non-empty on the 3rd only, which is the first Monday. *)
Theorem monthly_tasks_iff_business_day_count
    (run_date : date) (cadence_cfg : gmap string PyVal) (earnings_due : list string)
    (is_bi_monthly : bool) (n : Z) :
  run_date <> date_max ->
  py_int_in (day run_date) (dict_get cadence_cfg "bi_monthly_days" (VList [VInt 1; VInt 15]))
    = Ok is_bi_monthly ->
  py_int (dict_get cadence_cfg "monthly_review_business_day" (VInt 1)) = Ok n ->
  exists tasks monthly,
    build_due_tasks run_date cadence_cfg earnings_due = Ok tasks
    /\ tasks !! "monthly" = Some monthly
    /\ (monthly <> [] <-> business_days_through run_date = n)
    /\ (5 <= weekday run_date ->
        business_days_through run_date
        = business_days (year run_date) (month run_date) (day run_date - 1))
    /\ (weekday_of_ordinal (ymd_ordinal (year run_date) (month run_date) 1) = 5 ->
        weekday_of_ordinal (ymd_ordinal (year run_date) (month run_date) 3) = 0
        /\ (n = 1 -> (monthly <> [] <-> day run_date = 3))).
Proof.
  intros Hmax Hbi Hn.
  destruct (date_bounds run_date) as (Hy & Hm & Hd).
  pose proof (days_in_month_bounds (year run_date) (month run_date)) as Hdim.
  assert (Hiff : (if business_days_through run_date =? n then monthly_tasks else []) <> []
                 <-> business_days_through run_date = n).
  { destruct (Z.eqb_spec (business_days_through run_date) n); split; intros; try congruence; discriminate. }
  exists (due_tasks (weekday run_date =? weekly_review_weekday cadence_cfg) is_bi_monthly
            (business_days_through run_date =? n) (nonempty earnings_due)).
  eexists. split; [apply build_due_tasks_returns; assumption|].
  split; [apply due_tasks_monthly|]. split; [exact Hiff|]. split.
  - intros Hw. apply business_days_weekend; [lia|exact Hw].
  - intros Hsat. split.
    + rewrite ymd_ordinal_day, weekday_of_ordinal_shift, Hsat. reflexivity.
    + intros ->. rewrite Hiff. apply business_days_saturday_start; [lia|exact Hsat].
Qed.

Lemma monthly_tasks_iff_business_day_count_witness :
  exists tasks monthly,
    build_due_tasks saturday_2024_03_02 ∅ [] = Ok tasks
    /\ tasks !! "monthly" = Some monthly
    /\ (monthly <> [] <-> business_days_through saturday_2024_03_02 = 1)
    /\ (5 <= weekday saturday_2024_03_02 ->
        business_days_through saturday_2024_03_02 = business_days 2024 3 (2 - 1))
    /\ (weekday_of_ordinal (ymd_ordinal 2024 3 1) = 5 ->
        weekday_of_ordinal (ymd_ordinal 2024 3 3) = 0
        /\ (1 = 1 -> (monthly <> [] <-> 2 = 3))).
Proof.
  apply (monthly_tasks_iff_business_day_count saturday_2024_03_02 ∅ [] false 1).
  - discriminate.
  - reflexivity.
  - reflexivity.
Defined.

(** C2, the claim as stated fails: Saturday 2024-03-02 follows Friday
    2024-03-01, the first business day of its month, and with the default
    [monthly_review_business_day = 1] the monthly list is not empty. *)
Lemma monthly_tasks_on_a_saturday :
  weekday saturday_2024_03_02 = 5
  /\ exists tasks, build_due_tasks saturday_2024_03_02 ∅ [] = Ok tasks
       /\ tasks !! "monthly" = Some monthly_tasks
       /\ monthly_tasks <> [].
Proof.
  split; [reflexivity|]. eexists. split.
  - apply (build_due_tasks_returns _ ∅ [] false 1); [discriminate|reflexivity..].
  - split; [apply due_tasks_monthly|discriminate].
Qed.

(** C10, the failing run: on 9999-12-31 the day loop steps past the last
    date and [build_due_tasks] raises instead of returning a map. *)
Theorem build_due_tasks_last_date_raises :
  build_due_tasks date_max ∅ [] = Raise OverflowError.
Proof. vm_compute. reflexivity. Qed.

(** ** The guardrail evaluator *)

Section Guardrails.

Lemma fold_left_ext {A B} (f g : A -> B -> A) (l : list B) (a : A) :
  (forall a b, f a b = g a b) -> fold_left f l a = fold_left g l a.
Proof. intros E. revert a. induction l as [|b l IH]; intros a; simpl; [|rewrite E]; auto. Qed.

(** A loop that appends the text of every selected element builds the
    texts of the selected elements, in their order. *)
Lemma fold_left_select {A} (p : A -> bool) (t : A -> string) (l : list A) (acc : list string) :
  fold_left (fun acc x => if p x then acc ++ [t x] else acc) l acc
  = acc ++ map t (List.filter p l).
Proof.
  revert acc. induction l as [|x l IH]; intros acc; simpl.
  - rewrite app_nil_r. reflexivity.
  - rewrite IH. destruct (p x); simpl; [rewrite <- app_assoc|]; reflexivity.
Qed.

Lemma prefix_append (p s : string) : String.prefix p (p +:+ s) = true.
Proof.
  induction p as [|a p IH]; simpl; [destruct s; reflexivity|].
  destruct (ascii_dec a a); [exact IH|contradiction].
Qed.

Variables (snapshots : list Snapshot) (watchlist : list WatchlistItem) (run_date : date).

Lemma stale_loop (sd : Z) :
  fold_left (fun stale snap =>
    match last_trade_date snap, price snap with
    | Some d, Some _ =>
        let age_days := days_between run_date d in
        if sd <? age_days then stale ++ [stale_entry snap d] else stale
    | _, _ => stale
    end) snapshots []
  = map stale_text (List.filter (is_stale sd run_date) snapshots).
Proof.
  rewrite <- (app_nil_l (map _ _)), <- fold_left_select. apply fold_left_ext.
  intros acc s. unfold is_stale, stale_text, stale_entry.
  destruct (last_trade_date s), (price s); reflexivity.
Qed.

Lemma move_loop (th : float) :
  fold_left (fun large_moves snap =>
    match price_change_pct snap with
    | None => large_moves
    | Some change =>
        if (th <=? abs change)%float
        then large_moves ++ [move_entry snap change] else large_moves
    end) snapshots []
  = map move_text (List.filter (is_large_move th) snapshots).
Proof.
  rewrite <- (app_nil_l (map _ _)), <- fold_left_select. apply fold_left_ext.
  intros acc s. unfold is_large_move, move_text, move_entry.
  destruct (price_change_pct s); reflexivity.
Qed.

Lemma earnings_loop (w : Z) :
  fold_left (fun earnings_due item =>
    match earnings_date item with
    | None => earnings_due
    | Some d =>
        let delta := days_between d run_date in
        if Z.abs delta <=? w
        then earnings_due ++ [earnings_entry item d delta] else earnings_due
    end) watchlist []
  = earnings_due_list w run_date watchlist.
Proof.
  unfold earnings_due_list.
  rewrite <- (app_nil_l (map _ _)), <- fold_left_select. apply fold_left_ext.
  intros acc item. unfold in_earnings_window, due_text, earnings_entry.
  destruct (earnings_date item); reflexivity.
Qed.

(** [evaluate_guardrails] is its four conversions followed by the four
    rules, each adding at most one trigger, in this order. *)
Lemma evaluate_guardrails_rules (guardrails : gmap string PyVal) :
  evaluate_guardrails snapshots watchlist guardrails run_date
  = settings guardrails ≫= (fun '(k, sd, th, w) =>
      Ok (status_of (triggers snapshots watchlist run_date k sd th w), triggers snapshots watchlist run_date k sd th w,
          earnings_due_list w run_date watchlist)).
Proof.
  unfold evaluate_guardrails, settings.
  destruct (py_int (dict_get guardrails "max_missing_tickers" (VInt 0))) as [k| |]; try reflexivity.
  destruct (py_int (dict_get guardrails "stale_data_max_days" (VInt 1))) as [sd| |]; try reflexivity.
  destruct (py_float (dict_get guardrails "price_move_pct_threshold" (VFloat 7))) as [th| |]; try reflexivity.
  destruct (py_int (dict_get guardrails "earnings_window_days" (VInt 1))) as [w| |]; try reflexivity.
  cbn [mbind result_bind]. rewrite stale_loop, move_loop, earnings_loop.
  unfold triggers, rule_missing, rule_stale, rule_moves, rule_earnings, status_of, lacks_data_code.
  destruct (k <? _), (nonempty (map stale_text _)), (nonempty (map move_text _)),
    (nonempty (earnings_due_list _ _ _)); reflexivity.
Qed.

Lemma evaluate_guardrails_settings (guardrails : gmap string PyVal) k sd th w :
  settings guardrails = Ok (k, sd, th, w) ->
  evaluate_guardrails snapshots watchlist guardrails run_date
  = Ok (status_of (triggers snapshots watchlist run_date k sd th w), triggers snapshots watchlist run_date k sd th w,
        earnings_due_list w run_date watchlist).
Proof. intros H. rewrite evaluate_guardrails_rules, H. reflexivity. Qed.

Lemma evaluate_guardrails_inv (guardrails : gmap string PyVal) status triggered earnings_due :
  evaluate_guardrails snapshots watchlist guardrails run_date = Ok (status, triggered, earnings_due) ->
  exists k sd th w,
    settings guardrails = Ok (k, sd, th, w)
    /\ triggered = triggers snapshots watchlist run_date k sd th w
    /\ status = status_of triggered
    /\ earnings_due = earnings_due_list w run_date watchlist.
Proof.
  rewrite evaluate_guardrails_rules. intros H.
  apply bind_returns in H as ([[[k sd] th] w] & Hs & Hr).
  exists k, sd, th, w. inversion Hr; subst. auto.
Qed.

(** Which triggers of the list come from which rule. *)
Lemma rule_missing_filter k :
  List.filter is_missing_trigger (rule_missing k snapshots) = rule_missing k snapshots
  /\ List.filter is_stale_trigger (rule_missing k snapshots) = []
  /\ List.filter is_earnings_trigger (rule_missing k snapshots) = [].
Proof.
  unfold rule_missing. destruct (k <? _); repeat split; try reflexivity.
  simpl. unfold is_missing_trigger, missing_message. rewrite prefix_append. reflexivity.
Qed.

Lemma rule_stale_filter sd :
  List.filter is_missing_trigger (rule_stale sd run_date snapshots) = []
  /\ List.filter is_stale_trigger (rule_stale sd run_date snapshots) = rule_stale sd run_date snapshots
  /\ List.filter is_earnings_trigger (rule_stale sd run_date snapshots) = [].
Proof.
  unfold rule_stale. destruct (nonempty _); repeat split; try reflexivity.
  simpl. unfold is_stale_trigger, stale_message. rewrite prefix_append. reflexivity.
Qed.

Lemma rule_moves_filter th :
  List.filter is_missing_trigger (rule_moves th snapshots) = []
  /\ List.filter is_stale_trigger (rule_moves th snapshots) = []
  /\ List.filter is_earnings_trigger (rule_moves th snapshots) = [].
Proof. unfold rule_moves. destruct (nonempty _); repeat split; reflexivity. Qed.

Lemma rule_earnings_filter w :
  List.filter is_missing_trigger (rule_earnings w run_date watchlist) = []
  /\ List.filter is_stale_trigger (rule_earnings w run_date watchlist) = []
  /\ List.filter is_earnings_trigger (rule_earnings w run_date watchlist)
     = rule_earnings w run_date watchlist.
Proof.
  unfold rule_earnings. destruct (nonempty _); repeat split; try reflexivity.
  simpl. unfold is_earnings_trigger, earnings_message. rewrite prefix_append. reflexivity.
Qed.

Lemma triggers_filter k sd th w :
  List.filter is_missing_trigger (triggers snapshots watchlist run_date k sd th w) = rule_missing k snapshots
  /\ List.filter is_stale_trigger (triggers snapshots watchlist run_date k sd th w) = rule_stale sd run_date snapshots
  /\ List.filter is_earnings_trigger (triggers snapshots watchlist run_date k sd th w) = rule_earnings w run_date watchlist.
Proof.
  unfold triggers. rewrite !List.filter_app.
  destruct (rule_missing_filter k) as (-> & -> & ->).
  destruct (rule_stale_filter sd) as (-> & -> & ->).
  destruct (rule_moves_filter th) as (-> & -> & ->).
  destruct (rule_earnings_filter w) as (-> & -> & ->).
  rewrite !app_nil_r. auto.
Qed.

End Guardrails.

Section GuardrailClaims.

Lemma settings_empty : settings ∅ = Ok (0, 1, 7%float, 1).
Proof. reflexivity. Qed.






End GuardrailClaims.

(** C1.  Whenever [evaluate_guardrails] returns, its status is
    "MANUAL REVIEW REQUIRED" exactly when the trigger list it returns is
    not empty, and "AUTO CLEAR" exactly when that list is empty; it
    returns no other status. *)
Theorem status_iff_triggers
    (snapshots : list Snapshot) (watchlist : list WatchlistItem)
    (guardrails : gmap string PyVal) (run_date : date)
    (status : string) (triggered earnings_due : list string) :
  evaluate_guardrails snapshots watchlist guardrails run_date
    = Ok (status, triggered, earnings_due) ->
  (status = "MANUAL REVIEW REQUIRED" <-> triggered <> [])
  /\ (status = "AUTO CLEAR" <-> triggered = [])
  /\ (status = "MANUAL REVIEW REQUIRED" \/ status = "AUTO CLEAR").
Proof.
  intros H. apply evaluate_guardrails_inv in H as (k & sd & th & w & _ & _ & -> & _).
  unfold status_of. destruct triggered as [|t l]; simpl.
  - repeat split; intros; try congruence; try discriminate. right; reflexivity.
  - repeat split; intros; try congruence; try discriminate. left; reflexivity.
Qed.

Lemma status_iff_triggers_witness :
  ("MANUAL REVIEW REQUIRED" = "MANUAL REVIEW REQUIRED"
     <-> triggers sample_snapshots sample_watchlist friday_2024_03_01 0 1 7 1 <> [])
  /\ ("MANUAL REVIEW REQUIRED" = "AUTO CLEAR"
     <-> triggers sample_snapshots sample_watchlist friday_2024_03_01 0 1 7 1 = [])
  /\ ("MANUAL REVIEW REQUIRED" = "MANUAL REVIEW REQUIRED"
      \/ "MANUAL REVIEW REQUIRED" = "AUTO CLEAR").
Proof.
  apply (status_iff_triggers sample_snapshots sample_watchlist ∅ friday_2024_03_01
           "MANUAL REVIEW REQUIRED" _
           (earnings_due_list 1 friday_2024_03_01 sample_watchlist)).
  rewrite (evaluate_guardrails_settings _ _ _ ∅ 0 1 7 1 settings_empty). reflexivity.
Defined.



(** C6.  A snapshot is flagged stale exactly when its price and its last
    trade date are present and the run date is more than
    [stale_data_max_days] days after that date; a last trade date after
    the run date never flags when [stale_data_max_days >= 0].  When some
    snapshot is stale, the returned list holds exactly one staleness
    trigger, listing the stale tickers with their last trade dates in
    snapshot order. *)
Theorem staleness_trigger
    (snapshots : list Snapshot) (watchlist : list WatchlistItem)
    (guardrails : gmap string PyVal) (run_date : date)
    (k sd : Z) (th : float) (w : Z) :
  settings guardrails = Ok (k, sd, th, w) ->
  let stale := map stale_text (List.filter (is_stale sd run_date) snapshots) in
  exists status triggered earnings_due,
    evaluate_guardrails snapshots watchlist guardrails run_date
      = Ok (status, triggered, earnings_due)
    /\ List.filter is_stale_trigger triggered
       = (if nonempty stale
          then ["Stale market timestamps beyond allowed window: " +:+ Text.join ", " stale]
          else [])
    /\ (forall s, is_stale sd run_date s = true <->
          exists p d, price s = Some p /\ last_trade_date s = Some d
                      /\ sd < days_between run_date d)
    /\ (forall s d, last_trade_date s = Some d ->
          stale_text s = ticker s +:+ " (" +:+ isoformat d +:+ ")")
    /\ (0 <= sd -> forall s d, last_trade_date s = Some d ->
          days_between run_date d < 0 -> is_stale sd run_date s = false).
Proof.
  intros Hs stale.
  do 3 eexists. split; [apply evaluate_guardrails_settings; exact Hs|].
  split. { destruct (triggers_filter snapshots watchlist run_date k sd th w) as (_ & -> & _). reflexivity. }
  split.
  { intros s. unfold is_stale. destruct (price s) as [p|], (last_trade_date s) as [d|]; split;
      try discriminate; try (intros (? & ? & ? & ? & ?); discriminate).
    - intros H. apply Z.ltb_lt in H. eauto.
    - intros (p' & d' & _ & E & H). inversion E; subst. apply Z.ltb_lt. exact H. }
  split. { intros s d E. unfold stale_text. rewrite E. reflexivity. }
  intros Hsd s d E Hneg. unfold is_stale. rewrite E. destruct (price s); [|reflexivity].
  apply Z.ltb_ge. lia.
Qed.

Lemma staleness_trigger_witness :
  exists status triggered earnings_due,
    evaluate_guardrails sample_snapshots sample_watchlist ∅ friday_2024_03_01
      = Ok (status, triggered, earnings_due)
    /\ List.filter is_stale_trigger triggered
       = (if nonempty ["NVDA (2024-02-27)"]
          then ["Stale market timestamps beyond allowed window: " +:+ Text.join ", " ["NVDA (2024-02-27)"]]
          else [])
    /\ (forall s, is_stale 1 friday_2024_03_01 s = true <->
          exists p d, price s = Some p /\ last_trade_date s = Some d
                      /\ 1 < days_between friday_2024_03_01 d)
    /\ (forall s d, last_trade_date s = Some d ->
          stale_text s = ticker s +:+ " (" +:+ isoformat d +:+ ")")
    /\ (0 <= 1 -> forall s d, last_trade_date s = Some d ->
          days_between friday_2024_03_01 d < 0 -> is_stale 1 friday_2024_03_01 s = false).
Proof.
  apply (staleness_trigger sample_snapshots sample_watchlist ∅ friday_2024_03_01 0 1 7 1).
  reflexivity.
Defined.





(** ** Price change *)

(** C3 (as amended).  [compute_price_change_pct] returns [None] exactly
    when an input is missing, or [previous_close == 0], or
    [current == previous_close], or [previous_close < current * 0.01], or
    [previous_close > current * 100]; in every other case it returns
    [((current - previous_close) / previous_close) * 100] rounded to two
    decimals, so 110 against 100 gives 10.0.  The two comparisons also
    reject the pair -5, -4, whose ratio is 1.25. *)
Theorem compute_price_change_pct_cases (current previous_close : option float) :
  (compute_price_change_pct current previous_close = None <->
     current = None \/ previous_close = None
     \/ exists c p, current = Some c /\ previous_close = Some p
          /\ ((p =? 0)%float = true \/ (c =? p)%float = true
              \/ (p <? c * 0.01)%float = true \/ (c * 100 <? p)%float = true))
  /\ (forall c p, current = Some c -> previous_close = Some p ->
        (p =? 0)%float = false -> (c =? p)%float = false ->
        (p <? c * 0.01)%float = false -> (c * 100 <? p)%float = false ->
        compute_price_change_pct current previous_close
        = Some (Float.round (((c - p) / p) * 100)%float 2))
  /\ compute_price_change_pct (Some 110%float) (Some 100%float) = Some 10%float
  /\ compute_price_change_pct (Some (-5)%float) (Some (-4)%float) = None.
Proof.
  split; [|split; [|split; reflexivity]].
  - destruct current as [c|], previous_close as [p|]; simpl; try tauto.
    destruct (p =? 0)%float eqn:E0.
    { split; [|reflexivity]. intros _. right; right. exists c, p. tauto. }
    destruct (c =? p)%float eqn:E1.
    { split; [|reflexivity]. intros _. right; right. exists c, p. tauto. }
    destruct (p <? c * 0.01)%float eqn:E2.
    { split; [|reflexivity]. intros _. right; right. exists c, p. tauto. }
    destruct (c * 100 <? p)%float eqn:E3.
    { split; [|reflexivity]. intros _. right; right. exists c, p. tauto. }
    simpl. split; [discriminate|].
    intros [H|[H|(c' & p' & Hc & Hp & H)]]; try discriminate.
    inversion Hc; inversion Hp; subst c' p'.
    rewrite E0, E1, E2, E3 in H. destruct H as [H|[H|[H|H]]]; discriminate.
  - intros c p -> -> E0 E1 E2 E3. simpl. rewrite E0, E1, E2, E3. reflexivity.
Qed.

(** C3, the claim as stated fails: for current = -5 and previousClose = -4
    no input is missing, previousClose is not 0, the two differ and their
    ratio is 1.25, yet the function returns [None] instead of 25.0. *)
Lemma compute_price_change_pct_negative_pair :
  compute_price_change_pct (Some (-5)%float) (Some (-4)%float) = None
  /\ ((-4) =? 0)%float = false
  /\ ((-5) =? (-4))%float = false
  /\ ((-5) / (-4))%float = 1.25%float
  /\ ratio_exceeds_100x (-5)%float (-4)%float = false
  /\ Float.round ((((-5) - (-4)) / (-4)) * 100)%float 2 = 25%float.
Proof. vm_compute. repeat split; reflexivity. Qed.

(** ** Cluster selling *)

Section ClusterSelling.

Lemma strptime_ymd_outcome (s : string) :
  (exists d, strptime_ymd s = Ok d) \/ strptime_ymd s = Raise ValueError.
Proof.
  unfold strptime_ymd.
  repeat match goal with
         | |- context [mk_date ?y ?m ?d] =>
             destruct (mk_date_outcome y m d) as [(dt & -> & _)| ->]; eauto
         | |- context [if ?b then _ else _] => destruct b; eauto
         | |- context [match ?x with _ => _ end] => destruct x; eauto
         end.
Qed.

Lemma collect_sells_valid (transactions : list Transaction) (sells : list (date * string)) :
  collect_sells transactions sells = Ok (sells ++ valid_sells transactions).
Proof.
  revert sells. induction transactions as [|t rest IH]; intros sells; simpl.
  - rewrite app_nil_r. reflexivity.
  - unfold valid_sells, sale_of. simpl. destruct (is_sale t); [|apply IH].
    destruct (strptime_ymd_outcome (trade_date t)) as [[d ->]| ->].
    + rewrite IH, <- app_assoc. reflexivity.
    + apply IH.
Qed.

Lemma detect_cluster_selling_unfold (transactions : list Transaction) :
  detect_cluster_selling transactions
  = if len (valid_sells transactions) <? 3 then Ok false
    else scan_from (sort_by_date (valid_sells transactions)).
Proof. unfold detect_cluster_selling. rewrite collect_sells_valid. reflexivity. Qed.

Lemma sort_by_date_snoc (l : list (date * string)) (x : date * string) :
  sort_by_date (l ++ [x]) = insert_by_date x (sort_by_date l).
Proof. unfold sort_by_date. rewrite fold_left_app. reflexivity. Qed.

Lemma scan_window_acc (window_end : date) (l : list (date * string)) (acc acc' : gset string) :
  acc ⊆ acc' -> scan_window window_end l acc ⊆ scan_window window_end l acc'.
Proof.
  revert acc acc'. induction l as [|s l IH]; intros acc acc' H; simpl; [exact H|].
  destruct (date_le s.1 window_end); [apply IH, union_mono_r; exact H|exact H].
Qed.

Lemma scan_window_grows (window_end : date) (l : list (date * string)) (acc : gset string) :
  acc ⊆ scan_window window_end l acc.
Proof.
  revert acc. induction l as [|s l IH]; intros acc; simpl; [reflexivity|].
  destruct (date_le s.1 window_end); [|reflexivity].
  etrans; [|apply IH]. apply union_subseteq_l.
Qed.

(** One more sale never takes a name out of a window. *)
Lemma scan_window_insert (window_end : date) (x : date * string) (l : list (date * string))
    (acc : gset string) :
  scan_window window_end l acc ⊆ scan_window window_end (insert_by_date x l) acc.
Proof.
  revert acc. induction l as [|y l IH]; intros acc.
  - simpl. destruct (date_le x.1 window_end); [apply union_subseteq_l|reflexivity].
  - cbn [insert_by_date]. destruct (date_le y.1 x.1) eqn:Eyx.
    + cbn [scan_window]. destruct (date_le y.1 window_end); [apply IH|reflexivity].
    + cbn [scan_window]. destruct (date_le x.1 window_end) eqn:Ex.
      * destruct (date_le y.1 window_end);
          [apply scan_window_acc, union_mono_r|]; apply union_subseteq_l.
      * rewrite date_le_ordinal in *.
        destruct (Z.leb_spec (toordinal y.1) (toordinal window_end)); [|reflexivity].
        apply Z.leb_gt in Eyx, Ex. lia.
Qed.

Lemma date_add_days_returns (d : date) (n : nat) :
  returns (date_add_days d n) <-> toordinal d + Z.of_nat n <= MAXORDINAL.
Proof.
  split.
  - intros [d' H]. destruct (Z.le_gt_cases (toordinal d + Z.of_nat n) MAXORDINAL) as [L|G]; [exact L|].
    rewrite date_add_days_overflow in H by lia. discriminate.
  - intros H. destruct (date_add_days_ordinal n d H) as (d' & E & _). exists d'; exact E.
Qed.

Lemma scan_from_cons (s : date * string) (rest : list (date * string)) :
  scan_from (s :: rest)
  = date_add_days s.1 7 ≫= (fun window_end =>
      if 3 <=? Z.of_nat (size (scan_window window_end (s :: rest) ∅))
      then Ok true else scan_from rest).
Proof. reflexivity. Qed.

(** A scan that finds a cluster still finds one after one more sale is
    put in its place. *)
Lemma scan_from_insert (x : date * string) (l : list (date * string)) :
  scan_from l = Ok true -> scan_from (insert_by_date x l) = Ok true.
Proof.
  induction l as [|y l IH]; [discriminate|].
  rewrite scan_from_cons. intros H.
  apply bind_returns in H as (we & Ewe & H).
  cbn [insert_by_date]. destruct (date_le y.1 x.1) eqn:Eyx.
  - rewrite scan_from_cons, Ewe, bind_Ok.
    pose proof (scan_window_insert we x (y :: l) ∅) as Hsub.
    cbn [insert_by_date] in Hsub. rewrite Eyx in Hsub.
    apply subseteq_size in Hsub.
    destruct (Z.leb_spec 3 (Z.of_nat (size (scan_window we (y :: l) ∅)))) as [L|L].
    + destruct (Z.leb_spec 3 (Z.of_nat (size (scan_window we (y :: insert_by_date x l) ∅)))); [reflexivity|lia].
    + destruct (Z.leb_spec 3 (Z.of_nat (size (scan_window we (y :: insert_by_date x l) ∅)))); [reflexivity|].
      apply IH. exact H.
  - rewrite scan_from_cons.
    assert (Hx : returns (date_add_days x.1 7)).
    { apply date_add_days_returns.
      assert (Hy : returns (date_add_days y.1 7)) by (exists we; exact Ewe).
      apply date_add_days_returns in Hy.
      rewrite date_le_ordinal in Eyx. apply Z.leb_gt in Eyx. lia. }
    destruct Hx as [wx ->]. rewrite bind_Ok.
    destruct (3 <=? Z.of_nat (size (scan_window wx (x :: y :: l) ∅))); [reflexivity|].
    rewrite scan_from_cons, Ewe, bind_Ok. exact H.
Qed.

Lemma valid_sells_snoc (transactions : list Transaction) (t : Transaction) :
  valid_sells (transactions ++ [t])
  = valid_sells transactions ++ match sale_of t with Some x => [x] | None => [] end.
Proof.
  unfold valid_sells. rewrite omap_app. simpl. destruct (sale_of t); reflexivity.
Qed.

End ClusterSelling.

(** C9.  When [detect_cluster_selling] returns [True] for a list of
    transactions, it returns [True] for that list with one more
    transaction appended. *)
Theorem detect_cluster_selling_monotone (transactions : list Transaction) (t : Transaction) :
  detect_cluster_selling transactions = Ok true ->
  detect_cluster_selling (transactions ++ [t]) = Ok true.
Proof.
  rewrite !detect_cluster_selling_unfold, valid_sells_snoc.
  destruct (Z.ltb_spec (len (valid_sells transactions)) 3) as [L|L]; [discriminate|].
  intros H. destruct (sale_of t) as [x|].
  - assert (E : (len (valid_sells transactions ++ [x]) <? 3) = false).
    { apply Z.ltb_ge. unfold len in *. rewrite length_app. simpl. lia. }
    rewrite E, sort_by_date_snoc. apply scan_from_insert. exact H.
  - rewrite app_nil_r. destruct (Z.ltb_spec (len (valid_sells transactions)) 3); [lia|exact H].
Qed.

Lemma detect_cluster_selling_monotone_witness :
  detect_cluster_selling
    ([sale "Ann" "2024-01-01"; sale "Bob" "2024-01-04"; sale "Cyd" "2024-01-07"]
     ++ [sale "Dee" "2023-12-30"]) = Ok true.
Proof.
  apply (detect_cluster_selling_monotone
           [sale "Ann" "2024-01-01"; sale "Bob" "2024-01-04"; sale "Cyd" "2024-01-07"]
           (sale "Dee" "2023-12-30")).
  vm_compute. reflexivity.
Defined.

(** C4, the failing run: three distinct insiders selling on 9999-12-29,
    9999-12-30 and 9999-12-31 are three sales within seven days, and the
    window end [9999-12-29 + 7 days] is past the last date, so the
    function raises instead of returning [True]. *)
Theorem detect_cluster_selling_last_week_raises :
  valid_sells [sale "Ann" "9999-12-29"; sale "Bob" "9999-12-30"; sale "Cyd" "9999-12-31"]
  = [(Date 9999 12 29 I, "Ann"); (Date 9999 12 30 I, "Bob"); (Date 9999 12 31 I, "Cyd")]
  /\ detect_cluster_selling
       [sale "Ann" "9999-12-29"; sale "Bob" "9999-12-30"; sale "Cyd" "9999-12-31"]
     = Raise OverflowError.
Proof. split; vm_compute; reflexivity. Qed.

(** *** What the scan computes, away from the end of the calendar *)

Section ClusterWindows.

Lemma elem_of_sellers_within sells d n :
  n ∈ sellers_within sells d <-> exists y, In y sells /\ within_window d y = true /\ y.2 = n.
Proof.
  unfold sellers_within. rewrite elem_of_list_to_set, list_elem_of_In, in_map_iff.
  split.
  - intros (y & E & Hin). apply List.filter_In in Hin as [Hin Hw]. exists y; auto.
  - intros (y & Hin & Hw & E). exists y. split; [exact E|]. apply List.filter_In; auto.
Qed.

Lemma sellers_within_perm l l' d : l ≡ₚ l' -> sellers_within l d = sellers_within l' d.
Proof.
  intros P. apply set_eq. intros n. rewrite !elem_of_sellers_within.
  split; intros (y & Hin & H); exists y; split; auto.
  - eapply Permutation_in; eauto.
  - eapply Permutation_in; [symmetry|]; eauto.
Qed.

Lemma has_cluster_perm l l' : l ≡ₚ l' -> has_cluster l -> has_cluster l'.
Proof.
  intros P (x & Hin & H). exists x. split; [eapply Permutation_in; eauto|].
  rewrite <- (sellers_within_perm l l' _ P). exact H.
Qed.

Lemma insert_by_date_perm x l : insert_by_date x l ≡ₚ x :: l.
Proof.
  induction l as [|y l IH]; simpl; [reflexivity|].
  destruct (date_le y.1 x.1); [|reflexivity].
  rewrite IH. apply Permutation_swap.
Qed.

Lemma sort_by_date_perm l : sort_by_date l ≡ₚ l.
Proof.
  induction l as [|x l IH] using rev_ind; [reflexivity|].
  rewrite sort_by_date_snoc, insert_by_date_perm, IH.
  apply Permutation_cons_append.
Qed.

Lemma insert_by_date_sorted x l :
  StronglySorted not_later l -> StronglySorted not_later (insert_by_date x l).
Proof.
  induction l as [|y l IH]; intros S; simpl.
  - repeat constructor.
  - apply StronglySorted_cons in S as [Hall S].
    destruct (date_le y.1 x.1) eqn:E; rewrite date_le_ordinal in E.
    + apply StronglySorted_cons. split; [|apply IH; exact S].
      rewrite insert_by_date_perm. constructor; [|exact Hall].
      apply Z.leb_le in E. exact E.
    + apply Z.leb_gt in E. apply StronglySorted_cons. split.
      * constructor; [unfold not_later; lia|].
        eapply Forall_impl; [exact Hall|]. unfold not_later. intros z Hz. lia.
      * apply StronglySorted_cons. split; assumption.
Qed.

Lemma sort_by_date_sorted l : StronglySorted not_later (sort_by_date l).
Proof.
  induction l as [|x l IH] using rev_ind; [constructor|].
  rewrite sort_by_date_snoc. apply insert_by_date_sorted, IH.
Qed.

(** On a sorted list the inner loop collects every name dated up to the
    window end: its early exit loses nothing. *)
Lemma elem_of_scan_window window_end l acc n :
  StronglySorted not_later l ->
  n ∈ scan_window window_end l acc
  <-> n ∈ acc \/ exists y, In y l /\ date_le y.1 window_end = true /\ y.2 = n.
Proof.
  intros S. revert acc. induction l as [|y l IH]; intros acc; simpl.
  - split; [auto|]. intros [H|(y & [] & _)]; exact H.
  - apply StronglySorted_cons in S as [Hall S].
    destruct (date_le y.1 window_end) eqn:E.
    + rewrite (IH S), elem_of_union, elem_of_singleton. split.
      * intros [[H| ->]|(z & Hin & Hz)]; [auto| |].
        -- right. exists y. auto.
        -- right. destruct Hz. exists z. auto.
      * intros [H|(z & [->|Hin] & Hz & <-)]; [auto|auto|].
        right. exists z. auto.
    + split; [auto|]. intros [H|(z & [->|Hin] & Hz & _)]; [exact H|congruence|].
      exfalso. rewrite Forall_forall in Hall. apply list_elem_of_In, Hall in Hin.
      rewrite date_le_ordinal in *. apply Z.leb_gt in E. apply Z.leb_le in Hz.
      unfold not_later in Hin. lia.
Qed.

Lemma scan_window_first y rest window_end :
  StronglySorted not_later (y :: rest) ->
  toordinal window_end = toordinal y.1 + 7 ->
  scan_window window_end (y :: rest) ∅ = sellers_within (y :: rest) y.1.
Proof.
  intros S Hwe. apply set_eq. intros n.
  rewrite (elem_of_scan_window _ _ _ _ S), elem_of_sellers_within.
  apply StronglySorted_cons in S as [Hall _]. rewrite Forall_forall in Hall.
  assert (W : forall z, In z (y :: rest) ->
                        within_window y.1 z = date_le z.1 window_end).
  { intros z Hz. unfold within_window. rewrite date_le_ordinal, Hwe.
    assert (toordinal y.1 <= toordinal z.1) as L.
    { destruct Hz as [->|Hz]; [lia|]. apply list_elem_of_In, Hall in Hz. exact Hz. }
    apply Z.leb_le in L. rewrite L. reflexivity. }
  split.
  - intros [H|(z & Hin & Hz & E)]; [set_solver|]. exists z. rewrite W; auto.
  - intros (z & Hin & Hz & E). right. exists z. rewrite <- W; auto.
Qed.

Lemma sellers_within_cons_subseteq y rest d :
  sellers_within rest d ⊆ sellers_within (y :: rest) d.
Proof.
  intros n. rewrite !elem_of_sellers_within. intros (z & Hin & H). exists z. split; [right|]; auto.
Qed.

Lemma sellers_within_cons_later y rest d :
  toordinal y.1 < toordinal d -> sellers_within (y :: rest) d = sellers_within rest d.
Proof.
  intros L. unfold sellers_within. simpl. unfold within_window at 1.
  destruct (Z.leb_spec (toordinal d) (toordinal y.1)); [lia|reflexivity].
Qed.

(** The outer loop over a sorted list, with every window end inside the
    calendar, answers whether some sale date opens a cluster. *)
Lemma scan_from_sorted l :
  StronglySorted not_later l ->
  (forall x, In x l -> toordinal x.1 + 7 <= MAXORDINAL) ->
  exists b, scan_from l = Ok b /\ (b = true <-> has_cluster l).
Proof.
  induction l as [|y rest IH]; intros S Hmax.
  - exists false. split; [reflexivity|]. split; [discriminate|]. intros (x & [] & _).
  - rewrite scan_from_cons.
    destruct (date_add_days_ordinal 7 y.1) as (we & -> & Hwe); [apply Hmax; left; reflexivity|].
    rewrite bind_Ok, (scan_window_first y rest we S Hwe).
    destruct (Z.leb_spec 3 (Z.of_nat (size (sellers_within (y :: rest) y.1)))) as [L|L].
    + exists true. split; [reflexivity|]. split; [|reflexivity].
      intros _. exists y. split; [left; reflexivity|exact L].
    + pose proof S as S'. apply StronglySorted_cons in S' as [Hall Srest].
      destruct (IH Srest) as (b & -> & Hb); [intros x Hx; apply Hmax; right; exact Hx|].
      exists b. split; [reflexivity|]. rewrite Hb. split.
      * intros (x & Hin & H). exists x. split; [right; exact Hin|].
        pose proof (subseteq_size _ _ (sellers_within_cons_subseteq y rest x.1)). lia.
      * intros (x & Hin & H).
        destruct (Z.eq_dec (toordinal x.1) (toordinal y.1)) as [E|N].
        { apply toordinal_inj in E. rewrite E in H. lia. }
        destruct Hin as [->|Hin]; [congruence|].
        rewrite Forall_forall in Hall. pose proof (Hall x (proj2 (list_elem_of_In _ _) Hin)) as Hle.
        unfold not_later in Hle.
        exists x. split; [exact Hin|].
        rewrite sellers_within_cons_later in H by lia. exact H.
Qed.

(** X1.  [detect_cluster_selling], for sale dates up to 9999-12-24: it
    returns, and it returns [True] exactly when at least three valid sale
    records remain and some sale date opens seven days in which three
    distinct insiders or more sold. *)
Lemma detect_cluster_selling_windows (transactions : list Transaction) :
  (forall x, In x (valid_sells transactions) -> toordinal x.1 + 7 <= MAXORDINAL) ->
  exists b, detect_cluster_selling transactions = Ok b
    /\ (b = true <-> 3 <= len (valid_sells transactions) /\ has_cluster (valid_sells transactions)).
Proof.
  intros Hmax. rewrite detect_cluster_selling_unfold.
  destruct (Z.ltb_spec (len (valid_sells transactions)) 3) as [L|L].
  - exists false. split; [reflexivity|]. split; [discriminate|]. lia.
  - destruct (scan_from_sorted (sort_by_date (valid_sells transactions))) as (b & -> & Hb).
    + apply sort_by_date_sorted.
    + intros x Hx. apply Hmax. eapply Permutation_in; [apply sort_by_date_perm|exact Hx].
    + exists b. split; [reflexivity|]. rewrite Hb. split.
      * intros H. split; [exact L|]. eapply has_cluster_perm; [apply sort_by_date_perm|exact H].
      * intros [_ H]. eapply has_cluster_perm; [symmetry; apply sort_by_date_perm|exact H].
Qed.

End ClusterWindows.

(** ** Runs of the model on concrete inputs *)

Example calendar_examples :
  toordinal saturday_2024_03_02 = 738947
  /\ weekday friday_2024_03_01 = 4
  /\ weekday saturday_2024_03_02 = 5
  /\ toordinal date_max = MAXORDINAL
  /\ isoformat (Date 987 6 5 I) = "0987-06-05"
  /\ strptime_ymd "2024-03-02" = Ok saturday_2024_03_02
  /\ strptime_ymd "2024-3-2" = Ok saturday_2024_03_02
  /\ strptime_ymd "2024-02-30" = Raise ValueError
  /\ strptime_ymd "24-03-02" = Raise ValueError
  /\ date_add_days (Date 2024 2 27 I) 7 = Ok (Date 2024 3 5 I)
  /\ date_add_days (Date 9999 12 25 I) 7 = Raise OverflowError.
Proof. vm_compute. repeat split; reflexivity. Qed.

Example business_day_examples :
  nth_business_day_of_month friday_2024_03_01 = Ok 1
  /\ nth_business_day_of_month saturday_2024_03_02 = Ok 1
  /\ nth_business_day_of_month (Date 2024 3 4 I) = Ok 2
  /\ nth_business_day_of_month (Date 2024 6 2 I) = Ok 0
  /\ nth_business_day_of_month (Date 2024 6 3 I) = Ok 1
  /\ nth_business_day_of_month (Date 9999 12 30 I) = Ok 22
  /\ nth_business_day_of_month date_max = Raise OverflowError.
Proof. vm_compute. repeat split; reflexivity. Qed.

Example conversion_examples :
  py_int (VStr " -1_000 ") = Ok (-1000)
  /\ py_int (VStr "1__0") = Raise ValueError
  /\ py_int (VStr "seven") = Raise ValueError
  /\ py_int (VFloat 2.9) = Ok 2
  /\ py_int (VFloat (-2.9)) = Ok (-2)
  /\ py_int (VBool true) = Ok 1
  /\ py_int VNone = Raise TypeError
  /\ py_int (VList []) = Raise TypeError
  /\ py_float (VInt 7) = Ok 7%float
  /\ py_float (VStr "7.5") = Ok 7.5%float
  /\ py_float (VStr "1e-3") = Ok 0.001%float
  /\ py_float (VStr ".5") = Ok 0.5%float
  /\ py_float (VStr "-inf") = Ok neg_infinity
  /\ py_float (VStr "7,5") = Raise ValueError
  /\ py_float (VInt (10 ^ 400)) = Raise OverflowError
  /\ py_int_in 15 (VList [VInt 1; VInt 15]) = Ok true
  /\ py_int_in 1 (VList [VFloat 1; VStr "x"]) = Ok true
  /\ py_int_in 15 (VInt 15) = Raise TypeError.
Proof. vm_compute. repeat split; reflexivity. Qed.

Example float_round_examples :
  Float.round 10.004%float 2 = 10%float
  /\ Float.round 2.675%float 2 = 2.67%float
  /\ Float.round (-0.001)%float 2 = (-0)%float
  /\ Float.round 0.125%float 2 = 0.12%float
  /\ Float.round 1e300%float 2 = 1e300%float
  /\ Float.round infinity 2 = infinity.
Proof. vm_compute. repeat split; reflexivity. Qed.

Example float_format_examples :
  Float.format_fixed true 2 7.5%float = "+7.50"
  /\ Float.format_fixed true 2 (-12.345)%float = "-12.35"
  /\ Float.format_fixed false 1 7%float = "7.0"
  /\ Float.format_fixed true 2 0.005%float = "+0.01"
  /\ Float.format_fixed false 1 0.25%float = "0.2"
  /\ Float.format_fixed true 2 nan = "+nan".
Proof. vm_compute. repeat split; reflexivity. Qed.

Example evaluate_guardrails_example :
  evaluate_guardrails
    [ snapshot_ok "NVDA" 100 7.5 (Date 2024 2 27 I);
      snapshot_failed "OKLO" "Network fetch failed";
      snapshot_ok "MRVL" 70 (-0.25) friday_2024_03_01 ]
    sample_watchlist ∅ friday_2024_03_01
  = Ok ("MANUAL REVIEW REQUIRED",
        [ "Missing critical data for 1 ticker(s): OKLO";
          "Stale market timestamps beyond allowed window: NVDA (2024-02-27)";
          "Large daily move >= 7.0%: NVDA (+7.50%)";
          "Earnings window active: MRVL (Marvell) earnings 2024-03-02 [in 1 day(s)]" ],
        [ "MRVL (Marvell) earnings 2024-03-02 [in 1 day(s)]" ]).
Proof. vm_compute. reflexivity. Qed.

Example evaluate_guardrails_clear :
  evaluate_guardrails [snapshot_ok "MRVL" 70 (-0.25) friday_2024_03_01] [] ∅ friday_2024_03_01
  = Ok ("AUTO CLEAR", [], []).
Proof. vm_compute. reflexivity. Qed.

(** Three insiders on day 0, 3 and 6; one insider on those days; two
    insiders ten days apart. *)
Example detect_cluster_selling_examples :
  detect_cluster_selling
    [sale "Ann" "2024-01-01"; sale "Bob" "2024-01-04"; sale "Cyd" "2024-01-07"] = Ok true
  /\ detect_cluster_selling
       [sale "Ann" "2024-01-01"; sale "Ann" "2024-01-04"; sale "Ann" "2024-01-07"] = Ok false
  /\ detect_cluster_selling [sale "Ann" "2024-01-01"; sale "Bob" "2024-01-11"] = Ok false
  /\ detect_cluster_selling
       [sale "Ann" "2024-01-09"; sale "Bob" "2024-01-01"; sale "Cyd" "2024-01-08";
        sale "Bob" "not a date"; sale "Dee" "2024-01-15"] = Ok true.
Proof. vm_compute. repeat split; reflexivity. Qed.

(** * Further properties *)

(** ** Cluster selling *)

Lemma date_add_days_result (d we : date) (n : nat) :
  date_add_days d n = Ok we -> toordinal we = toordinal d + Z.of_nat n.
Proof.
  intros E. assert (R : returns (date_add_days d n)) by (exists we; exact E).
  apply date_add_days_returns in R.
  destruct (date_add_days_ordinal n d R) as (d' & E' & O). congruence.
Qed.

Lemma sellers_within_app l1 l2 d :
  sellers_within (l1 ++ l2) d = sellers_within l1 d ∪ sellers_within l2 d.
Proof.
  apply set_eq. intros n. rewrite elem_of_union, !elem_of_sellers_within.
  split.
  - intros (y & Hin & H). apply in_app_or in Hin as [Hin|Hin]; [left|right]; exists y; auto.
  - intros [(y & Hin & H)|(y & Hin & H)]; exists y; split; auto; apply in_or_app; auto.
Qed.

Lemma sellers_within_all sells d : sellers_within sells d ⊆ all_sellers sells.
Proof.
  intros n. rewrite elem_of_sellers_within. unfold all_sellers.
  rewrite elem_of_list_to_set, list_elem_of_In, in_map_iff.
  intros (y & Hin & _ & E). exists y. auto.
Qed.

Lemma all_sellers_perm l l' : l ≡ₚ l' -> all_sellers l = all_sellers l'.
Proof.
  intros P. apply set_eq. intros n. unfold all_sellers.
  rewrite !elem_of_list_to_set, !list_elem_of_In, !in_map_iff.
  split; intros (y & E & Hin); exists y; split; auto.
  - eapply Permutation_in; eauto.
  - eapply Permutation_in; [symmetry|]; eauto.
Qed.

(** A scan that answers [True] has found a cluster, wherever the sale
    dates lie. *)
Lemma scan_from_found l :
  StronglySorted not_later l -> scan_from l = Ok true -> has_cluster l.
Proof.
  induction l as [|y rest IH]; intros S H; [discriminate|].
  rewrite scan_from_cons in H. apply bind_returns in H as (we & Ewe & H).
  apply date_add_days_result in Ewe.
  rewrite (scan_window_first y rest we S Ewe) in H.
  destruct (Z.leb_spec 3 (Z.of_nat (size (sellers_within (y :: rest) y.1)))) as [L|L].
  - exists y. split; [left; reflexivity|exact L].
  - apply StronglySorted_cons in S as [_ S]. destruct (IH S H) as (x & Hin & Hx).
    exists x. split; [right; exact Hin|].
    pose proof (subseteq_size _ _ (sellers_within_cons_subseteq y rest x.1)). lia.
Qed.

Lemma sellers_within_before pre d :
  (forall p, In p pre -> toordinal p.1 < toordinal d) -> sellers_within pre d = ∅.
Proof.
  intros H. apply set_eq. intros n. rewrite elem_of_sellers_within. split; [|set_solver].
  intros (y & Hin & Hw & _). apply H in Hin. unfold within_window in Hw.
  apply andb_true_iff in Hw as [Hw _]. apply Z.leb_le in Hw. lia.
Qed.

(** On a sorted list, once the sales before [l] opened no cluster, the
    loop decides at every sale as if its window were taken over the whole
    list. *)
Lemma scan_from_whole (pre l : list (date * string)) :
  StronglySorted not_later (pre ++ l) ->
  (forall p, In p pre -> Z.of_nat (size (sellers_within (pre ++ l) p.1)) < 3) ->
  scan_from l = scan_whole (pre ++ l) l.
Proof.
  revert pre. induction l as [|y rest IH]; intros pre S Hpre; [reflexivity|].
  rewrite scan_from_cons. cbn [scan_whole].
  destruct (date_add_days y.1 7) as [we| |] eqn:Ewe; [|reflexivity..].
  rewrite !bind_Ok. apply date_add_days_result in Ewe.
  pose proof S as Ssplit. apply StronglySorted_app in Ssplit as (Hcross & _ & Ssuf).
  rewrite (scan_window_first y rest we Ssuf Ewe).
  assert (Hnext : Z.of_nat (size (sellers_within (pre ++ y :: rest) y.1)) < 3 ->
                  scan_from rest = scan_whole (pre ++ y :: rest) rest).
  { intros Hy. replace (pre ++ y :: rest) with ((pre ++ [y]) ++ rest) by (rewrite <- app_assoc; reflexivity).
    apply IH.
    - rewrite <- app_assoc. exact S.
    - rewrite <- app_assoc. intros p [Hp|[->|[]]]%in_app_or; [apply Hpre; exact Hp|exact Hy]. }
  destruct (decide (Exists (fun p : date * string => toordinal p.1 = toordinal y.1) pre))
    as [Hex|Hnone].
  - apply Exists_exists in Hex as (p & Hp & Ep). apply toordinal_inj in Ep.
    apply list_elem_of_In in Hp.
    pose proof (Hpre p Hp) as Hlt. rewrite Ep in Hlt.
    pose proof (subseteq_size (sellers_within (y :: rest) y.1) (sellers_within (pre ++ y :: rest) y.1)) as Hsub.
    rewrite sellers_within_app in Hsub. specialize (Hsub (union_subseteq_r _ _)).
    rewrite <- sellers_within_app in Hsub.
    destruct (Z.leb_spec 3 (Z.of_nat (size (sellers_within (y :: rest) y.1)))); [lia|].
    destruct (Z.leb_spec 3 (Z.of_nat (size (sellers_within (pre ++ y :: rest) y.1)))); [lia|].
    apply Hnext. exact Hlt.
  - assert (E : sellers_within (pre ++ y :: rest) y.1 = sellers_within (y :: rest) y.1).
    { rewrite sellers_within_app, sellers_within_before; [apply (left_id_L ∅ (∪))|].
      intros p Hp. assert (toordinal p.1 <> toordinal y.1) as N.
      { intros E. apply Hnone, Exists_exists. exists p. split; [apply list_elem_of_In; exact Hp|exact E]. }
      assert (toordinal p.1 <= toordinal y.1); [|lia].
      apply (Hcross p y); [apply list_elem_of_In; exact Hp|apply list_elem_of_In; left; reflexivity]. }
    rewrite E.
    destruct (Z.leb_spec 3 (Z.of_nat (size (sellers_within (y :: rest) y.1)))); [reflexivity|].
    apply Hnext. rewrite E. lia.
Qed.

Lemma scan_whole_ext (e1 e2 l1 l2 : list (date * string)) :
  map fst l1 = map fst l2 ->
  (forall d, sellers_within e1 d = sellers_within e2 d) ->
  scan_whole e1 l1 = scan_whole e2 l2.
Proof.
  intros Hl He. revert l2 Hl. induction l1 as [|x l1 IH]; intros [|y l2] Hl; try discriminate.
  - reflexivity.
  - simpl in Hl. injection Hl as Hxy Hl. cbn [scan_whole]. rewrite Hxy, He, (IH l2 Hl).
    reflexivity.
Qed.

(** Two sorted arrangements of the same sales list the same dates. *)
Lemma sorted_dates_unique (l1 l2 : list (date * string)) :
  StronglySorted not_later l1 -> StronglySorted not_later l2 -> l1 ≡ₚ l2 ->
  map fst l1 = map fst l2.
Proof.
  intros S1 S2 P.
  assert (A : AntiSymm (=) (fun a b : date => toordinal a <= toordinal b)).
  { intros a b H1 H2. apply toordinal_inj. lia. }
  apply (StronglySorted_unique (fun a b : date => toordinal a <= toordinal b)).
  - apply (StronglySorted_fmap fst not_later); [intros x y H; exact H|exact S1].
  - apply (StronglySorted_fmap fst not_later); [intros x y H; exact H|exact S2].
  - apply fmap_Permutation. exact P.
Qed.

Lemma scan_from_sort_whole (l : list (date * string)) :
  scan_from (sort_by_date l) = scan_whole (sort_by_date l) (sort_by_date l).
Proof.
  apply (scan_from_whole [] (sort_by_date l)); [apply sort_by_date_sorted|intros p []].
Qed.

Lemma scan_from_outcome (l : list (date * string)) :
  (exists b, scan_from l = Ok b)
  \/ (scan_from l = Raise OverflowError
      /\ exists x, In x l /\ MAXORDINAL < toordinal x.1 + 7).
Proof.
  induction l as [|y rest IH]; [left; exists false; reflexivity|].
  rewrite scan_from_cons.
  destruct (Z.le_gt_cases (toordinal y.1 + 7) MAXORDINAL) as [L|G].
  - destruct (date_add_days_ordinal 7 y.1 L) as (we & -> & _). rewrite bind_Ok.
    destruct (3 <=? Z.of_nat (size (scan_window we (y :: rest) ∅))); [left; exists true; reflexivity|].
    destruct IH as [IH|(E & x & Hin & Hx)]; [left; exact IH|right].
    split; [exact E|]. exists x. split; [right; exact Hin|exact Hx].
  - right. rewrite (date_add_days_overflow 7 y.1) by lia. split; [reflexivity|].
    exists y. split; [left; reflexivity|lia].
Qed.

Lemma scan_from_false (l : list (date * string)) :
  scan_from l = Ok false -> forall x, In x l -> toordinal x.1 + 7 <= MAXORDINAL.
Proof.
  induction l as [|y rest IH]; intros H x Hin; [destruct Hin|].
  rewrite scan_from_cons in H. apply bind_returns in H as (we & Ewe & H).
  destruct (3 <=? Z.of_nat (size (scan_window we (y :: rest) ∅))); [discriminate|].
  destruct Hin as [<-|Hin]; [|apply IH; assumption].
  apply (date_add_days_returns y.1 7). exists we. exact Ewe.
Qed.

Lemma scan_from_answer (l : list (date * string)) (b : bool) :
  StronglySorted not_later l -> scan_from l = Ok b -> (b = true <-> has_cluster l).
Proof.
  intros S H. destruct b.
  - split; [intros _; apply scan_from_found; assumption|reflexivity].
  - destruct (scan_from_sorted l S (scan_from_false l H)) as (b & E & Hb).
    rewrite H in E. injection E as <-. exact Hb.
Qed.

Lemma has_cluster_sellers (l : list (date * string)) :
  has_cluster l -> 3 <= Z.of_nat (size (all_sellers l)).
Proof.
  intros (x & _ & H). pose proof (subseteq_size _ _ (sellers_within_all l x.1)). lia.
Qed.

(** X2.  Whenever [detect_cluster_selling] returns, its answer is right
    for every transaction list, also near the end of the calendar: it is
    [True] exactly when at least three valid sale records remain and some
    sale date opens seven days in which three distinct insiders or more
    sold. *)
Theorem detect_cluster_selling_answer (transactions : list Transaction) (b : bool) :
  detect_cluster_selling transactions = Ok b ->
  (b = true <-> 3 <= len (valid_sells transactions) /\ has_cluster (valid_sells transactions)).
Proof.
  rewrite detect_cluster_selling_unfold.
  destruct (Z.ltb_spec (len (valid_sells transactions)) 3) as [L|L].
  - intros [= <-]. split; [discriminate|lia].
  - intros H. rewrite (scan_from_answer _ _ (sort_by_date_sorted _) H). split.
    + intros C. split; [exact L|]. eapply has_cluster_perm; [apply sort_by_date_perm|exact C].
    + intros [_ C]. eapply has_cluster_perm; [symmetry; apply sort_by_date_perm|exact C].
Qed.

Lemma detect_cluster_selling_answer_witness :
  detect_cluster_selling three_sales = Ok true
  /\ (true = true <-> 3 <= len (valid_sells three_sales) /\ has_cluster (valid_sells three_sales)).
Proof.
  assert (E : detect_cluster_selling three_sales = Ok true) by (vm_compute; reflexivity).
  split; [exact E|apply (detect_cluster_selling_answer three_sales true E)].
Defined.

(** X3.  Sales of fewer than three distinct insiders never raise the
    alert, however many sales there are and whatever their dates. *)
Theorem detect_cluster_selling_needs_three_sellers (transactions : list Transaction) :
  Z.of_nat (size (all_sellers (valid_sells transactions))) < 3 ->
  detect_cluster_selling transactions <> Ok true.
Proof.
  intros H. rewrite detect_cluster_selling_unfold.
  destruct (len (valid_sells transactions) <? 3); [discriminate|].
  intros E. apply scan_from_found in E; [|apply sort_by_date_sorted].
  apply has_cluster_sellers in E.
  rewrite (all_sellers_perm _ _ (sort_by_date_perm (valid_sells transactions))) in E. lia.
Qed.

Lemma detect_cluster_selling_needs_three_sellers_witness :
  detect_cluster_selling
    [sale "Ann" "2024-01-01"; sale "Bob" "2024-01-02"; sale "Ann" "2024-01-03";
     sale "Bob" "2024-01-04"] <> Ok true.
Proof.
  apply detect_cluster_selling_needs_three_sellers. vm_compute. reflexivity.
Defined.

(** X4.  [detect_cluster_selling] either returns or raises
    [OverflowError]; it raises only when some valid sale is dated after
    9999-12-24, so that its window end is past the last date. *)
Theorem detect_cluster_selling_failure (transactions : list Transaction) :
  (exists b, detect_cluster_selling transactions = Ok b)
  \/ (detect_cluster_selling transactions = Raise OverflowError
      /\ exists x, In x (valid_sells transactions) /\ MAXORDINAL < toordinal x.1 + 7).
Proof.
  rewrite detect_cluster_selling_unfold.
  destruct (len (valid_sells transactions) <? 3); [left; exists false; reflexivity|].
  destruct (scan_from_outcome (sort_by_date (valid_sells transactions)))
    as [H|(E & x & Hin & Hx)]; [left; exact H|right].
  split; [exact E|]. exists x. split; [|exact Hx].
  eapply Permutation_in; [apply sort_by_date_perm|exact Hin].
Qed.

(** X5.  The answer of [detect_cluster_selling] does not depend on the
    order of the transactions: two lists with the same rows give the same
    result, the same exception included. *)
Theorem detect_cluster_selling_order (transactions transactions' : list Transaction) :
  transactions ≡ₚ transactions' ->
  detect_cluster_selling transactions = detect_cluster_selling transactions'.
Proof.
  intros P. rewrite !detect_cluster_selling_unfold.
  assert (Pv : valid_sells transactions ≡ₚ valid_sells transactions').
  { unfold valid_sells. apply omap_Permutation. exact P. }
  assert (El : len (valid_sells transactions) = len (valid_sells transactions')).
  { unfold len. rewrite (Permutation_length Pv). reflexivity. }
  rewrite El. destruct (len (valid_sells transactions') <? 3); [reflexivity|].
  assert (Ps : sort_by_date (valid_sells transactions) ≡ₚ sort_by_date (valid_sells transactions')).
  { rewrite !sort_by_date_perm. exact Pv. }
  rewrite !scan_from_sort_whole. apply scan_whole_ext.
  - apply sorted_dates_unique; [apply sort_by_date_sorted..|exact Ps].
  - intros d. apply sellers_within_perm. exact Ps.
Qed.

Lemma detect_cluster_selling_order_witness :
  detect_cluster_selling
    [sale "Ann" "2024-01-09"; sale "Bob" "2024-01-01"; sale "Cyd" "2024-01-08"]
  = detect_cluster_selling
      [sale "Bob" "2024-01-01"; sale "Cyd" "2024-01-08"; sale "Ann" "2024-01-09"].
Proof.
  apply detect_cluster_selling_order.
  apply (Permutation_cons_append
           [sale "Bob" "2024-01-01"; sale "Cyd" "2024-01-08"] (sale "Ann" "2024-01-09")).
Defined.

(** X6.  A row that is not a valid sale (its trade type carries no sale
    marker, or its trade date does not parse) changes nothing, wherever it
    stands in the list. *)
Theorem detect_cluster_selling_ignores_other_rows (before after : list Transaction)
    (t : Transaction) :
  is_sale t = false \/ strptime_ymd (trade_date t) = Raise ValueError ->
  detect_cluster_selling (before ++ t :: after) = detect_cluster_selling (before ++ after).
Proof.
  intros H. rewrite !detect_cluster_selling_unfold.
  assert (E : valid_sells (before ++ t :: after) = valid_sells (before ++ after)).
  { unfold valid_sells. rewrite !omap_app. f_equal. simpl.
    assert (N : sale_of t = None).
    { unfold sale_of. destruct H as [-> | ->]; [reflexivity|destruct (is_sale t); reflexivity]. }
    rewrite N. reflexivity. }
  rewrite E. reflexivity.
Qed.

Lemma detect_cluster_selling_ignores_other_rows_witness :
  detect_cluster_selling
    ([sale "Ann" "2024-01-01"; sale "Bob" "2024-01-04"]
     ++ sale "Cyd" "01/05/2024" :: [sale "Dee" "2024-01-07"])
  = detect_cluster_selling
      ([sale "Ann" "2024-01-01"; sale "Bob" "2024-01-04"] ++ [sale "Dee" "2024-01-07"]).
Proof.
  apply detect_cluster_selling_ignores_other_rows. right. vm_compute. reflexivity.
Defined.

(** X1, a run: three insiders selling on 1, 4 and 7 January 2024. *)
Lemma detect_cluster_selling_windows_witness :
  exists b, detect_cluster_selling three_sales = Ok b
    /\ (b = true <-> 3 <= len (valid_sells three_sales) /\ has_cluster (valid_sells three_sales)).
Proof.
  apply (detect_cluster_selling_windows three_sales).
  intros x Hx. vm_compute in Hx.
  repeat (destruct Hx as [<-|Hx]; [vm_compute; discriminate|]). destruct Hx.
Defined.

(** ** The cadence scheduler, further *)

Lemma business_days_weekdays_until y m k :
  business_days y m k = weekdays_until (weekday_of_ordinal (ymd_ordinal y m 1)) k.
Proof.
  unfold business_days, weekdays_until. f_equal. apply List.filter_ext.
  intros j. unfold is_business_day. rewrite ymd_ordinal_day, weekday_of_ordinal_shift.
  reflexivity.
Qed.

Lemma weekday_of_ordinal_range o : 0 <= weekday_of_ordinal o < 7.
Proof. unfold weekday_of_ordinal. apply Z.mod_pos_bound. lia. Qed.

Lemma weekday_cases w : 0 <= w < 7 ->
  w = 0 \/ w = 1 \/ w = 2 \/ w = 3 \/ w = 4 \/ w = 5 \/ w = 6.
Proof. lia. Qed.

Lemma weekdays_until_31 w : 0 <= w < 7 -> weekdays_until w 31 <= 23.
Proof.
  intros H. destruct (weekday_cases w H) as [->|[->|[->|[->|[->|[->| ->]]]]]];
    vm_compute; discriminate.
Qed.

Lemma business_days_nonneg y m k : 0 <= business_days y m k.
Proof. unfold business_days, len. lia. Qed.

Lemma business_days_le_23 y m k : 0 <= k <= 31 -> business_days y m k <= 23.
Proof.
  intros Hk. pose proof (business_days_mono y m k 31 ltac:(lia)) as Hm.
  rewrite (business_days_weekdays_until y m 31) in Hm.
  pose proof (weekdays_until_31 _ (weekday_of_ordinal_range (ymd_ordinal y m 1))). lia.
Qed.

Lemma business_days_le_day y m k : 0 <= k -> business_days y m k <= k.
Proof.
  intros Hk. unfold business_days, len.
  pose proof (List.filter_length_le (fun j => is_business_day (ymd_ordinal y m j)) (seqZ 1 k)) as H.
  rewrite length_seqZ in H. lia.
Qed.

(** X8.  Whenever [nth_business_day_of_month] returns, the count lies
    between 0 and 23 and is at most the day of the month; it is 0 on a
    Saturday or Sunday that comes before the first Monday-to-Friday date
    of the month. *)
Theorem nth_business_day_of_month_bounds (d : date) (n : Z) :
  nth_business_day_of_month d = Ok n ->
  0 <= n <= 23 /\ n <= day d
  /\ (n = 0 <-> forall j, 1 <= j <= day d -> 5 <= weekday_of_ordinal (ymd_ordinal (year d) (month d) j)).
Proof.
  intros H. destruct (date_bounds d) as (Hy & Hm & Hd).
  pose proof (days_in_month_bounds (year d) (month d)) as Hdim.
  assert (Hmax : ~ is_max_date d).
  { intros Hmax. apply is_max_date_eq in Hmax. subst d.
    rewrite nth_business_day_of_month_max in H. discriminate. }
  rewrite (nth_business_day_of_month_count d Hmax) in H. injection H as <-.
  unfold business_days_through.
  split; [split; [apply business_days_nonneg|apply business_days_le_23; lia]|].
  split; [apply business_days_le_day; lia|].
  assert (G : forall k, 0 <= k ->
            (business_days (year d) (month d) k = 0
             <-> forall j, 1 <= j <= k -> 5 <= weekday_of_ordinal (ymd_ordinal (year d) (month d) j))).
  { intros k Hk. replace k with (Z.of_nat (Z.to_nat k)) by lia.
    induction (Z.to_nat k) as [|r IH].
    - split; [intros _ j Hj; lia|reflexivity].
    - replace (Z.of_nat (S r)) with (Z.of_nat r + 1) by lia.
      rewrite business_days_step by lia. unfold is_business_day.
      pose proof (business_days_nonneg (year d) (month d) (Z.of_nat r)) as Hn.
      destruct (Z.ltb_spec (weekday_of_ordinal (ymd_ordinal (year d) (month d) (Z.of_nat r + 1))) 5)
        as [L|L]; split.
      + lia.
      + intros Hall. specialize (Hall (Z.of_nat r + 1) ltac:(lia)). lia.
      + intros E j Hj. destruct (Z.eq_dec j (Z.of_nat r + 1)) as [->|N]; [exact L|].
        apply IH; lia.
      + intros Hall. assert (business_days (year d) (month d) (Z.of_nat r) = 0); [|lia].
        apply IH. intros j Hj. apply Hall. lia. }
  apply G. lia.
Qed.

Lemma nth_business_day_of_month_bounds_witness :
  0 <= 0 <= 23 /\ 0 <= day (Date 2024 6 2 I)
  /\ (0 = 0 <-> forall j, 1 <= j <= day (Date 2024 6 2 I) ->
                  5 <= weekday_of_ordinal (ymd_ordinal (year (Date 2024 6 2 I)) (month (Date 2024 6 2 I)) j)).
Proof.
  apply (nth_business_day_of_month_bounds (Date 2024 6 2 I) 0). vm_compute. reflexivity.
Defined.

Lemma nth_weekday_day_total w n :
  0 <= w < 7 -> 1 <= n <= 20 -> exists k, nth_weekday_day w n = Some k.
Proof.
  intros Hw Hn.
  assert (T : forallb (fun w => forallb (fun n => negb (is_none (nth_weekday_day w n))) (seqZ 1 20))
                (seqZ 0 7) = true) by (vm_compute; reflexivity).
  rewrite forallb_forall in T.
  specialize (T w (proj1 (list_elem_of_In _ _) (proj2 (elem_of_seqZ 0 7 w) ltac:(lia)))).
  rewrite forallb_forall in T.
  specialize (T n (proj1 (list_elem_of_In _ _) (proj2 (elem_of_seqZ 1 20 n) ltac:(lia)))).
  destruct (nth_weekday_day w n) as [k|]; [exists k; reflexivity|discriminate].
Qed.

Lemma weekday_ymd (d : date) :
  weekday d = (weekday_of_ordinal (ymd_ordinal (year d) (month d) 1) + (day d - 1)) mod 7.
Proof.
  unfold weekday, toordinal. rewrite ymd_ordinal_day, weekday_of_ordinal_shift. reflexivity.
Qed.

(** X9.  For a [monthly_review_business_day] between 1 and 20, every
    month of the calendar has exactly one Monday-to-Friday date on which
    [nth_business_day_of_month] returns that number. *)
Theorem nth_business_day_of_month_date (y m n : Z) :
  1 <= y <= 9999 -> 1 <= m <= 12 -> 1 <= n <= 20 ->
  exists d, year d = y /\ month d = m /\ weekday d < 5
    /\ nth_business_day_of_month d = Ok n
    /\ forall d', year d' = y -> month d' = m -> weekday d' < 5 ->
         nth_business_day_of_month d' = Ok n -> d' = d.
Proof.
  intros Hy Hm Hn. set (w := weekday_of_ordinal (ymd_ordinal y m 1)).
  destruct (nth_weekday_day_total w n (weekday_of_ordinal_range _) Hn) as [k Hk].
  apply List.find_some in Hk as [Hin Hk]. apply list_elem_of_In, elem_of_seqZ in Hin.
  apply andb_true_iff in Hk as [Hc Hwd]. apply Z.eqb_eq in Hc. apply Z.ltb_lt in Hwd.
  pose proof (days_in_month_bounds y m) as Hdim.
  destruct (mk_date_valid y m k) as (d & _ & Ey & Em & Ed); [lia..|].
  assert (Hcount : forall c : date, year c = y -> month c = m ->
            nth_business_day_of_month c = Ok n -> weekdays_until w (day c) = n).
  { intros c Ecy Ecm H.
    assert (Hmax : ~ is_max_date c).
    { intros Hmax. apply is_max_date_eq in Hmax. subst c.
      rewrite nth_business_day_of_month_max in H. discriminate. }
    rewrite (nth_business_day_of_month_count c Hmax) in H. injection H as <-.
    unfold business_days_through. rewrite business_days_weekdays_until, Ecy, Ecm. reflexivity. }
  assert (Hstrict : forall k1 k2, 0 <= k1 < k2 -> (w + (k2 - 1)) mod 7 < 5 ->
            weekdays_until w k1 < weekdays_until w k2).
  { intros k1 k2 Hk12 Hw2. unfold w in *. rewrite <- !business_days_weekdays_until.
    rewrite (business_days_weekday y m k2) by
      (try lia; rewrite ymd_ordinal_day, weekday_of_ordinal_shift; exact Hw2).
    pose proof (business_days_mono y m k1 (k2 - 1) ltac:(lia)). lia. }
  exists d. split; [exact Ey|]. split; [exact Em|]. split.
  { rewrite weekday_ymd, Ey, Em, Ed. exact Hwd. }
  split.
  { rewrite nth_business_day_of_month_count.
    - unfold business_days_through. rewrite business_days_weekdays_until, Ey, Em, Ed.
      fold w. rewrite Hc. reflexivity.
    - intros (_ & _ & Hday). lia. }
  intros d' Ey' Em' Hw' H'. pose proof (Hcount d' Ey' Em' H') as Hc'.
  destruct (date_bounds d') as (_ & _ & Hd').
  rewrite weekday_ymd, Ey', Em' in Hw'. fold w in Hw'.
  apply date_eq; [congruence..|]. rewrite Ed.
  destruct (Z.lt_trichotomy (day d') k) as [L|[E|G]]; [|exact E|].
  - pose proof (Hstrict (day d') k ltac:(lia) Hwd). lia.
  - pose proof (Hstrict k (day d') ltac:(lia) Hw'). lia.
Qed.

Lemma nth_business_day_of_month_date_witness :
  exists d, year d = 2024 /\ month d = 6 /\ weekday d < 5
    /\ nth_business_day_of_month d = Ok 1
    /\ forall d', year d' = 2024 -> month d' = 6 -> weekday d' < 5 ->
         nth_business_day_of_month d' = Ok 1 -> d' = d.
Proof. apply (nth_business_day_of_month_date 2024 6 1); lia. Defined.

(** X7, a run: Friday 2024-03-01 with an empty configuration. *)
Lemma build_due_tasks_keys_witness :
  exists tasks, build_due_tasks friday_2024_03_01 ∅ [] = Ok tasks
    /\ dom tasks = CATEGORIES
    /\ tasks !! "daily" = Some daily_tasks
    /\ daily_tasks <> [].
Proof.
  apply (build_due_tasks_keys friday_2024_03_01 ∅ [] true 1);
    [discriminate|reflexivity|reflexivity].
Defined.

Lemma due_tasks_weekly (w b m e : bool) :
  due_tasks w b m e !! "weekly" = Some (if w then weekly_tasks else []).
Proof. reflexivity. Qed.


Lemma due_tasks_earnings_window (w b m e : bool) :
  due_tasks w b m e !! "earnings_window" = Some (if e then earnings_window_tasks else []).
Proof. reflexivity. Qed.

Lemma day_name_weekday (i : nat) (name : string) :
  day_names !! i = Some name -> DAY_NAME_TO_WEEKDAY !! name = Some (Z.of_nat i).
Proof.
  unfold day_names. intros H.
  do 7 (destruct i as [|i]; [injection H as <-; vm_compute; reflexivity|]).
  discriminate.
Qed.

Lemma other_name_weekday (name : string) :
  ~ In name day_names -> DAY_NAME_TO_WEEKDAY !! name = None.
Proof.
  intros H. unfold DAY_NAME_TO_WEEKDAY. apply not_elem_of_list_to_map_1.
  intros Hin. apply H. apply list_elem_of_In. exact Hin.
Qed.

(** X10.  The weekly list of [build_due_tasks] is non-empty exactly when
    the run date falls on the configured weekday: the day whose English
    name [weekly_review_day] gives, in any letter case and with blanks
    around it; Friday when the setting is absent, is no string or names
    no weekday. *)
Theorem weekly_tasks_iff_weekday
    (run_date : date) (cadence_cfg : gmap string PyVal) (earnings_due : list string)
    (is_bi_monthly : bool) (n : Z) :
  run_date <> date_max ->
  py_int_in (day run_date) (dict_get cadence_cfg "bi_monthly_days" (VList [VInt 1; VInt 15]))
    = Ok is_bi_monthly ->
  py_int (dict_get cadence_cfg "monthly_review_business_day" (VInt 1)) = Ok n ->
  exists tasks weekly,
    build_due_tasks run_date cadence_cfg earnings_due = Ok tasks
    /\ tasks !! "weekly" = Some weekly
    /\ (weekly = weekly_tasks \/ weekly = [])
    /\ (forall s i, cadence_cfg !! "weekly_review_day" = Some (VStr s) ->
          day_names !! i = Some (Text.lower (Text.strip s)) ->
          (weekly <> [] <-> weekday run_date = Z.of_nat i))
    /\ (forall s, cadence_cfg !! "weekly_review_day" = Some (VStr s) ->
          ~ In (Text.lower (Text.strip s)) day_names ->
          (weekly <> [] <-> weekday run_date = 4))
    /\ (forall v, cadence_cfg !! "weekly_review_day" = Some v -> (forall s, v <> VStr s) ->
          (weekly <> [] <-> weekday run_date = 4))
    /\ (cadence_cfg !! "weekly_review_day" = None -> (weekly <> [] <-> weekday run_date = 4)).
Proof.
  intros Hmax Hbi Hn.
  exists (due_tasks (weekday run_date =? weekly_review_weekday cadence_cfg) is_bi_monthly
            (business_days_through run_date =? n) (nonempty earnings_due)).
  eexists. split; [apply build_due_tasks_returns; assumption|].
  split; [apply due_tasks_weekly|].
  assert (Hiff : forall w, weekly_review_weekday cadence_cfg = w ->
            ((if weekday run_date =? weekly_review_weekday cadence_cfg then weekly_tasks else []) <> []
             <-> weekday run_date = w)).
  { intros w <-. destruct (Z.eqb_spec (weekday run_date) (weekly_review_weekday cadence_cfg));
      split; intros; try congruence; discriminate. }
  split; [destruct (weekday run_date =? _); auto|].
  unfold weekly_review_weekday, dict_get in Hiff.
  split; [|split; [|split]].
  - intros s i E Hi. apply Hiff. rewrite E. simpl.
    rewrite (day_name_weekday i _ Hi). reflexivity.
  - intros s E Hs. apply Hiff. rewrite E. simpl.
    rewrite (other_name_weekday _ Hs). reflexivity.
  - intros v E Hv. apply Hiff. rewrite E. destruct v; try reflexivity.
    exfalso. eapply Hv. reflexivity.
  - intros E. apply Hiff. rewrite E. reflexivity.
Qed.

Lemma weekly_tasks_iff_weekday_witness :
  exists tasks weekly,
    build_due_tasks friday_2024_03_01 {[ "weekly_review_day" := VStr " Monday " ]} [] = Ok tasks
    /\ tasks !! "weekly" = Some weekly
    /\ (weekly = weekly_tasks \/ weekly = [])
    /\ (forall s i, ({[ "weekly_review_day" := VStr " Monday " ]} : gmap string PyVal)
                      !! "weekly_review_day" = Some (VStr s) ->
          day_names !! i = Some (Text.lower (Text.strip s)) ->
          (weekly <> [] <-> weekday friday_2024_03_01 = Z.of_nat i))
    /\ (forall s, ({[ "weekly_review_day" := VStr " Monday " ]} : gmap string PyVal)
                    !! "weekly_review_day" = Some (VStr s) ->
          ~ In (Text.lower (Text.strip s)) day_names ->
          (weekly <> [] <-> weekday friday_2024_03_01 = 4))
    /\ (forall v, ({[ "weekly_review_day" := VStr " Monday " ]} : gmap string PyVal)
                    !! "weekly_review_day" = Some v -> (forall s, v <> VStr s) ->
          (weekly <> [] <-> weekday friday_2024_03_01 = 4))
    /\ (({[ "weekly_review_day" := VStr " Monday " ]} : gmap string PyVal)
          !! "weekly_review_day" = None -> (weekly <> [] <-> weekday friday_2024_03_01 = 4)).
Proof.
  apply (weekly_tasks_iff_weekday friday_2024_03_01 {[ "weekly_review_day" := VStr " Monday " ]}
           [] true 1); [discriminate|reflexivity|reflexivity].
Defined.




Lemma build_due_tasks_earnings_window (run_date : date) (cadence_cfg : gmap string PyVal)
    (earnings_due : list string) (tasks : gmap string (list string)) :
  build_due_tasks run_date cadence_cfg earnings_due = Ok tasks ->
  tasks !! "earnings_window"
  = Some (if nonempty earnings_due then earnings_window_tasks else []).
Proof.
  unfold build_due_tasks. intros H.
  apply bind_returns in H as (b & _ & H). apply bind_returns in H as (n & _ & H).
  apply bind_returns in H as (c & _ & H). injection H as <-. reflexivity.
Qed.

Lemma nonempty_map {A B} (f : A -> B) (l : list A) : nonempty (map f l) = nonempty l.
Proof. destruct l; reflexivity. Qed.

Lemma nonempty_filter {A} (p : A -> bool) (l : list A) :
  nonempty (List.filter p l) = true <-> exists x, In x l /\ p x = true.
Proof.
  split.
  - destruct (List.filter p l) as [|x r] eqn:E; [discriminate|]. intros _.
    exists x. apply List.filter_In. rewrite E. left; reflexivity.
  - intros (x & Hin & Hp).
    assert (Hf : In x (List.filter p l)) by (apply List.filter_In; auto).
    destruct (List.filter p l); [destruct Hf|reflexivity].
Qed.

(** X12.  The two steps of [main] composed: the earnings-window list of
    [build_due_tasks], fed with the [earnings_due] that
    [evaluate_guardrails] returned, is non-empty exactly when some
    watchlist item has its earnings date within [earnings_window_days] of
    the run date; the status is then "MANUAL REVIEW REQUIRED" and the
    trigger list holds the earnings trigger. *)
Theorem earnings_window_tasks_iff_due
    (snapshots : list Snapshot) (watchlist : list WatchlistItem)
    (guardrails cadence_cfg : gmap string PyVal) (run_date : date)
    (k sd : Z) (th : float) (w : Z)
    (status : string) (triggered earnings_due : list string)
    (tasks : gmap string (list string)) :
  settings guardrails = Ok (k, sd, th, w) ->
  evaluate_guardrails snapshots watchlist guardrails run_date
    = Ok (status, triggered, earnings_due) ->
  build_due_tasks run_date cadence_cfg earnings_due = Ok tasks ->
  exists earnings_window,
    tasks !! "earnings_window" = Some earnings_window
    /\ (earnings_window = earnings_window_tasks \/ earnings_window = [])
    /\ (earnings_window <> [] <->
        exists item d, In item watchlist /\ earnings_date item = Some d
                       /\ Z.abs (days_between d run_date) <= w)
    /\ (earnings_window <> [] ->
        status = "MANUAL REVIEW REQUIRED"
        /\ exists t, In t triggered /\ is_earnings_trigger t = true).
Proof.
  intros Hs He Hb. apply build_due_tasks_earnings_window in Hb.
  apply evaluate_guardrails_inv in He as (k' & sd' & th' & w' & Hs' & -> & -> & ->).
  rewrite Hs in Hs'. injection Hs' as <- <- <- <-.
  eexists. split; [exact Hb|]. split; [destruct (nonempty _); auto|].
  assert (Hne : (if nonempty (earnings_due_list w run_date watchlist)
                 then earnings_window_tasks else []) <> []
                <-> nonempty (earnings_due_list w run_date watchlist) = true).
  { destruct (nonempty _); split; intros; try congruence; discriminate. }
  rewrite Hne. unfold earnings_due_list at 1 2. rewrite nonempty_map. split.
  - rewrite nonempty_filter. split.
    + intros (item & Hin & Hw). unfold in_earnings_window in Hw.
      destruct (earnings_date item) as [d|] eqn:E; [|discriminate].
      exists item, d. apply Z.leb_le in Hw. auto.
    + intros (item & d & Hin & E & Hw). exists item. split; [exact Hin|].
      unfold in_earnings_window. rewrite E. apply Z.leb_le. exact Hw.
  - intros Hd.
    assert (Hr : rule_earnings w run_date watchlist
                 = [earnings_message (earnings_due_list w run_date watchlist)]).
    { unfold rule_earnings. unfold earnings_due_list at 1. rewrite nonempty_map, Hd. reflexivity. }
    split.
    + unfold status_of, triggers. rewrite Hr.
      destruct (rule_missing _ _ ++ rule_stale _ _ _ ++ rule_moves _ _ ++ _) eqn:E; [|reflexivity].
      apply app_eq_nil in E as [_ E]. apply app_eq_nil in E as [_ E].
      apply app_eq_nil in E as [_ E]. discriminate.
    + exists (earnings_message (earnings_due_list w run_date watchlist)). split.
      * unfold triggers. rewrite Hr. rewrite !in_app_iff. right. right. right. left. reflexivity.
      * unfold is_earnings_trigger, earnings_message. apply prefix_append.
Qed.

Lemma earnings_window_tasks_iff_due_witness :
  exists earnings_window,
    due_tasks (weekday friday_2024_03_01 =? weekly_review_weekday ∅) true
      (business_days_through friday_2024_03_01 =? 1)
      (nonempty (earnings_due_list 1 friday_2024_03_01 sample_watchlist))
      !! "earnings_window" = Some earnings_window
    /\ (earnings_window = earnings_window_tasks \/ earnings_window = [])
    /\ (earnings_window <> [] <->
        exists item d, In item sample_watchlist /\ earnings_date item = Some d
                       /\ Z.abs (days_between d friday_2024_03_01) <= 1)
    /\ (earnings_window <> [] ->
        "MANUAL REVIEW REQUIRED" = "MANUAL REVIEW REQUIRED"
        /\ exists t, In t (triggers sample_snapshots sample_watchlist friday_2024_03_01 0 1 7 1)
                     /\ is_earnings_trigger t = true).
Proof.
  apply (earnings_window_tasks_iff_due sample_snapshots sample_watchlist ∅ ∅ friday_2024_03_01
           0 1 7 1 "MANUAL REVIEW REQUIRED" _
           (earnings_due_list 1 friday_2024_03_01 sample_watchlist)).
  - reflexivity.
  - rewrite (evaluate_guardrails_settings _ _ _ ∅ 0 1 7 1 settings_empty). reflexivity.
  - apply (build_due_tasks_returns friday_2024_03_01 ∅ _ true 1); [discriminate|reflexivity..].
Defined.

(** ** The guardrail evaluator, further *)

Lemma SFcompare_nan_l (y : spec_float) : SFcompare S754_nan y = None.
Proof. reflexivity. Qed.

Lemma SFeqb_refl_not_nan (x : spec_float) : SFeqb x x = false -> x = S754_nan.
Proof.
  unfold SFeqb. destruct x as [s| s| |s m e]; simpl; try discriminate; try reflexivity.
  - destruct s; discriminate.
  - destruct s; rewrite Z.compare_refl, Pos.compare_refl; discriminate.
Qed.

(** A NaN on the left makes [<=] false. *)
Lemma leb_nan (th x : float) : (th =? th)%float = false -> (th <=? x)%float = false.
Proof.
  rewrite FloatAxioms.eqb_spec, FloatAxioms.leb_spec. intros H. apply SFeqb_refl_not_nan in H.
  rewrite H. reflexivity.
Qed.

Lemma rule_filter_move (snapshots : list Snapshot) (watchlist : list WatchlistItem)
    (run_date : date) (k sd : Z) (th : float) (w : Z) :
  List.filter is_move_trigger (triggers snapshots watchlist run_date k sd th w)
  = rule_moves th snapshots.
Proof.
  unfold triggers. rewrite !List.filter_app.
  assert (E1 : List.filter is_move_trigger (rule_missing k snapshots) = []).
  { unfold rule_missing. destruct (k <? _); reflexivity. }
  assert (E2 : List.filter is_move_trigger (rule_stale sd run_date snapshots) = []).
  { unfold rule_stale. destruct (nonempty _); reflexivity. }
  assert (E3 : List.filter is_move_trigger (rule_earnings w run_date watchlist) = []).
  { unfold rule_earnings. destruct (nonempty _); reflexivity. }
  assert (E4 : List.filter is_move_trigger (rule_moves th snapshots) = rule_moves th snapshots).
  { unfold rule_moves. destruct (nonempty _); [|reflexivity].
    simpl. unfold is_move_trigger, move_message. rewrite prefix_append. reflexivity. }
  rewrite E1, E2, E3, E4, app_nil_r. reflexivity.
Qed.

(** X13.  A snapshot counts as a large move exactly when its price change
    is present and its absolute value is at least
    [price_move_pct_threshold] (a move of exactly the threshold counts);
    a NaN threshold flags nothing.  When some snapshot moved, the trigger
    list holds exactly one large-move trigger: the threshold with one
    decimal, then the tickers with their signed changes in snapshot
    order. *)
Theorem large_move_trigger
    (snapshots : list Snapshot) (watchlist : list WatchlistItem)
    (guardrails : gmap string PyVal) (run_date : date)
    (k sd : Z) (th : float) (w : Z) :
  settings guardrails = Ok (k, sd, th, w) ->
  let large_moves := map move_text (List.filter (is_large_move th) snapshots) in
  exists status triggered earnings_due,
    evaluate_guardrails snapshots watchlist guardrails run_date
      = Ok (status, triggered, earnings_due)
    /\ List.filter is_move_trigger triggered
       = (if nonempty large_moves
          then ["Large daily move >= " +:+ Float.format_fixed false 1 th +:+ "%: "
                +:+ Text.join ", " large_moves]
          else [])
    /\ (forall s, is_large_move th s = true <->
          exists change, price_change_pct s = Some change /\ (th <=? abs change)%float = true)
    /\ (forall s change, price_change_pct s = Some change ->
          move_text s = ticker s +:+ " (" +:+ Float.format_fixed true 2 change +:+ "%)")
    /\ ((th =? th)%float = false -> large_moves = []).
Proof.
  intros Hs large_moves.
  do 3 eexists. split; [apply evaluate_guardrails_settings; exact Hs|].
  split; [rewrite rule_filter_move; reflexivity|].
  split.
  { intros s. unfold is_large_move. destruct (price_change_pct s) as [c|]; split.
    - intros H. exists c. auto.
    - intros (c' & [= <-] & H). exact H.
    - discriminate.
    - intros (c' & E & _). discriminate. }
  split. { intros s c E. unfold move_text. rewrite E. reflexivity. }
  intros Hnan. unfold large_moves.
  replace (List.filter (is_large_move th) snapshots) with (@nil Snapshot); [reflexivity|].
  symmetry. induction snapshots as [|s l IH]; [reflexivity|].
  simpl. rewrite <- IH. unfold is_large_move at 1.
  destruct (price_change_pct s); [rewrite leb_nan by exact Hnan|]; reflexivity.
Qed.

Lemma large_move_trigger_witness :
  exists status triggered earnings_due,
    evaluate_guardrails sample_snapshots sample_watchlist
      {[ "price_move_pct_threshold" := VFloat 1.5 ]} friday_2024_03_01
      = Ok (status, triggered, earnings_due)
    /\ List.filter is_move_trigger triggered
       = (if nonempty (map move_text (List.filter (is_large_move 1.5) sample_snapshots))
          then ["Large daily move >= " +:+ Float.format_fixed false 1 1.5 +:+ "%: "
                +:+ Text.join ", " (map move_text (List.filter (is_large_move 1.5) sample_snapshots))]
          else [])
    /\ (forall s, is_large_move 1.5 s = true <->
          exists change, price_change_pct s = Some change /\ (1.5 <=? abs change)%float = true)
    /\ (forall s change, price_change_pct s = Some change ->
          move_text s = ticker s +:+ " (" +:+ Float.format_fixed true 2 change +:+ "%)")
    /\ ((1.5 =? 1.5)%float = false
        -> map move_text (List.filter (is_large_move 1.5) sample_snapshots) = []).
Proof.
  apply (large_move_trigger sample_snapshots sample_watchlist
           {[ "price_move_pct_threshold" := VFloat 1.5 ]} friday_2024_03_01 0 1 1.5 1).
  reflexivity.
Defined.

(** X14.  What "AUTO CLEAR" guarantees: [evaluate_guardrails] returns that
    status exactly when at most [max_missing_tickers] snapshots have an
    error text or no price, no snapshot is stale, no snapshot moved by
    the threshold or more, and no watchlist item is within its earnings
    window. *)
Theorem auto_clear_iff
    (snapshots : list Snapshot) (watchlist : list WatchlistItem)
    (guardrails : gmap string PyVal) (run_date : date)
    (k sd : Z) (th : float) (w : Z) :
  settings guardrails = Ok (k, sd, th, w) ->
  exists status triggered earnings_due,
    evaluate_guardrails snapshots watchlist guardrails run_date
      = Ok (status, triggered, earnings_due)
    /\ (status = "AUTO CLEAR" <->
        len (List.filter lacks_data_code snapshots) <= k
        /\ (forall s, In s snapshots ->
              is_stale sd run_date s = false /\ is_large_move th s = false)
        /\ (forall item, In item watchlist -> in_earnings_window w run_date item = false)).
Proof.
  intros Hs. do 3 eexists. split; [apply evaluate_guardrails_settings; exact Hs|].
  assert (Hnone : forall {A} (p : A -> bool) (l : list A),
            nonempty (List.filter p l) = false <-> forall x, In x l -> p x = false).
  { intros A p l. split.
    - intros H x Hin. destruct (p x) eqn:E; [|reflexivity].
      assert (T : nonempty (List.filter p l) = true) by (apply nonempty_filter; eauto).
      congruence.
    - intros H. destruct (nonempty (List.filter p l)) eqn:E; [|reflexivity].
      apply nonempty_filter in E as (x & Hin & Hp). rewrite (H x Hin) in Hp. discriminate. }
  unfold status_of, triggers, rule_missing, rule_stale, rule_moves, rule_earnings, earnings_due_list.
  rewrite !nonempty_map. unfold len at 1. rewrite length_map. fold (len (List.filter lacks_data_code snapshots)).
  destruct (Z.ltb_spec k (len (List.filter lacks_data_code snapshots))) as [L|L].
  { split; [discriminate|]. intros [H _]. lia. }
  destruct (nonempty (List.filter (is_stale sd run_date) snapshots)) eqn:Est.
  { split; [discriminate|]. intros (_ & H & _).
    apply nonempty_filter in Est as (s & Hin & Hst). destruct (H s Hin). congruence. }
  destruct (nonempty (List.filter (is_large_move th) snapshots)) eqn:Emv.
  { split; [discriminate|]. intros (_ & H & _).
    apply nonempty_filter in Emv as (s & Hin & Hst). destruct (H s Hin). congruence. }
  destruct (nonempty (List.filter (in_earnings_window w run_date) watchlist)) eqn:Eea.
  { split; [discriminate|]. intros (_ & _ & H).
    apply nonempty_filter in Eea as (s & Hin & Hst). rewrite (H s Hin) in Hst. discriminate. }
  simpl. split; [intros _|reflexivity].
  split; [exact L|]. split.
  - intros s Hin. split; [apply (proj1 (Hnone _ _ _) Est)|apply (proj1 (Hnone _ _ _) Emv)]; exact Hin.
  - apply (proj1 (Hnone _ _ _) Eea).
Qed.

Lemma auto_clear_iff_witness :
  exists status triggered earnings_due,
    evaluate_guardrails [snapshot_ok "MRVL" 70 (-0.25) friday_2024_03_01] [] ∅ friday_2024_03_01
      = Ok (status, triggered, earnings_due)
    /\ (status = "AUTO CLEAR" <->
        len (List.filter lacks_data_code [snapshot_ok "MRVL" 70 (-0.25) friday_2024_03_01]) <= 0
        /\ (forall s, In s [snapshot_ok "MRVL" 70 (-0.25) friday_2024_03_01] ->
              is_stale 1 friday_2024_03_01 s = false /\ is_large_move 7 s = false)
        /\ (forall item, In item (@nil WatchlistItem) ->
              in_earnings_window 1 friday_2024_03_01 item = false)).
Proof.
  apply (auto_clear_iff [snapshot_ok "MRVL" 70 (-0.25) friday_2024_03_01] [] ∅
           friday_2024_03_01 0 1 7 1).
  reflexivity.
Defined.

(** X15.  The trigger list holds at most one trigger per rule, so at most
    four, in the order missing data, stale data, large move, earnings
    window: it is the concatenation of its four selections. *)
Theorem triggers_one_per_rule
    (snapshots : list Snapshot) (watchlist : list WatchlistItem)
    (guardrails : gmap string PyVal) (run_date : date)
    (status : string) (triggered earnings_due : list string) :
  evaluate_guardrails snapshots watchlist guardrails run_date
    = Ok (status, triggered, earnings_due) ->
  triggered = List.filter is_missing_trigger triggered ++ List.filter is_stale_trigger triggered
              ++ List.filter is_move_trigger triggered ++ List.filter is_earnings_trigger triggered
  /\ len (List.filter is_missing_trigger triggered) <= 1
  /\ len (List.filter is_stale_trigger triggered) <= 1
  /\ len (List.filter is_move_trigger triggered) <= 1
  /\ len (List.filter is_earnings_trigger triggered) <= 1
  /\ len triggered <= 4.
Proof.
  intros H. apply evaluate_guardrails_inv in H as (k & sd & th & w & _ & -> & _ & _).
  destruct (triggers_filter snapshots watchlist run_date k sd th w) as (-> & -> & ->).
  rewrite rule_filter_move.
  split; [reflexivity|].
  assert (L1 : len (rule_missing k snapshots) <= 1).
  { unfold rule_missing. destruct (k <? _); unfold len; simpl; lia. }
  assert (L2 : len (rule_stale sd run_date snapshots) <= 1).
  { unfold rule_stale. destruct (nonempty _); unfold len; simpl; lia. }
  assert (L3 : len (rule_moves th snapshots) <= 1).
  { unfold rule_moves. destruct (nonempty _); unfold len; simpl; lia. }
  assert (L4 : len (rule_earnings w run_date watchlist) <= 1).
  { unfold rule_earnings. destruct (nonempty _); unfold len; simpl; lia. }
  repeat (split; [assumption|]).
  unfold triggers, len in *. rewrite !length_app. lia.
Qed.

Lemma triggers_one_per_rule_witness :
  len (triggers sample_snapshots sample_watchlist friday_2024_03_01 0 1 7 1) <= 4.
Proof.
  apply (triggers_one_per_rule sample_snapshots sample_watchlist ∅ friday_2024_03_01
           "MANUAL REVIEW REQUIRED" _
           (earnings_due_list 1 friday_2024_03_01 sample_watchlist)).
  rewrite (evaluate_guardrails_settings _ _ _ ∅ 0 1 7 1 settings_empty). reflexivity.
Defined.

(** ** Conversions and parsers *)


Lemma float_of_string_outcome (s : string) :
  (exists x, Parse.float_of_string s = Ok x) \/ Parse.float_of_string s = Raise ValueError.
Proof.
  unfold Parse.float_of_string.
  destruct (Parse.sign _) as [neg l].
  destruct (_ || _); [eauto|]. destruct (String.eqb _ "nan"); [eauto|].
  destruct (Parse.digitpart l) as [ip l1].
  destruct (match l1 with "."%char :: l1' => Parse.digitpart l1' | _ => ([], l1) end) as [fp l2].
  destruct (ip ++ fp); [eauto|]. destruct (Parse.exponent l2); eauto.
Qed.

Lemma py_float_outcome (v : PyVal) :
  (exists x, py_float v = Ok x)
  \/ py_float v = Raise TypeError
  \/ py_float v = Raise ValueError
  \/ (py_float v = Raise OverflowError /\ exists z, v = VInt z /\ Float.of_int z = None).
Proof.
  destruct v as [|b|z|f|s|l]; simpl; eauto.
  - destruct (Float.of_int z) eqn:E; eauto 10.
  - destruct (float_of_string_outcome s) as [H| ->]; eauto.
Qed.

Ltac outcome_cases :=
  repeat split; intros;
  repeat match goal with
         | H : _ /\ _ |- _ => destruct H
         | H : _ \/ _ |- _ => destruct H
         | H : exists _, _ |- _ => destruct H
         | H : Ok _ = Ok _ |- _ => injection H as H
         | H : Raise _ = Raise _ |- _ => injection H as H
         end;
  subst; try congruence; try discriminate; eauto 10;
  try match goal with
      | Hov : forall z, VInt ?a = VInt z -> _ -> _, Hz : Float.of_int ?a = None |- _ =>
          specialize (Hov a eq_refl Hz); discriminate
      | Hnone : ?a = ?a -> _ |- _ => specialize (Hnone eq_refl); discriminate
      end.

(** X16.  [safe_float] gives [None] for [None], for a value [float()]
    rejects and for NaN, and otherwise the value [float()] gives, which is
    never NaN.  One exception passes through: the [OverflowError] of an
    [int] too large for a float. *)
Theorem safe_float_outcome (v : PyVal) :
  (forall x, safe_float v = Ok (Some x) <-> py_float v = Ok x /\ (x =? x)%float = true)
  /\ (safe_float v = Ok None <->
      v = VNone \/ py_float v = Raise TypeError \/ py_float v = Raise ValueError
      \/ exists x, py_float v = Ok x /\ (x =? x)%float = false)
  /\ (forall e, safe_float v = Raise e <->
      e = OverflowError /\ exists z, v = VInt z /\ Float.of_int z = None)
  /\ safe_float v <> OutOfFuel.
Proof.
  assert (G : safe_float v
              = match py_float v with
                | Ok x => if (x =? x)%float then Ok (Some x) else Ok None
                | Raise OverflowError => Raise OverflowError
                | _ => Ok None
                end).
  { destruct v as [|b|z|f|s|l].
    - reflexivity.
    - destruct b; reflexivity.
    - simpl. destruct (Float.of_int z) as [x|]; [|reflexivity]. destruct (x =? x)%float; reflexivity.
    - simpl. destruct (f =? f)%float; reflexivity.
    - unfold safe_float. destruct (float_of_string_outcome s) as [[x H]|H]; simpl; rewrite H;
        [destruct (x =? x)%float|]; reflexivity.
    - reflexivity. }
  rewrite G. clear G.
  assert (Hov : forall z, v = VInt z -> Float.of_int z = None -> py_float v = Raise OverflowError).
  { intros z -> Hz. simpl. rewrite Hz. reflexivity. }
  assert (Hnone : v = VNone -> py_float v = Raise TypeError) by (intros ->; reflexivity).
  destruct (py_float_outcome v) as [[x H]|[H|[H|(H & z & Ev & Hz)]]]; rewrite H in *.
  - destruct (x =? x)%float eqn:E; outcome_cases.
  - outcome_cases.
  - outcome_cases.
  - outcome_cases.
Qed.

Lemma eqb_true_not_nan (x : float) : (x =? x)%float = true -> Prim2SF x <> S754_nan.
Proof. rewrite FloatAxioms.eqb_spec. intros H E. rewrite E in H. discriminate. Qed.

Lemma trunc_outcome (x : float) :
  (x =? x)%float = true ->
  (exists n, Float.trunc x = Ok n)
  \/ (Float.trunc x = Raise OverflowError /\ exists s, Prim2SF x = S754_infinity s).
Proof.
  intros H. apply eqb_true_not_nan in H. unfold Float.trunc.
  destruct (Prim2SF x) as [s|s| |s m e]; eauto; contradiction.
Qed.

Lemma trunc_infinity (x : float) (s : bool) :
  Prim2SF x = S754_infinity s -> Float.trunc x = Raise OverflowError.
Proof. intros H. unfold Float.trunc. rewrite H. reflexivity. Qed.

(** X17.  [safe_int] gives [None] where [safe_float] does, and otherwise
    the float truncated towards zero.  Two failures pass through as
    [OverflowError]: an [int] too large for a float, and an infinite
    value, which [int()] refuses. *)
Theorem safe_int_outcome (v : PyVal) :
  (forall n, safe_int v = Ok (Some n) <->
     exists x, py_float v = Ok x /\ (x =? x)%float = true /\ Float.trunc x = Ok n)
  /\ (safe_int v = Ok None <-> safe_float v = Ok None)
  /\ (forall e, safe_int v = Raise e <->
      e = OverflowError
      /\ ((exists z, v = VInt z /\ Float.of_int z = None)
          \/ exists x s, py_float v = Ok x /\ Prim2SF x = S754_infinity s))
  /\ safe_int v <> OutOfFuel.
Proof.
  assert (G : safe_int v
              = match py_float v with
                | Ok x => if (x =? x)%float then Float.trunc x ≫= (fun n => Ok (Some n)) else Ok None
                | Raise OverflowError => Raise OverflowError
                | _ => Ok None
                end).
  { destruct v as [|b|z|f|s|l].
    - reflexivity.
    - destruct b; reflexivity.
    - simpl. destruct (Float.of_int z) as [x|]; [|reflexivity]. destruct (x =? x)%float; reflexivity.
    - simpl. destruct (f =? f)%float; reflexivity.
    - unfold safe_int. destruct (float_of_string_outcome s) as [[x H]|H]; simpl; rewrite H;
        [destruct (x =? x)%float|]; reflexivity.
    - reflexivity. }
  assert (F : safe_float v
              = match py_float v with
                | Ok x => if (x =? x)%float then Ok (Some x) else Ok None
                | Raise OverflowError => Raise OverflowError
                | _ => Ok None
                end).
  { destruct v as [|b|z|f|s|l].
    - reflexivity.
    - destruct b; reflexivity.
    - simpl. destruct (Float.of_int z) as [x|]; [|reflexivity]. destruct (x =? x)%float; reflexivity.
    - simpl. destruct (f =? f)%float; reflexivity.
    - unfold safe_float. destruct (float_of_string_outcome s) as [[x H]|H]; simpl; rewrite H;
        [destruct (x =? x)%float|]; reflexivity.
    - reflexivity. }
  rewrite G, F. clear G F.
  assert (Hov : forall z, v = VInt z -> Float.of_int z = None -> py_float v = Raise OverflowError).
  { intros z -> Hz. simpl. rewrite Hz. reflexivity. }
  destruct (py_float_outcome v) as [[x H]|[H|[H|(H & z & Ev & Hz)]]]; rewrite H in *.
  - destruct (x =? x)%float eqn:E.
    + destruct (trunc_outcome x E) as [[n T]|(T & s & P)]; rewrite T; simpl.
      * outcome_cases.
        match goal with P : Prim2SF _ = S754_infinity _ |- _ =>
          rewrite (trunc_infinity _ _ P) in T; discriminate end.
      * outcome_cases.
    + outcome_cases.
      match goal with P : Prim2SF _ = S754_infinity ?b |- _ =>
        rewrite FloatAxioms.eqb_spec, P in E; destruct b; discriminate end.
  - outcome_cases.
  - outcome_cases.
  - outcome_cases.
Qed.

(** ** Texts *)


Lemma length_append (a b : string) :
  String.length (a +:+ b) = (String.length a + String.length b)%nat.
Proof. induction a as [|c a IH]; simpl; [|rewrite IH]; reflexivity. Qed.

Lemma list_of_append (a b : string) :
  list_ascii_of_string (a +:+ b) = list_ascii_of_string a ++ list_ascii_of_string b.
Proof. induction a as [|c a IH]; simpl; [|rewrite IH]; reflexivity. Qed.




Lemma string_eqb_empty (s : string) : String.eqb s "" = false -> s <> "".
Proof. intros H ->. discriminate. Qed.


(** ** Snapshots *)

Lemma safe_float_not_nan (v : PyVal) (x : float) :
  safe_float v = Ok (Some x) -> (x =? x)%float = true.
Proof.
  unfold safe_float. destruct v; try discriminate;
    destruct (py_float _) as [y|[]|]; try discriminate;
    destruct (y =? y)%float eqn:E; simpl; intros [= <-]; exact E.
Qed.

Lemma compute_price_change_pct_some (current previous_close : option float) :
  compute_price_change_pct current previous_close <> None -> current <> None.
Proof. destruct current; [discriminate|]. intros H. exfalso. apply H. reflexivity. Qed.


Lemma summarize_error_message_nonempty (value_str : string) :
  summarize_error_message value_str <> "".
Proof.
  unfold summarize_error_message.
  destruct (String.eqb _ "") eqn:Ee; [discriminate|].
  destruct (_ && _); [discriminate|].
  destruct (140 <? _); [|apply string_eqb_empty; exact Ee].
  intros E. apply (f_equal String.length) in E. rewrite length_append in E.
  simpl in E. lia.
Qed.

(** X19.  Every snapshot [fetch_snapshot] returns keeps the invariant of
    the data model.  It carries the item's ticker and company; its error
    is set exactly when the fetch raised or gave an empty mapping, and is
    then a non-empty text beside which every numeric field is absent;
    its price change is present only beside a price, and its price is
    never NaN. *)
Theorem fetch_snapshot_invariant
    (extract_last_trade_date : gmap string PyVal -> result (option date))
    (item : WatchlistItem) (fetched : string + gmap string PyVal) (s : Snapshot) :
  fetch_snapshot extract_last_trade_date item fetched = Ok s ->
  ticker s = wl_ticker item /\ company s = wl_company item
  /\ snapshot_invariant s
  /\ (fetch_failed fetched = true <-> error s <> None)
  /\ (forall m, error s = Some m -> m <> "")
  /\ lacks_data_code s = lacks_data s
  /\ (price_change_pct s <> None -> price s <> None)
  /\ (forall x, price s = Some x -> (x =? x)%float = true).
Proof.
  intros H.
  assert (Herr : forall m, m <> "" ->
            s = error_snapshot item m ->
            ticker s = wl_ticker item /\ company s = wl_company item
            /\ snapshot_invariant s
            /\ (true = true <-> error s <> None)
            /\ (forall m, error s = Some m -> m <> "")
            /\ lacks_data_code s = lacks_data s
            /\ (price_change_pct s <> None -> price s <> None)
            /\ (forall x, price s = Some x -> (x =? x)%float = true)).
  { intros m Hm ->. simpl.
    split; [reflexivity|]. split; [reflexivity|].
    split; [intros _; repeat split|].
    split; [split; [discriminate|reflexivity]|].
    split; [intros m' [= <-]; exact Hm|].
    split; [unfold lacks_data_code, lacks_data; simpl; rewrite !orb_true_r; reflexivity|].
    split; [intros E; exfalso; apply E; reflexivity|discriminate]. }
  destruct fetched as [exc|info]; simpl in H.
  - injection H as <-. eapply Herr; [|reflexivity].
    apply (summarize_error_message_nonempty exc).
  - destruct (decide (info = ∅)) as [Hi|Hi].
    + injection H as <-. unfold fetch_failed. rewrite (bool_decide_eq_true_2 _ Hi).
      eapply Herr; [|reflexivity]. discriminate.
    + apply bind_returns in H as (p1 & H1 & H).
      apply bind_returns in H as (p2 & H2 & H).
      apply bind_returns in H as (pc & Hpc & H).
      apply bind_returns in H as (mc & _ & H).
      apply bind_returns in H as (pt & _ & H).
      apply bind_returns in H as (pf & _ & H).
      apply bind_returns in H as (ev & _ & H).
      apply bind_returns in H as (ps & _ & H).
      apply bind_returns in H as (lt & _ & H).
      injection H as <-. simpl. unfold fetch_failed. rewrite (bool_decide_eq_false_2 _ Hi).
      split; [reflexivity|]. split; [reflexivity|].
      split; [intros E; simpl in E; congruence|].
      split; [split; [discriminate|intros E; exfalso; apply E; reflexivity]|].
      split; [discriminate|]. split; [reflexivity|]. split.
      * intros E. apply compute_price_change_pct_some in E.
        destruct p2; [discriminate|congruence].
      * intros x E. destruct p2 as [y|]; simpl in E.
        -- injection E as ->. destruct p1 as [z|]; simpl in H2.
           ++ injection H2 as ->. apply (safe_float_not_nan _ _ H1).
           ++ apply (safe_float_not_nan _ _ H2).
        -- apply (safe_float_not_nan _ _ (eq_trans Hpc (f_equal Ok E))).
Qed.

Lemma fetch_snapshot_invariant_witness :
  ticker (error_snapshot (sample_item "NVDA") "Network fetch failed") = wl_ticker (sample_item "NVDA")
  /\ company (error_snapshot (sample_item "NVDA") "Network fetch failed")
     = wl_company (sample_item "NVDA")
  /\ snapshot_invariant (error_snapshot (sample_item "NVDA") "Network fetch failed")
  /\ (fetch_failed (inl "Failed to perform, curl: (6) Could not resolve host") = true
      <-> error (error_snapshot (sample_item "NVDA") "Network fetch failed") <> None)
  /\ (forall m, error (error_snapshot (sample_item "NVDA") "Network fetch failed") = Some m
                -> m <> "")
  /\ lacks_data_code (error_snapshot (sample_item "NVDA") "Network fetch failed")
     = lacks_data (error_snapshot (sample_item "NVDA") "Network fetch failed")
  /\ (price_change_pct (error_snapshot (sample_item "NVDA") "Network fetch failed") <> None
      -> price (error_snapshot (sample_item "NVDA") "Network fetch failed") <> None)
  /\ (forall x, price (error_snapshot (sample_item "NVDA") "Network fetch failed") = Some x
                -> (x =? x)%float = true).
Proof.
  apply (fetch_snapshot_invariant (fun _ => Ok None) (sample_item "NVDA")
           (inl "Failed to perform, curl: (6) Could not resolve host")).
  vm_compute. reflexivity.
Defined.


Lemma fetch_snapshot_facts
    (extract_last_trade_date : gmap string PyVal -> result (option date))
    (item : WatchlistItem) (fetched : string + gmap string PyVal) (s : Snapshot) :
  fetch_snapshot extract_last_trade_date item fetched = Ok s ->
  ticker s = wl_ticker item /\ snapshot_invariant s
  /\ (fetch_failed fetched = true -> lacks_data_code s = true).
Proof.
  intros H. destruct fetched as [exc|info]; simpl in H.
  - injection H as <-. split; [reflexivity|]. split; [intros _; repeat split|].
    intros _. unfold lacks_data_code. simpl. apply orb_true_r.
  - destruct (decide (info = ∅)) as [Hi|Hi].
    + injection H as <-. split; [reflexivity|]. split; [intros _; repeat split|].
      intros _. reflexivity.
    + repeat (apply bind_returns in H as (? & _ & H)). injection H as <-.
      split; [reflexivity|]. split; [intros E; simpl in E; congruence|].
      unfold fetch_failed. rewrite (bool_decide_eq_false_2 _ Hi). discriminate.
Qed.

Lemma fetch_all_missing
    (extract_last_trade_date : gmap string PyVal -> result (option date))
    (fetches : list (WatchlistItem * (string + gmap string PyVal))) (snaps : list Snapshot) :
  fetch_all extract_last_trade_date fetches = Ok snaps ->
  map ticker snaps = map (fun f => wl_ticker f.1) fetches
  /\ len (List.filter (fun f => fetch_failed f.2) fetches)
     <= len (List.filter lacks_data_code snaps)
  /\ Forall snapshot_invariant snaps.
Proof.
  revert snaps. induction fetches as [|[item fetched] rest IH]; intros snaps H.
  - injection H as <-. split; [reflexivity|]. split; [unfold len; simpl; lia|constructor].
  - cbn [fetch_all] in H. apply bind_returns in H as (s & Hs & H).
    apply bind_returns in H as (l & Hl & H). injection H as <-.
    destruct (IH l Hl) as (Et & Hlen & Hinv).
    destruct (fetch_snapshot_facts _ _ _ _ Hs) as (Eti & Hi & Hf).
    split; [simpl; rewrite Eti, Et; reflexivity|]. split; [|constructor; assumption].
    cbn [List.filter fst snd]. destruct (fetch_failed fetched).
    + rewrite (Hf eq_refl). unfold len in *. simpl. lia.
    + destruct (lacks_data_code s); unfold len in *; simpl; lia.
Qed.

(** X20.  [fetch_snapshot] and [evaluate_guardrails] composed as [main]
    composes them: when more than [max_missing_tickers] fetches raised or
    gave an empty mapping, the status is "MANUAL REVIEW REQUIRED" and the
    missing-data trigger is in the list.  The snapshots come in watchlist
    order, one per item. *)
Theorem failed_fetches_force_review
    (extract_last_trade_date : gmap string PyVal -> result (option date))
    (fetches : list (WatchlistItem * (string + gmap string PyVal))) (snaps : list Snapshot)
    (guardrails : gmap string PyVal) (run_date : date) (k sd : Z) (th : float) (w : Z) :
  fetch_all extract_last_trade_date fetches = Ok snaps ->
  settings guardrails = Ok (k, sd, th, w) ->
  k < len (List.filter (fun f => fetch_failed f.2) fetches) ->
  map ticker snaps = map (fun f => wl_ticker f.1) fetches
  /\ exists triggered earnings_due,
       evaluate_guardrails snaps (map fst fetches) guardrails run_date
         = Ok ("MANUAL REVIEW REQUIRED", triggered, earnings_due)
       /\ exists t, In t triggered /\ is_missing_trigger t = true.
Proof.
  intros Hf Hs Hk. destruct (fetch_all_missing _ _ _ Hf) as (Et & Hlen & _).
  split; [exact Et|].
  rewrite (evaluate_guardrails_settings _ _ _ _ _ _ _ _ Hs).
  assert (Hr : rule_missing k snaps
               = [missing_message (map ticker (List.filter lacks_data_code snaps))]).
  { unfold rule_missing. unfold len at 1. rewrite length_map.
    fold (len (List.filter lacks_data_code snaps)).
    destruct (Z.ltb_spec k (len (List.filter lacks_data_code snaps))); [reflexivity|lia]. }
  assert (Ht : exists rest, triggers snaps (map fst fetches) run_date k sd th w
                 = missing_message (map ticker (List.filter lacks_data_code snaps)) :: rest).
  { unfold triggers. rewrite Hr. eexists. reflexivity. }
  destruct Ht as [rest Ht]. rewrite Ht.
  do 2 eexists. split; [reflexivity|].
  eexists. split; [left; reflexivity|].
  unfold is_missing_trigger, missing_message. apply prefix_append.
Qed.

Lemma failed_fetches_force_review_witness :
  map ticker [error_snapshot (sample_item "NVDA") "Network fetch failed"]
  = map (fun f : WatchlistItem * (string + gmap string PyVal) => wl_ticker f.1)
      [(sample_item "NVDA", inl "Failed to perform, curl: (6) Could not resolve host")]
  /\ exists triggered earnings_due,
       evaluate_guardrails [error_snapshot (sample_item "NVDA") "Network fetch failed"]
         (map fst [(sample_item "NVDA",
                    inl "Failed to perform, curl: (6) Could not resolve host"
                    : string + gmap string PyVal)])
         ∅ friday_2024_03_01
         = Ok ("MANUAL REVIEW REQUIRED", triggered, earnings_due)
       /\ exists t, In t triggered /\ is_missing_trigger t = true.
Proof.
  apply (failed_fetches_force_review (fun _ => Ok None)
           [(sample_item "NVDA", inl "Failed to perform, curl: (6) Could not resolve host")]
           _ ∅ friday_2024_03_01 0 1 7 1).
  - vm_compute. reflexivity.
  - reflexivity.
  - vm_compute. reflexivity.
Defined.

(** ** The watchlist *)


Lemma lstrip_fixed (l : list ascii) : starts_clean l -> Text.lstrip l = l.
Proof. destruct l as [|c l]; simpl; [reflexivity|]. intros ->. reflexivity. Qed.



Lemma strip_chars_fixed (l : list ascii) :
  starts_clean l -> starts_clean (rev l) -> Text.strip_chars l = l.
Proof.
  intros H1 H2. unfold Text.strip_chars.
  rewrite (lstrip_fixed l H1), (lstrip_fixed (rev l) H2). apply rev_involutive.
Qed.








Lemma parse_iso_date_returns (value : Scalar) : exists o, parse_iso_date value = Ok o.
Proof.
  destruct value as [|d|s]; simpl; eauto.
  destruct (String.eqb _ ""); eauto.
  destruct (strptime_ymd_outcome (Text.strip s)) as [[d ->]| ->]; eauto.
Qed.



(** ** Dates as text *)

Lemma year_text (y : Z) : 1 <= y <= 9999 -> year_text_ok y = true.
Proof.
  intros H.
  assert (T : forallb year_text_ok (seqZ 1 9999) = true) by (vm_compute; reflexivity).
  rewrite forallb_forall in T. apply T, list_elem_of_In, elem_of_seqZ. lia.
Qed.

Lemma field_text (n : Z) : 1 <= n <= 31 -> field_text_ok n = true.
Proof.
  intros H.
  assert (T : forallb field_text_ok (seqZ 1 31) = true) by (vm_compute; reflexivity).
  rewrite forallb_forall in T. apply T, list_elem_of_In, elem_of_seqZ. lia.
Qed.

Lemma strptime_ymd_isoformat (d : date) : strptime_ymd (isoformat d) = Ok d.
Proof.
  destruct (date_bounds d) as (Hy & Hm & Hd).
  pose proof (days_in_month_bounds (year d) (month d)) as Hdim.
  pose proof (year_text (year d) Hy) as Ty.
  pose proof (field_text (month d) ltac:(lia)) as Tm.
  pose proof (field_text (day d) ltac:(lia)) as Td.
  unfold strptime_ymd, isoformat. rewrite !list_of_append.
  unfold year_text_ok in Ty. unfold field_text_ok in Tm, Td.
  destruct (list_ascii_of_string (Text.zero_pad 4 (year d))) as [|a [|b [|c [|e [|? ?]]]]];
    try discriminate.
  destruct (list_ascii_of_string (Text.zero_pad 2 (month d))) as [|m1 [|m2 [|? ?]]];
    try discriminate.
  destruct (list_ascii_of_string (Text.zero_pad 2 (day d))) as [|d1 [|d2 [|? ?]]];
    try discriminate.
  apply andb_true_iff in Ty as [Ty Ey]. apply Z.eqb_eq in Ey.
  apply andb_true_iff in Tm as [Tm Em]. apply andb_true_iff in Tm as [Tm Nm2].
  apply andb_true_iff in Tm as [Tm Nm1]. apply andb_true_iff in Tm as [Dm1 Dm2].
  apply andb_true_iff in Td as [Td Ed]. apply andb_true_iff in Td as [Td Nd2].
  apply andb_true_iff in Td as [Td Nd1]. apply andb_true_iff in Td as [Dd1 Dd2].
  repeat match goal with
         | H : negb _ = true |- _ => apply negb_true_iff in H
         | H : (_ =? _) = true |- _ => apply Z.eqb_eq in H
         end.
  cbn [app list_ascii_of_string]. rewrite Ty.
  cbn [split_at_dash]. 
  repeat match goal with H : Ascii.eqb _ "-" = false |- _ => rewrite H; clear H end.
  change (Ascii.eqb "-" "-") with true. cbn iota beta.
  cbn [two_digit_field].
  repeat match goal with H : Text.is_digit _ = true |- _ => rewrite H; clear H end.
  cbn [andb].
  repeat match goal with H : 10 * _ + _ = _ |- _ => rewrite H; clear H end.
  rewrite Ey.
  destruct (Z.leb_spec 1 (month d)); [|lia]. destruct (Z.leb_spec (month d) 12); [|lia].
  destruct (Z.leb_spec 1 (day d)); [|lia]. destruct (Z.leb_spec (day d) 31); [|lia].
  cbn [andb].
  destruct (mk_date_valid (year d) (month d) (day d) Hy Hm Hd) as (dt & -> & E1 & E2 & E3).
  f_equal. apply date_eq; assumption.
Qed.

Lemma isoformat_clean (d : date) : Text.strip (isoformat d) = isoformat d /\ isoformat d <> "".
Proof.
  destruct (date_bounds d) as (Hy & Hm & Hd).
  pose proof (days_in_month_bounds (year d) (month d)) as Hdim.
  pose proof (year_text (year d) Hy) as Ty.
  pose proof (field_text (day d) ltac:(lia)) as Td.
  unfold year_text_ok in Ty. unfold field_text_ok in Td.
  assert (Hsp : forall c, Text.is_digit c = true -> Text.is_space c = false).
  { intros c. destruct c as [[] [] [] [] [] [] [] []]; vm_compute; congruence. }
  assert (El : list_ascii_of_string (isoformat d)
               = list_ascii_of_string (Text.zero_pad 4 (year d)) ++ "-"%char ::
                 list_ascii_of_string (Text.zero_pad 2 (month d)) ++ "-"%char ::
                 list_ascii_of_string (Text.zero_pad 2 (day d))).
  { unfold isoformat. rewrite !list_of_append. reflexivity. }
  split.
  - unfold Text.strip. rewrite strip_chars_fixed; [apply string_of_list_ascii_of_string| |];
      rewrite El.
    + destruct (list_ascii_of_string (Text.zero_pad 4 (year d))) as [|a r]; [discriminate|].
      destruct r as [|b [|c [|e [|? ?]]]]; try discriminate.
      apply andb_true_iff in Ty as [Ty _]. simpl in Ty.
      apply andb_true_iff in Ty as [Ty _]. simpl. apply Hsp, Ty.
    + destruct (list_ascii_of_string (Text.zero_pad 2 (day d))) as [|d1 [|d2 [|? ?]]];
        try discriminate.
      apply andb_true_iff in Td as [Td _]. apply andb_true_iff in Td as [Td _].
      apply andb_true_iff in Td as [Td _]. apply andb_true_iff in Td as [_ Dd2].
      rewrite !rev_app_distr. simpl. rewrite !rev_app_distr. simpl. apply Hsp. exact Dd2.
  - intros E. apply (f_equal list_ascii_of_string) in E. rewrite El in E.
    destruct (list_ascii_of_string (Text.zero_pad 4 (year d))); discriminate.
Qed.

(** X22.  [parse_iso_date] reads back what [isoformat] writes: the text
    of a date, with or without blanks around it, parses to that date.
    The function never raises, whatever the value. *)
Theorem parse_iso_date_isoformat (d : date) :
  parse_iso_date (SText (isoformat d)) = Ok (Some d)
  /\ (forall s, Text.strip s = isoformat d -> parse_iso_date (SText s) = Ok (Some d))
  /\ parse_iso_date (SDate d) = Ok (Some d)
  /\ (forall value, exists o, parse_iso_date value = Ok o).
Proof.
  destruct (isoformat_clean d) as [Es Hne].
  assert (G : forall s, Text.strip s = isoformat d -> parse_iso_date (SText s) = Ok (Some d)).
  { intros s E. unfold parse_iso_date, scalar_str. rewrite E.
    destruct (String.eqb_spec (isoformat d) ""); [contradiction|].
    rewrite strptime_ymd_isoformat. reflexivity. }
  split; [apply G, Es|]. split; [exact G|]. split; [reflexivity|apply parse_iso_date_returns].
Qed.

(** ** Numbers as text *)

Lemma pretty_N_char_digit (r : N) : (r < 10)%N ->
  Text.is_digit (pretty_N_char r) = true /\ Text.digit_value (pretty_N_char r) = Z.of_N r.
Proof.
  intros H.
  assert (r = 0 \/ r = 1 \/ r = 2 \/ r = 3 \/ r = 4 \/ r = 5 \/ r = 6 \/ r = 7 \/ r = 8 \/ r = 9)%N
    as C by lia.
  destruct C as [->|[->|[->|[->|[->|[->|[->|[->|[->| ->]]]]]]]]]; split; reflexivity.
Qed.

Lemma decimal_snoc (ds : list Z) (d : Z) : Parse.decimal (ds ++ [d]) = 10 * Parse.decimal ds + d.
Proof. unfold Parse.decimal. rewrite fold_left_app. reflexivity. Qed.

(** The characters [pretty_N_go] puts before its accumulator are the
    decimal digits of its argument. *)
Lemma pretty_N_go_digits (x : N) : forall s,
  exists ds, list_ascii_of_string (pretty_N_go x s) = ds ++ list_ascii_of_string s
    /\ forallb Text.is_digit ds = true
    /\ Parse.decimal (map Text.digit_value ds) = Z.of_N x
    /\ ((0 < x)%N -> ds <> []).
Proof.
  induction (N.lt_wf_0 x) as [x _ IH]. intros s.
  destruct (N.eq_dec x 0%N) as [->|Hx].
  - exists []. rewrite pretty_N_go_0. repeat split. intros H. lia.
  - rewrite pretty_N_go_step by lia.
    destruct (IH (x / 10)%N (N.div_lt x 10%N ltac:(lia) ltac:(lia))
                (String (pretty_N_char (x mod 10)) s)) as (ds & E & Hd & Hv & _).
    destruct (pretty_N_char_digit (x mod 10)%N (N.mod_lt x 10%N ltac:(lia))) as [Hc Hcv].
    exists (ds ++ [pretty_N_char (x mod 10)]). split; [|split; [|split]].
    + rewrite E, <- app_assoc. reflexivity.
    + rewrite forallb_app, Hd. simpl. rewrite Hc. reflexivity.
    + rewrite map_app. simpl. rewrite decimal_snoc, Hv, Hcv.
      pose proof (N.div_mod x 10%N ltac:(lia)). lia.
    + intros _ E'. apply app_eq_nil in E' as [_ E']. discriminate.
Qed.

Lemma digitpart_go_digits (l : list ascii) (acc : list Z) :
  forallb Text.is_digit l = true ->
  Parse.digitpart_go l acc = (rev acc ++ map Text.digit_value l, []).
Proof.
  revert acc. induction l as [|c l IH]; intros acc H.
  - simpl. rewrite app_nil_r. reflexivity.
  - simpl in H. apply andb_true_iff in H as [Hc Hl]. cbn [Parse.digitpart_go].
    rewrite Hc, (IH _ Hl). simpl. rewrite <- app_assoc. reflexivity.
Qed.

Lemma digitpart_digits (l : list ascii) :
  forallb Text.is_digit l = true -> Parse.digitpart l = (map Text.digit_value l, []).
Proof.
  intros H. destruct l as [|c l]; [reflexivity|].
  unfold Parse.digitpart. pose proof H as H'. simpl in H'. apply andb_true_iff in H' as [-> _].
  apply (digitpart_go_digits (c :: l) [] H).
Qed.

Lemma digit_facts (c : ascii) : Text.is_digit c = true ->
  Text.is_space c = false /\ c <> "-"%char /\ c <> "+"%char /\ Text.to_lower c = c.
Proof. destruct c as [[] [] [] [] [] [] [] []]; vm_compute; intros; repeat split; congruence. Qed.

Lemma digits_clean (ds : list ascii) :
  forallb Text.is_digit ds = true -> starts_clean ds /\ starts_clean (rev ds).
Proof.
  intros H. rewrite forallb_forall in H. split.
  - destruct ds as [|c r]; [exact I|]. apply digit_facts, H. left. reflexivity.
  - destruct (rev ds) as [|c r] eqn:E; [exact I|]. apply digit_facts, H.
    apply in_rev. rewrite E. left. reflexivity.
Qed.

Lemma sign_digits (ds : list ascii) :
  forallb Text.is_digit ds = true -> Parse.sign ds = (false, ds).
Proof.
  destruct ds as [|c r]; [reflexivity|]. simpl. intros H.
  apply andb_true_iff in H as [H _]. destruct (digit_facts c H) as (_ & Hm & Hp & _).
  destruct c as [[] [] [] [] [] [] [] []]; try reflexivity; congruence.
Qed.

(** The text of an integer: its digits, after a minus sign when it is
    negative. *)
Lemma of_int_digits (n : Z) :
  exists ds, list_ascii_of_string (Text.of_int n)
             = (if n <? 0 then ["-"%char] else []) ++ ds
    /\ ds <> [] /\ forallb Text.is_digit ds = true
    /\ Parse.decimal (map Text.digit_value ds) = Z.abs n.
Proof.
  assert (P : forall p : positive, exists ds,
            list_ascii_of_string (pretty (N.pos p)) = ds
            /\ ds <> [] /\ forallb Text.is_digit ds = true
            /\ Parse.decimal (map Text.digit_value ds) = Z.pos p).
  { intros p. unfold pretty, pretty_N. destruct (decide (N.pos p = 0%N)); [discriminate|].
    destruct (pretty_N_go_digits (N.pos p) "") as (ds & E & Hd & Hv & Hne).
    exists ds. simpl in E. rewrite app_nil_r in E.
    split; [exact E|]. split; [apply Hne; lia|]. split; [exact Hd|exact Hv]. }
  unfold Text.of_int. destruct n as [|p|p].
  - exists ["0"%char]. repeat split. discriminate.
  - destruct (P p) as (ds & E & H). exists ds. split; [exact E|exact H].
  - destruct (P p) as (ds & E & H). exists ds. split; [|exact H].
    change (pretty (Z.neg p)) with ("-" +:+ pretty (N.pos p)).
    rewrite list_of_append, E. reflexivity.
Qed.

Lemma strip_chars_of_int (n : Z) :
  Text.strip_chars (list_ascii_of_string (Text.of_int n)) = list_ascii_of_string (Text.of_int n).
Proof.
  destruct (of_int_digits n) as (ds & E & Hne & Hd & _). rewrite E.
  destruct (digits_clean ds Hd) as [H1 H2].
  apply strip_chars_fixed.
  - destruct (n <? 0); [reflexivity|exact H1].
  - rewrite rev_app_distr. destruct (rev ds) as [|c r] eqn:Er; [|exact H2].
    apply (f_equal (@rev ascii)) in Er. rewrite rev_involutive in Er. contradiction.
Qed.


Lemma of_int_not_blank (n : Z) : Text.of_int n <> "" /\ Text.of_int n <> "-".
Proof.
  destruct (of_int_digits n) as (ds & E & Hne & Hd & _).
  split; intros H; rewrite H in E; destruct (n <? 0); simpl in E.
  - discriminate.
  - symmetry in E. contradiction.
  - injection E as E. symmetry in E. contradiction.
  - destruct ds as [|c [|? ?]]; try discriminate. injection E as <-. discriminate.
Qed.



Lemma digit_word (c : ascii) (r : list ascii) :
  Text.is_digit c = true ->
  String.eqb (Parse.lower_text (c :: r)) "inf" || String.eqb (Parse.lower_text (c :: r)) "infinity"
  = false
  /\ String.eqb (Parse.lower_text (c :: r)) "nan" = false.
Proof.
  unfold Parse.lower_text. cbn [map string_of_list_ascii].
  destruct c as [[] [] [] [] [] [] [] []]; vm_compute; intros H; try discriminate;
    split; reflexivity.
Qed.

(** [float(str(n))] is the float nearest to [n]. *)
Lemma float_of_string_of_int (n : Z) :
  Parse.float_of_string (Text.of_int n) = Ok (Float.of_ratio (n <? 0) (Z.abs n) 1).
Proof.
  unfold Parse.float_of_string. rewrite strip_chars_of_int.
  destruct (of_int_digits n) as (ds & E & Hne & Hd & Hv). rewrite E.
  assert (S : Parse.sign ((if n <? 0 then ["-"%char] else []) ++ ds) = (n <? 0, ds)).
  { destruct (n <? 0); [reflexivity|apply sign_digits; exact Hd]. }
  rewrite S. destruct ds as [|c r]; [contradiction|].
  pose proof Hd as Hc. simpl in Hc. apply andb_true_iff in Hc as [Hc _].
  destruct (digit_word c r Hc) as [-> ->].
  rewrite (digitpart_digits (c :: r) Hd). cbn [Parse.exponent].
  rewrite app_nil_r. cbn [map] in *. rewrite Hv. cbn [length Z.of_nat].
  change (0 - 0) with 0. change (0 <=? 0) with true. cbn iota.
  rewrite Z.pow_0_r, Z.mul_1_r. reflexivity.
Qed.

(** X24.  [parse_money] reads a whole dollar amount back: a cell that is
    the decimal text of [n] once its commas and dollar signs are dropped
    (as in "$1,234,567" or "-$500") parses to the float nearest to [n].
    The function never raises. *)
Theorem parse_money_of_int (text : string) (n : Z) :
  Str.remove_chars [","%char; "$"%char] (Text.strip text) = Text.of_int n ->
  parse_money text = Ok (Some (Float.of_ratio (n <? 0) (Z.abs n) 1))
  /\ forall other, exists o, parse_money other = Ok o.
Proof.
  intros H. split.
  - unfold parse_money. rewrite H. destruct (of_int_not_blank n) as [H1 H2].
    destruct (String.eqb_spec (Text.of_int n) ""); [contradiction|].
    destruct (String.eqb_spec (Text.of_int n) "-"); [contradiction|].
    simpl. rewrite float_of_string_of_int. reflexivity.
  - intros other. unfold parse_money. destruct (_ || _); [eauto|].
    destruct (float_of_string_outcome (Str.remove_chars [","%char; "$"%char] (Text.strip other)))
      as [[k ->]| ->]; eauto.
Qed.

Lemma parse_money_of_int_witness :
  parse_money "-$1,500" = Ok (Some (Float.of_ratio (-1500 <? 0) (Z.abs (-1500)) 1))
  /\ forall other, exists o, parse_money other = Ok o.
Proof. apply (parse_money_of_int "-$1,500" (-1500)). vm_compute. reflexivity. Defined.
